(** * containerd-hvf: the VM lifecycle core of the shim, embedded in Rocq

    The development follows the Go sources of package [hvf]:
    - [pkg/hvf/vm.go]    : [NewVM], [Init], [setupRootFS], [getImageInfo],
                           [Pid], [Start], [Delete], [Kill], [Wait], [Status];
    - [pkg/hvf/shim.go]  : the task service ([TaskService.Delete],
                           [TaskService.Create] and the no-op operations);
    - the domain renderer: [RenderDomain].

    Go values are modelled as the code has them: [string] is a byte string,
    [int] is a 64-bit integer carried in [Z], a pointer that may be nil is an
    [option], a Go map is a [gmap].  A run-time panic is an outcome of its
    own, next to a normal return.  What the program reads from outside (the
    file system, the virtualization engine's answers, the clock, the random
    UUID source, the image inspection tool) is an explicit argument of the
    operation that consults it. *)

From Stdlib Require Import ZArith String Ascii List Bool Lia.
From stdpp Require Import base option list strings gmap fin_maps.

Import ListNotations.
Local Open Scope Z_scope.

(** ** Outcomes and the state monad with panics *)

(** The run-time panics this program can raise. *)
Inductive panic_value : Type :=
| NilDereference                       (* invalid memory address or nil pointer dereference *)
| IndexOutOfRange (index len : Z)      (* index out of range [index] with length len *)
| PanicString (msg : string).          (* panic("...") *)

(** A Go call either returns or panics; a panic unwinds the callers. *)
Inductive outcome (A : Type) : Type :=
| Ret (a : A)
| Panic (p : panic_value).
Arguments Ret {A} a.
Arguments Panic {A} p.

(** Stateful code threads its receiver: [M S A] runs on a state [S], and
    leaves the state as it is at the point of a panic. *)
Definition M (S A : Type) : Type := S -> outcome A * S.

Definition ret {S A} (a : A) : M S A := fun s => (Ret a, s).
Definition panic {S A} (p : panic_value) : M S A := fun s => (Panic p, s).
Definition bind {S A B} (m : M S A) (k : A -> M S B) : M S B :=
  fun s => match m s with
           | (Ret a, s') => k a s'
           | (Panic p, s') => (Panic p, s')
           end.
Definition gets {S A} (f : S -> A) : M S A := fun s => (Ret (f s), s).
Definition modify {S} (f : S -> S) : M S unit := fun s => (Ret tt, f s).

Declare Scope go_scope.
Delimit Scope go_scope with go.
Notation "x <- m ;; k" := (bind m (fun x => k))
  (at level 100, m at next level, right associativity) : go_scope.
Notation "m ;;; k" := (bind m (fun _ => k))
  (at level 100, right associativity) : go_scope.
Local Open Scope go_scope.

(** ** Package [strings] *)

Module Strings.

(** [strings.HasPrefix]. *)
Fixpoint HasPrefix (s pre : string) {struct pre} : bool :=
  match pre, s with
  | EmptyString, _ => true
  | String _ _, EmptyString => false
  | String p pre', String c s' => Ascii.eqb c p && HasPrefix s' pre'
  end.

Fixpoint drop (n : nat) (s : string) : string :=
  match n, s with
  | O, _ => s
  | S n', String _ s' => drop n' s'
  | S _, EmptyString => EmptyString
  end.

(** The first occurrence of [sep] in [s], as [strings.Index] finds it:
    the text before it and the text after it. *)
Fixpoint Cut (s sep : string) : option (string * string) :=
  if HasPrefix s sep then Some (EmptyString, drop (String.length sep) s)
  else match s with
       | EmptyString => None
       | String c s' =>
           match Cut s' sep with
           | Some (before, after) => Some (String c before, after)
           | None => None
           end
       end.

(** [strings.Contains(s, substr)] is [Index(s, substr) >= 0]. *)
Definition Contains (s substr : string) : bool :=
  match Cut s substr with Some _ => true | None => false end.

(** [strings.Split(s, sep)] for a non-empty [sep]: every occurrence of
    [sep] cuts, so the result has one more element than there are
    occurrences.  The remainder gets shorter at each cut, so the length
    of [s] bounds the number of cuts. *)
Fixpoint genSplit (fuel : nat) (s sep : string) : list string :=
  match fuel with
  | O => [s]
  | S fuel' =>
      match Cut s sep with
      | None => [s]
      | Some (before, after) => before :: genSplit fuel' after sep
      end
  end.

Fixpoint explode (s : string) : list string :=
  match s with
  | EmptyString => []
  | String c s' => String c EmptyString :: explode s'
  end.

(** The program only ever splits on ["="]; with an empty separator Go
    explodes the string (into UTF-8 sequences, here bytes). *)
Definition Split (s sep : string) : list string :=
  match sep with
  | EmptyString => explode s
  | _ => genSplit (String.length s) s sep
  end.

(** [strings.Join]. *)
Fixpoint Join (elems : list string) (sep : string) : string :=
  match elems with
  | [] => EmptyString
  | [e] => e
  | e :: rest => e +:+ sep +:+ Join rest sep
  end.

(** Whether byte [c] occurs in [s]. *)
Fixpoint has_byte (c : ascii) (s : string) : bool :=
  match s with
  | EmptyString => false
  | String d s' => Ascii.eqb d c || has_byte c s'
  end.

End Strings.

(** ** Package [path/filepath] (Unix) *)

Module Filepath.

(** [Clean] works on the path's elements: empty elements and ["."] are
    dropped, [".."] removes the element before it, or is kept at the
    front of a relative path, or dropped at the root.  [out] is the
    output so far, last element first. *)
Fixpoint cleanElems (rooted : bool) (elems : list string) (out : list string)
  : list string :=
  match elems with
  | [] => rev out
  | e :: rest =>
      if String.eqb e "" || String.eqb e "." then cleanElems rooted rest out
      else if String.eqb e ".." then
        match out with
        | prev :: out' =>
            if String.eqb prev ".." then cleanElems rooted rest (e :: out)
            else cleanElems rooted rest out'
        | [] =>
            if rooted then cleanElems rooted rest out
            else cleanElems rooted rest (e :: out)
        end
      else cleanElems rooted rest (e :: out)
  end.

Definition Clean (path : string) : string :=
  match path with
  | EmptyString => "."
  | String c _ =>
      let rooted := Ascii.eqb c "/" in
      let out := cleanElems rooted (Strings.Split path "/") [] in
      if rooted then "/" +:+ Strings.Join out "/"
      else match out with
           | [] => "."
           | _ => Strings.Join out "/"
           end
  end.

(** [Join]: the elements from the first non-empty one on, joined with the
    separator and cleaned; the empty string if all are empty. *)
Fixpoint Join (elem : list string) : string :=
  match elem with
  | [] => EmptyString
  | e :: rest =>
      if String.eqb e "" then Join rest
      else Clean (Strings.Join elem "/")
  end.

End Filepath.

(** ** Package [strconv] *)

Module Strconv.

Definition digit (c : ascii) : option Z :=
  let n := Z.of_N (N_of_ascii c) in
  if (48 <=? n) && (n <=? 57) then Some (n - 48) else None.

(** Base-10 digits only, most significant first. *)
Fixpoint parseDigits (s : string) (acc : Z) : option Z :=
  match s with
  | EmptyString => Some acc
  | String c s' =>
      match digit c with
      | Some d => parseDigits s' (acc * 10 + d)
      | None => None
      end
  end.

Definition maxInt : Z := 2 ^ 63 - 1.
Definition minInt : Z := - 2 ^ 63.

(** [strconv.Atoi] on a 64-bit platform: an optional sign, at least one
    digit, nothing else, and a value in the range of [int]; [None] stands
    for the returned error (syntax or range). *)
Definition Atoi (s : string) : option Z :=
  let '(neg, body) :=
    match s with
    | String "-" s' => (true, s')
    | String "+" s' => (false, s')
    | _ => (false, s)
    end in
  match body with
  | EmptyString => None
  | _ =>
      match parseDigits body 0 with
      | None => None
      | Some n =>
          let v := if neg then - n else n in
          if (minInt <=? v) && (v <=? maxInt) then Some v else None
      end
  end.

End Strconv.

(** Go's conversion [uint32(x)] of an [int]. *)
Definition uint32 (x : Z) : Z := x mod 2 ^ 32.

(** Indexing a slice: [l[i]], which panics out of range. *)
Definition index_slice {A} (l : list A) (i : nat) : outcome A :=
  match l !! i with
  | Some x => Ret x
  | None => Panic (IndexOutOfRange (Z.of_nat i) (Z.of_nat (length l)))
  end.

(** ** Errors *)

Inductive Errno : Type := ENOENT | EEXIST | ENOTEMPTY | EISDIR | ENOTDIR | ELOOP.

Definition errno_text (e : Errno) : string :=
  match e with
  | ENOENT => "no such file or directory"
  | EEXIST => "file exists"
  | ENOTEMPTY => "directory not empty"
  | EISDIR => "is a directory"
  | ENOTDIR => "not a directory"
  | ELOOP => "too many levels of symbolic links"
  end.

(** The [error] values that flow through the program. *)
Inductive error : Type :=
| ErrInvalidImage                               (* the package's sentinel, errors.New("invalid image") *)
| LibvirtError (code : Z) (message : string)    (* libvirt.Error{Code, Message} *)
| PathError (op path : string) (errno : Errno)  (* *fs.PathError, from os.Stat, os.ReadFile, os.Remove *)
| LinkError (op old new : string) (errno : Errno) (* *os.LinkError, from os.Symlink *)
| ErrorString (msg : string)                    (* any other error, by its text *)
| Wrapped (cause : error) (msg : string).       (* errors.Wrap(cause, msg), errors.Wrapf *)

(** The method [Error()]. *)
Fixpoint error_text (e : error) : string :=
  match e with
  | ErrInvalidImage => "invalid image"
  | LibvirtError _ message => message
  | PathError op path errno => op +:+ " " +:+ path +:+ ": " +:+ errno_text errno
  | LinkError op old new errno =>
      op +:+ " " +:+ old +:+ " " +:+ new +:+ ": " +:+ errno_text errno
  | ErrorString msg => msg
  | Wrapped cause msg => msg +:+ ": " +:+ error_text cause
  end.

(** [errors.Cause]: the error under the wrapping. *)
Fixpoint Cause (e : error) : error :=
  match e with
  | Wrapped cause _ => Cause cause
  | _ => e
  end.

(** An error is the spec's InvalidImage when it wraps the sentinel. *)
Definition is_InvalidImage (e : error) : bool :=
  match Cause e with ErrInvalidImage => true | _ => false end.

(** [os.IsNotExist]: a path or link error carrying ENOENT. *)
Definition os_IsNotExist (e : error) : bool :=
  match e with
  | PathError _ _ ENOENT | LinkError _ _ _ ENOENT => true
  | _ => false
  end.

(** libvirt's error number for "domain not found". *)
Definition ErrNoDomain : Z := 42.

(** [libvirt.IsNotFound]: the error is a libvirt error, possibly wrapped,
    whose code is [ErrNoDomain]. *)
Fixpoint IsNotFound (e : error) : bool :=
  match e with
  | LibvirtError code _ => code =? ErrNoDomain
  | Wrapped cause _ => IsNotFound cause
  | _ => false
  end.

(** ** The file system *)

Inductive node : Type :=
| File (content : string)
| Dir
| Symlink (target : string).

(** The file system as the calls of package [os] see it: the node at each
    path. *)
Abbreviation FS := (gmap string node).

Record FileInfo : Type := { fi_Size : Z; fi_IsDir : bool }.

(** [filepath.Dir]: the path up to and including its last separator,
    cleaned. *)
Definition filepath_Dir (path : string) : string :=
  match removelast (Strings.Split path "/") with
  | [] => Filepath.Clean ""
  | init => Filepath.Clean (Strings.Join init "/" +:+ "/")
  end.

Definition MAXSYMLINKS : nat := 32.

(** Looks up the node at [path] and follows the symbolic links at its end.
    The map gives the node at each path that exists; the directories above
    [path] are not walked, so that of a path without a node only its
    absence is known, not which component the system misses (ENOENT) or
    finds not to be a directory (ENOTDIR).  Where the error number matters
    and the directory above [path] is not known to be one, what a caller
    does with a failure is therefore stated on the answer of [os_Stat],
    not on the map. *)
Fixpoint resolve (fuel : nat) (fs : FS) (op path at_ : string) : error + node :=
  match fs !! at_ with
  | None => inl (PathError op path ENOENT)
  | Some (Symlink target) =>
      match fuel with
      | O => inl (PathError op path ELOOP)
      | S fuel' =>
          let next := if Strings.HasPrefix target "/" then Filepath.Clean target
                      else Filepath.Join [filepath_Dir at_; target] in
          resolve fuel' fs op path next
      end
  | Some n => inr n
  end.

(** [os.Stat]. *)
Definition os_Stat (fs : FS) (path : string) : error + FileInfo :=
  match resolve MAXSYMLINKS fs "stat" path path with
  | inl e => inl e
  | inr (File content) =>
      inr {| fi_Size := Z.of_nat (String.length content); fi_IsDir := false |}
  | inr _ => inr {| fi_Size := 0; fi_IsDir := true |}   (* a directory's size is the system's choice *)
  end.

(** [os.ReadFile]. *)
Definition os_ReadFile (fs : FS) (path : string) : error + string :=
  match resolve MAXSYMLINKS fs "open" path path with
  | inl e => inl e
  | inr (File content) => inr content
  | inr _ => inl (PathError "read" path EISDIR)
  end.

(** [os.Symlink(oldname, newname)] creates [newname] as a link to
    [oldname]; [newname] must not exist and its directory must. *)
Definition os_Symlink (fs : FS) (oldname newname : string) : option error * FS :=
  match fs !! newname with
  | Some _ => (Some (LinkError "symlink" oldname newname EEXIST), fs)
  | None =>
      match resolve MAXSYMLINKS fs "symlink" newname (filepath_Dir newname) with
      | inr Dir => (None, <[newname := Symlink oldname]> fs)
      | inr _ => (Some (LinkError "symlink" oldname newname ENOTDIR), fs)
      | inl _ => (Some (LinkError "symlink" oldname newname ENOENT), fs)
      end
  end.

Definition has_child (fs : FS) (path : string) : bool :=
  existsb (fun kv => Strings.HasPrefix (fst kv) (path +:+ "/") &&
                     negb (String.eqb (fst kv) (path +:+ "/")))
          (map_to_list fs).

(** [os.Remove]: removes the file, the link itself, or the empty directory. *)
Definition os_Remove (fs : FS) (path : string) : option error * FS :=
  match fs !! path with
  | None => (Some (PathError "remove" path ENOENT), fs)
  | Some Dir =>
      if has_child fs path then (Some (PathError "remove" path ENOTEMPTY), fs)
      else (None, delete path fs)
  | Some _ => (None, delete path fs)
  end.

(** ** The domain description of package [libvirtxml]

    The fields [RenderDomain] sets; a pointer to a struct is an [option],
    a pointer to an empty struct (an element that is present or not) a
    [bool]. *)

Module Libvirtxml.

Record DomainMemory : Type := { Memory_Value : Z; Memory_Unit : string }.

Record DomainCPU : Type :=
  { CPU_Mode : string; CPU_Match : string; CPU_Model : option string }.

Record DomainOSType : Type :=
  { OSType_Arch : string; OSType_Machine : string; OSType_Type : string }.

Record DomainOS : Type :=
  { OS_Firmware : string;
    OS_Type : option DomainOSType;
    OS_BootDevices : list string }.

Record DomainFeatureList : Type := { Features_ACPI : bool; Features_APIC : bool }.

Record DomainController : Type :=
  { Controller_Type : string; Controller_Model : string }.

Record DomainDiskDriver : Type :=
  { Driver_Name : string; Driver_Type : string; Driver_Cache : string }.

Record DomainDiskTarget : Type := { Target_Dev : string; Target_Bus : string }.

Record DomainDisk : Type :=
  { Disk_Device : string;
    Disk_Driver : option DomainDiskDriver;
    Disk_SourceFile : option string;       (* Source.File.File *)
    Disk_Target : option DomainDiskTarget;
    Disk_ReadOnly : bool;
    Disk_AddressDrive : bool }.

Record DomainInput : Type := { Input_Type : string; Input_Bus : string }.

Record DomainConsole : Type :=
  { Console_TargetType : option string;    (* Target.Type *)
    Console_SourcePty : bool }.            (* Source.Pty *)

Record DomainGraphicVNC : Type :=
  { VNC_AutoPort : string;
    VNC_Listen : string;
    VNC_Listeners : list string }.         (* Listeners[i].Address.Address *)

Record DomainGraphic : Type := { Graphic_VNC : option DomainGraphicVNC }.

Record DomainVideoModel : Type :=
  { Video_Type : string; Video_Heads : Z; Video_Primary : string }.

Record DomainDeviceList : Type :=
  { Devices_Emulator : string;
    Devices_Controllers : list DomainController;
    Devices_Disks : list DomainDisk;
    Devices_Inputs : list DomainInput;
    Devices_Consoles : list DomainConsole;
    Devices_Graphics : list DomainGraphic;
    Devices_Videos : list DomainVideoModel;
    Devices_MemBalloon : option string }.  (* MemBalloon.Model *)

Record Domain : Type :=
  { Type_ : string;
    Name : string;
    UUID : string;
    Memory : option DomainMemory;
    CurrentMemory : option DomainMemory;
    CPU : option DomainCPU;
    VCPU : option Z;                       (* VCPU.Value *)
    OS : option DomainOS;
    Features : option DomainFeatureList;
    Clock : option string;                 (* Clock.Offset *)
    OnPoweroff : string;
    OnReboot : string;
    OnCrash : string;
    Devices : option DomainDeviceList;
    QEMUCommandline : option (list string) }. (* QEMUCommandline.Args[i].Value *)

End Libvirtxml.
Import Libvirtxml.

(** ** Constants of [vm.go] *)

Definition defaultRootImagePath : string := "disk".
Definition defaultRootImageFileName : string := "boot.qcow2".
Definition defaultCloudInitImageFileName : string := "cloudinit.iso".

(** ** [RenderDomain]

    [uuid.New().String()] draws a fresh random UUID at each call; [uuid] is
    the string drawn at this one. *)
Definition RenderDomain (id bundle : string) (uuid : string) : Domain :=
  {| Type_ := "hvf";
     Name := id;
     UUID := uuid;
     Memory := Some {| Memory_Value := 2; Memory_Unit := "GiB" |};
     CurrentMemory := Some {| Memory_Value := 2; Memory_Unit := "GiB" |};
     CPU := Some {| CPU_Mode := "custom"; CPU_Match := "exact"; CPU_Model := Some "host" |};
     VCPU := Some 8;
     OS := Some {| OS_Firmware := "efi";
                   OS_Type := Some {| OSType_Arch := "aarch64";
                                      OSType_Machine := "virt";
                                      OSType_Type := "hvm" |};
                   OS_BootDevices := ["hd"] |};
     Features := Some {| Features_ACPI := true; Features_APIC := true |};
     Clock := Some "localtime";
     OnPoweroff := "destroy";
     OnReboot := "restart";
     OnCrash := "restart";
     Devices := Some
       {| Devices_Emulator := "/opt/homebrew/bin/qemu-system-aarch64";
          Devices_Controllers :=
            [ {| Controller_Type := "usb"; Controller_Model := "qemu-xhci" |} ];
          Devices_Disks :=
            [ {| Disk_Device := "cdrom";
                 Disk_Driver := Some {| Driver_Name := "qemu"; Driver_Type := "raw";
                                        Driver_Cache := "none" |};
                 Disk_SourceFile := Some
                   (Filepath.Join [bundle; "rootfs"; defaultRootImagePath;
                                   defaultCloudInitImageFileName]);
                 Disk_Target := Some {| Target_Dev := "vda"; Target_Bus := "sata" |};
                 Disk_ReadOnly := true;
                 Disk_AddressDrive := true |};
              {| Disk_Device := "disk";
                 Disk_Driver := Some {| Driver_Name := "qemu"; Driver_Type := "qcow2";
                                        Driver_Cache := "" |};
                 Disk_SourceFile := Some
                   (Filepath.Join [bundle; "rootfs"; defaultRootImagePath;
                                   defaultRootImageFileName]);
                 Disk_Target := Some {| Target_Dev := "vdb"; Target_Bus := "virtio" |};
                 Disk_ReadOnly := false;
                 Disk_AddressDrive := false |} ];
          Devices_Inputs :=
            [ {| Input_Type := "tablet"; Input_Bus := "usb" |};
              {| Input_Type := "keyboard"; Input_Bus := "usb" |} ];
          Devices_Consoles :=
            [ {| Console_TargetType := Some "serial"; Console_SourcePty := true |} ];
          Devices_Graphics :=
            [ {| Graphic_VNC := Some {| VNC_AutoPort := "yes";
                                        VNC_Listen := "0.0.0.0";
                                        VNC_Listeners := ["0.0.0.0"] |} |} ];
          Devices_Videos :=
            [ {| Video_Type := "virtio"; Video_Heads := 1; Video_Primary := "yes" |} ];
          Devices_MemBalloon := Some "virtio" |};
     QEMUCommandline := Some
       [ "-netdev"; "vmnet-shared,id=net0";
         "-device"; "virtio-net-device,netdev=net0" ] |}.

(** ** Data of [vm.go] *)

(** [time.Time], as nanoseconds; the zero value is [0]. *)
Abbreviation Time := Z.

Record Stdio : Type :=
  { Stdin : string; Stdout : string; Stderr : string; Terminal : bool }.

(** [types.Mount]. *)
Record Mount : Type :=
  { Mount_Type : string; Mount_Source : string;
    Mount_Target : string; Mount_Options : list string }.

(** [specs.Spec], with the one part the shim reads. *)
Record Process : Type := { Process_Env : list string }.
Record Spec : Type := { Spec_Process : option Process }.

(** [libvirt.Domain], the engine's handle of a defined domain. *)
Record DomainMeta : Type :=
  { Meta_Name : string; Meta_UUID : string; Meta_ID : Z }.

Definition zeroDomainMeta : DomainMeta :=
  {| Meta_Name := ""; Meta_UUID := ""; Meta_ID := 0 |}.

(** [containerd.ProcessStatus]. *)
Inductive ProcessStatus : Type :=
| Running | Created | Stopped | Paused | Pausing | Unknown.

(** [containerd.ExitStatus]. *)
Record ExitStatus : Type :=
  { ExitCode : Z; ExitTime : Time; ExitError : option error }.

Definition NewExitStatus (code : Z) (t : Time) (err : option error) : ExitStatus :=
  {| ExitCode := code; ExitTime := t; ExitError := err |}.

(** The struct [VM].  [vm_domain] is the pointer [domain], nil until [Init]
    has rendered the description; [vm_ctxDone] tells whether [cancel] was
    called on the VM's context.  The [client] field is left out: it is set
    once by [NewVM] and every engine call's answer is an argument of the
    operation that makes the call. *)
Record VM : Type :=
  { vm_id : string;
    vm_stdio : Stdio;
    vm_bundle : string;
    vm_pid : Z;
    vm_status : Z;
    vm_started : bool;
    vm_exited : bool;
    vm_exitedAt : Time;
    vm_spec : Spec;
    vm_mounts : list Mount;
    vm_env : gmap string string;
    vm_domainMeta : DomainMeta;
    vm_domain : option Domain;
    vm_ctxDone : bool }.

Definition set_pid (p : Z) (v : VM) : VM :=
  {| vm_id := vm_id v; vm_stdio := vm_stdio v; vm_bundle := vm_bundle v;
     vm_pid := p; vm_status := vm_status v; vm_started := vm_started v;
     vm_exited := vm_exited v; vm_exitedAt := vm_exitedAt v; vm_spec := vm_spec v;
     vm_mounts := vm_mounts v; vm_env := vm_env v; vm_domainMeta := vm_domainMeta v;
     vm_domain := vm_domain v; vm_ctxDone := vm_ctxDone v |}.

Definition set_started (b : bool) (v : VM) : VM :=
  {| vm_id := vm_id v; vm_stdio := vm_stdio v; vm_bundle := vm_bundle v;
     vm_pid := vm_pid v; vm_status := vm_status v; vm_started := b;
     vm_exited := vm_exited v; vm_exitedAt := vm_exitedAt v; vm_spec := vm_spec v;
     vm_mounts := vm_mounts v; vm_env := vm_env v; vm_domainMeta := vm_domainMeta v;
     vm_domain := vm_domain v; vm_ctxDone := vm_ctxDone v |}.

Definition set_domain (d : Domain) (v : VM) : VM :=
  {| vm_id := vm_id v; vm_stdio := vm_stdio v; vm_bundle := vm_bundle v;
     vm_pid := vm_pid v; vm_status := vm_status v; vm_started := vm_started v;
     vm_exited := vm_exited v; vm_exitedAt := vm_exitedAt v; vm_spec := vm_spec v;
     vm_mounts := vm_mounts v; vm_env := vm_env v; vm_domainMeta := vm_domainMeta v;
     vm_domain := Some d; vm_ctxDone := vm_ctxDone v |}.

Definition set_domainMeta (m : DomainMeta) (v : VM) : VM :=
  {| vm_id := vm_id v; vm_stdio := vm_stdio v; vm_bundle := vm_bundle v;
     vm_pid := vm_pid v; vm_status := vm_status v; vm_started := vm_started v;
     vm_exited := vm_exited v; vm_exitedAt := vm_exitedAt v; vm_spec := vm_spec v;
     vm_mounts := vm_mounts v; vm_env := vm_env v; vm_domainMeta := m;
     vm_domain := vm_domain v; vm_ctxDone := vm_ctxDone v |}.

(** The four assignments that end a successful [Kill]:
    [v.stdio.Terminal = true; v.exitedAt = time.Now(); v.exited = true;
    v.cancel()]. *)
Definition mark_terminated (now : Time) (v : VM) : VM :=
  {| vm_id := vm_id v;
     vm_stdio := {| Stdin := Stdin (vm_stdio v); Stdout := Stdout (vm_stdio v);
                    Stderr := Stderr (vm_stdio v); Terminal := true |};
     vm_bundle := vm_bundle v;
     vm_pid := vm_pid v; vm_status := vm_status v; vm_started := vm_started v;
     vm_exited := true; vm_exitedAt := now; vm_spec := vm_spec v;
     vm_mounts := vm_mounts v; vm_env := vm_env v; vm_domainMeta := vm_domainMeta v;
     vm_domain := vm_domain v; vm_ctxDone := true |}.

(** ** The world an operation runs in *)

Inductive Level : Type := ErrorLevel | InfoLevel.

(** A line written through logrus. *)
Record LogEntry : Type :=
  { log_level : Level; log_msg : string; log_err : option error }.

(** The receiver [st] (a [VM] or the task service), the file system and
    the log written so far (latest entry first). *)
Record World (S : Type) : Type :=
  { st : S; fs : FS; log : list LogEntry }.
Arguments st {S} w.
Arguments fs {S} w.
Arguments log {S} w.

Definition with_st {S} (f : S -> S) : M (World S) unit :=
  modify (fun w => {| st := f (st w); fs := fs w; log := log w |}).

Definition put_fs {S} (fs' : FS) : M (World S) unit :=
  modify (fun w => {| st := st w; fs := fs'; log := log w |}).

Definition logrus {S} (lvl : Level) (err : option error) (msg : string)
  : M (World S) unit :=
  modify (fun w => {| st := st w; fs := fs w;
                      log := {| log_level := lvl; log_msg := msg; log_err := err |}
                             :: log w |}).

(** [defer]: [deferred] runs when [body] returns and also when it panics;
    the panic then goes on. *)
Definition defer {S A} (body : M S A) (deferred : M S unit) : M S A :=
  fun s => match body s with
           | (o, s') =>
               match deferred s' with
               | (Ret _, s'') => (o, s'')
               | (Panic p, s'') => (Panic p, s'')
               end
           end.

(** [v.domain.Name]: a nil [domain] panics. *)
Definition domain_Name : M (World VM) string :=
  v <- gets st ;;
  match vm_domain v with
  | Some d => ret (Name d)
  | None => panic NilDereference
  end.

(** ** [NewVM] *)

(** The loop over [spec.Process.Env]:
    [split := strings.Split(s, "="); env[split[0]] = split[1]]. *)
Fixpoint parseEnv (entries : list string) (env : gmap string string)
  : outcome (gmap string string) :=
  match entries with
  | [] => Ret env
  | s :: rest =>
      let split := Strings.Split s "=" in
      match index_slice split 0 with
      | Panic p => Panic p
      | Ret name =>
          match index_slice split 1 with
          | Panic p => Panic p
          | Ret value => parseEnv rest (<[name := value]> env)
          end
      end
  end.

(** [connect] is the answer of [client.Connect()].  The result is the pair
    of the new VM (a nil pointer on failure) and the error. *)
Definition NewVM (id : string) (stdio : Stdio) (spec : Spec) (bundle : string)
    (rootFS : list Mount) (connect : option error)
  : outcome (option VM * option error) :=
  match connect with
  | Some err => Ret (None, Some (Wrapped err "failed to connect to libvirtd"))
  | None =>
      let parsed :=
        match Spec_Process spec with
        | Some process => parseEnv (Process_Env process) ∅
        | None => Ret ∅
        end in
      match parsed with
      | Panic p => Panic p
      | Ret env =>
          Ret (Some {| vm_id := id; vm_stdio := stdio; vm_bundle := bundle;
                       vm_pid := 0; vm_status := 0;
                       vm_started := false; vm_exited := false; vm_exitedAt := 0;
                       vm_spec := spec; vm_mounts := rootFS; vm_env := env;
                       vm_domainMeta := zeroDomainMeta; vm_domain := None;
                       vm_ctxDone := false |},
               None)
      end
  end.

(** ** [setupRootFS] and [getImageInfo] *)

(** [QemuImageInfo], as decoded from the tool's JSON output. *)
Record QemuImageInfo : Type :=
  { Info_Path : string; Info_VirtualSize : Z; Info_Format : string;
    Info_DirtyFlag : bool }.

(** What running [qemu-img info <path> --output=json] gives:
    - the command could not be started ([cmd.Err] is set, and [Output]
      returns it);
    - the command ran and [Output] returned an error ([cmd.Err] is nil);
    - the command printed its output, on which [json.Unmarshal] fails or
      yields the fields. *)
Inductive QemuImgRun : Type :=
| NotStarted (cmdErr : error)
| RunFailed (err : error)
| Printed (decoded : error + QemuImageInfo).

Definition getImageInfo (run : QemuImgRun) (path : string)
  : outcome (error + QemuImageInfo) :=
  match run with
  | NotStarted cmdErr =>
      Ret (inl (Wrapped cmdErr ("failed to run qemu-img info at " +:+ path +:+
                                ", err " +:+ error_text cmdErr)))
  | RunFailed _ => Panic NilDereference     (* cmd.Err.Error() on a nil cmd.Err *)
  | Printed (inl err) => Ret (inl (Wrapped err "failed to read qemu-img info"))
  | Printed (inr info) =>
      Ret (inr (if String.eqb (Info_Format info) ""
                then {| Info_Path := Info_Path info;
                        Info_VirtualSize := Info_VirtualSize info;
                        Info_Format := "raw";
                        Info_DirtyFlag := Info_DirtyFlag info |}
                else info))
  end.

(** The three paths the loop over the mounts leaves behind:
    [(bootImage, cloudinitImage, imagePath)], each set anew by every bind
    mount. *)
Fixpoint selectImage (mounts : list Mount) (acc : string * string * string)
  : string * string * string :=
  match mounts with
  | [] => acc
  | mount :: rest =>
      if negb (String.eqb (Mount_Type mount) "bind") then selectImage rest acc
      else
        let imagePath := Filepath.Join [Mount_Source mount; defaultRootImagePath] in
        let bootImage := Filepath.Join [imagePath; defaultRootImageFileName] in
        let cloudinitImage := Filepath.Join [imagePath; defaultCloudInitImageFileName] in
        selectImage rest (bootImage, cloudinitImage, imagePath)
  end.

(** [qemuImg] is the image inspection tool: what running it on a path
    gives. *)
Definition setupRootFS (qemuImg : string -> QemuImgRun) : M (World VM) (option error) :=
  v <- gets st ;;
  let '(bootImage, cloudinitImage, imagePath) := selectImage (vm_mounts v) ("", "", "") in
  if String.eqb bootImage "" then
    ret (Some (Wrapped ErrInvalidImage "no bind type mounts"))
  else
    files <- gets fs ;;
    match os_Stat files bootImage with
    | inl err => ret (Some err)
    | inr _ =>
        match getImageInfo (qemuImg bootImage) bootImage with
        | Panic p => panic p
        | Ret (inl err) => ret (Some err)
        | Ret (inr bootInfo) =>
            if negb (String.eqb (Info_Format bootInfo) "qcow2") then
              ret (Some (Wrapped ErrInvalidImage (bootImage +:+ " is not a qcow2 image")))
            else
              match os_Stat files cloudinitImage with
              | inl err => ret (Some err)
              | inr _ =>
                  let '(err, files') :=
                    os_Symlink files imagePath
                      (Filepath.Join [vm_bundle v; "rootfs"; defaultRootImagePath]) in
                  put_fs files' ;;;
                  ret err
              end
        end
    end.

(** ** [Init] *)

(** What [Init] reads from outside: the inspection tool, the UUID that
    [RenderDomain] draws, the result of [v.domain.Marshal()] and the
    engine's answer to [DomainDefineXML]. *)
Record InitEnv : Type :=
  { init_qemuImg : string -> QemuImgRun;
    init_uuid : string;
    init_marshal : error + string;
    init_define : error + DomainMeta }.

Definition Init (e : InitEnv) : M (World VM) (option error) :=
  err <- setupRootFS (init_qemuImg e) ;;
  match err with
  | Some err => ret (Some (Wrapped err "failed to set up rootfs"))
  | None =>
      v <- gets st ;;
      with_st (set_domain (RenderDomain (vm_id v) (vm_bundle v) (init_uuid e))) ;;;
      match init_marshal e with
      | inl err => ret (Some err)
      | inr _ =>
          match init_define e with
          | inl err => ret (Some err)
          | inr domainMeta =>
              with_st (set_domainMeta domainMeta) ;;;
              ret None
          end
      end
  end.

(** ** [Pid], [Start], [Delete], [Kill] *)

Definition pidFilePath (name : string) : string :=
  "/opt/homebrew/var/run/libvirt/qemu/" +:+ name +:+ ".pid".

Definition Pid : M (World VM) Z :=
  name <- domain_Name ;;
  if String.eqb name "" then ret 0
  else
    v <- gets st ;;
    if negb (vm_pid v =? 0) then ret (uint32 (vm_pid v))
    else
      let pidFile := pidFilePath name in
      files <- gets fs ;;
      match os_Stat files pidFile with
      | inl _ => ret 0
      | inr stat =>
          if fi_Size stat =? 0 then ret 0
          else
            match os_ReadFile files pidFile with
            | inl _ => ret 0
            | inr data =>
                match Strconv.Atoi data with
                | None => ret 0
                | Some pid =>
                    with_st (set_pid pid) ;;;
                    ret (uint32 pid)
                end
            end
      end.

(** [create] is the engine's answer to [DomainCreate]. *)
Definition Start (create : option error) : M (World VM) (option error) :=
  match create with
  | Some err =>
      name <- domain_Name ;;
      ret (Some (Wrapped err ("failed to start VM '" +:+ name +:+ "'")))
  | None =>
      with_st (set_started true) ;;;
      ret None
  end.

(** [undefine] is the engine's answer to [DomainUndefineFlags].  The
    deferred function removes the link under the bundle when [Delete]
    returns. *)
Definition Delete (undefine : option error) : M (World VM) (ExitStatus * option error) :=
  defer
    (v <- gets st ;;
     match undefine with
     | Some err =>
         if negb (IsNotFound err)
         then ret (NewExitStatus 1 (vm_exitedAt v) (Some err), None)
         else ret (NewExitStatus 0 (vm_exitedAt v) None, None)
     | None => ret (NewExitStatus 0 (vm_exitedAt v) None, None)
     end)
    (v <- gets st ;;
     files <- gets fs ;;
     let '(removeErr, files') :=
       os_Remove files (Filepath.Join [vm_bundle v; "rootfs"; defaultRootImagePath]) in
     put_fs files' ;;;
     match removeErr with
     | Some err => logrus ErrorLevel (Some err) "failed to remove image path"
     | None => ret tt
     end).

(** [destroy] is the engine's answer to [DomainDestroy], [now] the clock
    read by [time.Now()].  The signal is accepted and not looked at. *)
Definition Kill (signal : Z) (now : Time) (destroy : option error)
  : M (World VM) (option error) :=
  match destroy with
  | Some err =>
      if IsNotFound err || Strings.Contains (error_text err) "is not running" then
        with_st (mark_terminated now) ;;;
        ret None
      else
        logrus ErrorLevel (Some err) "failed to destroy domain" ;;;
        name <- domain_Name ;;
        ret (Some (Wrapped err ("failed to stop VM '" +:+ name +:+ "'")))
  | None =>
      with_st (mark_terminated now) ;;;
      ret None
  end.

(** ** [Status] *)

(** [getState] is the engine's answer to [DomainGetState]: the error, or
    the state number. *)
Definition Status (getState : error + Z) : M (World VM) (ProcessStatus * option error) :=
  v <- gets st ;;
  if negb (vm_started v) then ret (Created, None)
  else
    pid <- Pid ;;
    if pid =? 0 then
      if vm_exited v then ret (Stopped, None) else ret (Unknown, None)
    else
      match getState with
      | inl err =>
          if Strings.Contains (error_text err) "not found" then
            if vm_exited v then ret (Stopped, None) else ret (Unknown, None)
          else ret (Unknown, Some err)
      | inr virDomainState =>
          if virDomainState =? 0 then ret (Created, None)
          else if virDomainState =? 1 then ret (Running, None)
          else if (virDomainState =? 3) || (virDomainState =? 7) then ret (Paused, None)
          else if virDomainState =? 4 then ret (Pausing, None)
          else if (virDomainState =? 5) || (virDomainState =? 6) then ret (Stopped, None)
          else ret (Unknown, None)
      end.

(** ** [Wait] *)

(** What wakes the polling goroutine of [Wait], or happens between two of
    its polls:
    - the ticker fires, and the engine answers the status query;
    - the VM's context is done ([Kill] was invoked), likewise; this case is
      ready only once [cancel] has been called;
    - the caller's context is done;
    - the outside world rewrites the file system. *)
Inductive WaitEvent : Type :=
| Tick (getState : error + Z)
| VMDone (getState : error + Z)
| CallerDone
| Outside (files : FS).

Definition is_stopped (r : ProcessStatus * option error) : bool :=
  match r with
  | (Stopped, None) => true
  | _ => false
  end.

(** The goroutine's loop; [true] when the derived context got cancelled,
    which lets [Wait] return, [false] when the events are used up and
    [Wait] still blocks. *)
Fixpoint waitLoop (events : list WaitEvent) : M (World VM) bool :=
  match events with
  | [] => ret false
  | Tick getState :: rest =>
      r <- Status getState ;;
      if is_stopped r then ret true else waitLoop rest
  | VMDone getState :: rest =>
      v <- gets st ;;
      if vm_ctxDone v then
        r <- Status getState ;;
        if is_stopped r then ret true else waitLoop rest
      else waitLoop rest
  | CallerDone :: _ => ret true
  | Outside files :: rest =>
      put_fs files ;;;
      waitLoop rest
  end.

(** [Wait] returns the channel holding one exit status, always of code 0,
    or blocks ([None]). *)
Definition Wait (events : list WaitEvent) (now : Time)
  : M (World VM) (option (ExitStatus * option error)) :=
  done <- waitLoop events ;;
  if done then ret (Some (NewExitStatus 0 now None, None)) else ret None.

(** ** The task service of [shim.go] *)

(** The lifecycle events the service publishes. *)
Inductive Event : Type :=
| TaskCreate (containerID bundle : string) (rootfs : list Mount) (io : Stdio)
             (checkpoint : string) (pid : Z)
| TaskExecStarted (containerID execID : string) (pid : Z)
| TaskDelete (containerID : string) (pid : Z) (exitStatus : Z) (exitedAt : Time).

(** The struct [TaskService]: [ts_events] is the content of the channel
    [events], oldest first, and [ts_eventsClosed] whether [Shutdown] has
    closed it; [ts_vm] is the map from task id to VM; [ts_f] the open log
    file.  The lock, the signal channel and the always empty [processes]
    map hold no data of their own. *)
Record TaskService : Type :=
  { ts_id : string;
    ts_events : list Event;
    ts_eventsClosed : bool;
    ts_vm : gmap string VM;
    ts_shimAddress : string;
    ts_f : option string }.

Definition set_vm (id : string) (v : VM) (s : TaskService) : TaskService :=
  {| ts_id := ts_id s; ts_events := ts_events s; ts_eventsClosed := ts_eventsClosed s;
     ts_vm := <[id := v]> (ts_vm s);
     ts_shimAddress := ts_shimAddress s; ts_f := ts_f s |}.

Definition set_f (path : string) (s : TaskService) : TaskService :=
  {| ts_id := ts_id s; ts_events := ts_events s; ts_eventsClosed := ts_eventsClosed s;
     ts_vm := ts_vm s; ts_shimAddress := ts_shimAddress s; ts_f := Some path |}.

Definition push_event (e : Event) (s : TaskService) : TaskService :=
  {| ts_id := ts_id s; ts_events := ts_events s ++ [e];
     ts_eventsClosed := ts_eventsClosed s;
     ts_vm := ts_vm s; ts_shimAddress := ts_shimAddress s; ts_f := ts_f s |}.

(** [s.send(evt)]: a send on a closed channel panics. *)
Definition send (evt : Event) : M (World TaskService) unit :=
  s <- gets st ;;
  if ts_eventsClosed s then panic (PanicString "send on closed channel")
  else with_st (push_event evt).

(** A method called through the pointer [s.vm[id]]: it runs on that VM and
    leaves its changes in it. *)
Definition on_vm {A} (id : string) (m : M (World VM) A) : M (World TaskService) A :=
  fun w =>
    match ts_vm (st w) !! id with
    | None => (Panic NilDereference, w)
    | Some v =>
        match m {| st := v; fs := fs w; log := log w |} with
        | (o, w') => (o, {| st := set_vm id (st w') (st w); fs := fs w'; log := log w' |})
        end
    end.

(** [defer] of a closure that reads the named result [err] when it runs. *)
Definition defer_log {S A} (body : M (World S) (A * option error)) (msg : string)
  : M (World S) (A * option error) :=
  fun w =>
    match body w with
    | (o, w') =>
        let err := match o with Ret (_, err) => err | Panic _ => None end in
        match logrus InfoLevel err msg w' with
        | (_, w'') => (o, w'')
        end
    end.

(** [errdefs.ToGRPC] translates the errors that wrap one of errdefs' own
    sentinels and returns every other error as it is; no error of this
    program wraps one. *)
Definition ToGRPC (err : error) : error := err.

Record DeleteRequest : Type := { Delete_ID : string; Delete_ExecID : string }.

Record DeleteResponse : Type :=
  { DeleteResponse_Pid : Z;
    DeleteResponse_ExitStatus : Z;
    DeleteResponse_ExitedAt : Time }.

Definition TaskService_Delete (r : DeleteRequest) (undefine : option error)
  : M (World TaskService) (option DeleteResponse * option error) :=
  defer_log
    (s <- gets st ;;
     match ts_vm s !! Delete_ID r with
     | None => ret (None, Some (ToGRPC (ErrorString "process not found")))
     | Some _ =>
         res <- on_vm (Delete_ID r) (Delete undefine) ;;
         let '(exitStatus, err) := res in
         match err with
         | Some err => ret (None, Some (ToGRPC (Wrapped err "failed to delete process")))
         | None =>
             match ExitError exitStatus with
             | Some e => logrus ErrorLevel (Some e) "failed to release VM resources"
             | None => ret tt
             end ;;;
             pid <- on_vm (Delete_ID r) Pid ;;
             let exitCode := ExitCode exitStatus in
             let exitedAt := ExitTime exitStatus in
             (if String.eqb (Delete_ExecID r) ""
              then send (TaskDelete (Delete_ID r) pid exitCode exitedAt)
              else ret tt) ;;;
             ret (Some {| DeleteResponse_Pid := pid;
                          DeleteResponse_ExitStatus := exitCode;
                          DeleteResponse_ExitedAt := exitedAt |}, None)
         end
     end)
    "Task Delete".

Record KillRequest : Type :=
  { Kill_ID : string; Kill_ExecID : string; Kill_Signal : Z; Kill_All : bool }.

Definition TaskService_Kill (r : KillRequest) (now : Time) (destroy : option error)
  : M (World TaskService) (option unit * option error) :=
  defer_log
    (s <- gets st ;;
     match ts_vm s !! Kill_ID r with
     | None => ret (None, Some (ToGRPC (ErrorString "process not found")))
     | Some _ =>
         err <- on_vm (Kill_ID r) (Kill (Kill_Signal r) now destroy) ;;
         ret (Some tt, err)
     end)
    "Task Kill".

Record CreateTaskRequest : Type :=
  { Create_ID : string;
    Create_Bundle : string;
    Create_Rootfs : list Mount;
    Create_Terminal : bool;
    Create_Stdin : string;
    Create_Stdout : string;
    Create_Stderr : string;
    Create_Checkpoint : string }.

Record CreateTaskResponse : Type := { CreateResponse_Pid : Z }.

(** What [Create] reads from outside: whether the log file opens, what
    [readSpec] finds in [config.json], the answer of the engine to the
    connection, and what [Init] reads.  The log directory lies outside the
    modelled file system. *)
Record CreateEnv : Type :=
  { create_openLog : option error;
    create_readSpec : error + Spec;
    create_connect : option error;
    create_init : InitEnv }.

Definition TaskService_Create (r : CreateTaskRequest) (e : CreateEnv)
  : M (World TaskService) (CreateTaskResponse * option error) :=
  let empty := {| CreateResponse_Pid := 0 |} in
  defer_log
    (match create_openLog e with
     | Some err => ret (empty, Some err)
     | None =>
         with_st (set_f (Filepath.Join
                           [Filepath.Join ["/var/log/containerd-shim-hvf-v1"; Create_ID r];
                            "shim.log"])) ;;;
         match create_readSpec e with
         | inl err =>
             logrus ErrorLevel (Some err) "read spec failed" ;;;
             ret (empty, Some (ToGRPC err))
         | inr spec =>
             let stdioObj := {| Stdin := Create_Stdin r; Stdout := Create_Stdout r;
                                Stderr := Create_Stderr r; Terminal := Create_Terminal r |} in
             match NewVM (Create_ID r) stdioObj spec (Create_Bundle r) (Create_Rootfs r)
                         (create_connect e) with
             | Panic p => panic p
             | Ret (_, Some err) =>
                 ret (empty, Some (ToGRPC (Wrapped err "failed to create VM")))
             | Ret (None, None) => panic NilDereference
             | Ret (Some vm, None) =>
                 with_st (set_vm (vm_id vm) vm) ;;;
                 err <- on_vm (vm_id vm) (Init (create_init e)) ;;
                 match err with
                 | Some err =>
                     ret (empty, Some (ToGRPC (Wrapped err "failed to initialize VM")))
                 | None =>
                     pid <- on_vm (vm_id vm) Pid ;;
                     send (TaskCreate (Create_ID r) (Create_Bundle r) (Create_Rootfs r)
                             stdioObj (Create_Checkpoint r) pid) ;;;
                     pid' <- on_vm (vm_id vm) Pid ;;
                     ret ({| CreateResponse_Pid := pid' |}, None)
                 end
             end
         end
     end)
    "Task Create".

(** *** The operations the shim does not support *)

Record PauseRequest : Type := { Pause_ID : string }.
Record ResumeRequest : Type := { Resume_ID : string }.
Record CheckpointTaskRequest : Type :=
  { Checkpoint_ID : string; Checkpoint_Path : string }.
Record ExecProcessRequest : Type :=
  { Exec_ID : string; Exec_ExecID : string; Exec_Terminal : bool;
    Exec_Stdin : string; Exec_Stdout : string; Exec_Stderr : string }.
Record ResizePtyRequest : Type :=
  { Resize_ID : string; Resize_ExecID : string; Resize_Width : Z; Resize_Height : Z }.
Record CloseIORequest : Type :=
  { CloseIO_ID : string; CloseIO_ExecID : string; CloseIO_Stdin : bool }.
Record UpdateTaskRequest : Type :=
  { Update_ID : string; Update_Annotations : gmap string string }.
Record StatsRequest : Type := { Stats_ID : string }.
Record StatsResponse : Type := { Stats_Stats : string }.

(** [emptypb.Empty]. *)
Abbreviation Empty := unit.

(** Each of them is [defer logrus...Info("Task X"); return nil, nil]. *)
Definition TaskService_Pause (r : PauseRequest)
  : M (World TaskService) (option Empty * option error) :=
  defer (ret (None, None)) (logrus InfoLevel None "Task Pause").

Definition TaskService_Resume (r : ResumeRequest)
  : M (World TaskService) (option Empty * option error) :=
  defer (ret (None, None)) (logrus InfoLevel None "Task Resume").

Definition TaskService_Checkpoint (r : CheckpointTaskRequest)
  : M (World TaskService) (option Empty * option error) :=
  defer (ret (None, None)) (logrus InfoLevel None "Task Checkpoint").

Definition TaskService_Exec (r : ExecProcessRequest)
  : M (World TaskService) (option Empty * option error) :=
  defer (ret (None, None)) (logrus InfoLevel None "Task Exec").

Definition TaskService_ResizePty (r : ResizePtyRequest)
  : M (World TaskService) (option Empty * option error) :=
  defer (ret (None, None)) (logrus InfoLevel None "Task ResizePty").

Definition TaskService_CloseIO (r : CloseIORequest)
  : M (World TaskService) (option Empty * option error) :=
  defer (ret (None, None)) (logrus InfoLevel None "Task CloseIO").

Definition TaskService_Update (r : UpdateTaskRequest)
  : M (World TaskService) (option Empty * option error) :=
  defer (ret (None, None)) (logrus InfoLevel None "Task Update").

Definition TaskService_Stats (r : StatsRequest)
  : M (World TaskService) (option StatsResponse * option error) :=
  defer (ret (None, None)) (logrus InfoLevel None "Task Stats").

(** A call of one of the eight. *)
Inductive UnsupportedCall : Type :=
| CallPause (r : PauseRequest)
| CallResume (r : ResumeRequest)
| CallCheckpoint (r : CheckpointTaskRequest)
| CallExec (r : ExecProcessRequest)
| CallResizePty (r : ResizePtyRequest)
| CallCloseIO (r : CloseIORequest)
| CallUpdate (r : UpdateTaskRequest)
| CallStats (r : StatsRequest).

(** The task id a call names. *)
Definition call_ID (c : UnsupportedCall) : string :=
  match c with
  | CallPause r => Pause_ID r
  | CallResume r => Resume_ID r
  | CallCheckpoint r => Checkpoint_ID r
  | CallExec r => Exec_ID r
  | CallResizePty r => Resize_ID r
  | CallCloseIO r => CloseIO_ID r
  | CallUpdate r => Update_ID r
  | CallStats r => Stats_ID r
  end.

(** A result with its response reduced to whether it is non-nil. *)
Definition strip_response {R S} (r : outcome (option R * option error) * S)
  : outcome (bool * option error) * S :=
  (match fst r with
   | Ret (resp, err) => Ret (bool_decide (is_Some resp), err)
   | Panic p => Panic p
   end, snd r).

(** The outcome of a call and the world after it. *)
Definition serve_unsupported (c : UnsupportedCall) (w : World TaskService)
  : outcome (bool * option error) * World TaskService :=
  match c with
  | CallPause r => strip_response (TaskService_Pause r w)
  | CallResume r => strip_response (TaskService_Resume r w)
  | CallCheckpoint r => strip_response (TaskService_Checkpoint r w)
  | CallExec r => strip_response (TaskService_Exec r w)
  | CallResizePty r => strip_response (TaskService_ResizePty r w)
  | CallCloseIO r => strip_response (TaskService_CloseIO r w)
  | CallUpdate r => strip_response (TaskService_Update r w)
  | CallStats r => strip_response (TaskService_Stats r w)
  end.

(** ** Sequences of operations on one VM *)

(** An operation of the VM with what it reads from outside, or a change of
    the file system by the outside world (the engine writing the pid file,
    say) between two operations. *)
Inductive Op : Type :=
| OpStart (create : option error)
| OpKill (signal : Z) (now : Time) (destroy : option error)
| OpStatus (getState : error + Z)
| OpPid
| OpDelete (undefine : option error)
| OpWait (events : list WaitEvent) (now : Time)
| OpOutside (files : FS).

(** The world after an operation; after a panic, the world at the panic. *)
Definition step (w : World VM) (op : Op) : World VM :=
  match op with
  | OpStart create => snd (Start create w)
  | OpKill signal now destroy => snd (Kill signal now destroy w)
  | OpStatus getState => snd (Status getState w)
  | OpPid => snd (Pid w)
  | OpDelete undefine => snd (Delete undefine w)
  | OpWait events now => snd (Wait events now w)
  | OpOutside files => snd (put_fs files w)
  end.

Definition run (ops : list Op) (w : World VM) : World VM := fold_left step ops w.

(** ** The specification's side *)

(** *** The reconciliation table of the status query

    The live engine state as the table distinguishes it: a state number,
    a query that fails with not-found, a query that fails otherwise.
    [Status] tells a not-found failure by the words "not found" in the
    error's text. *)
Inductive EngineSignal : Type :=
| EngineState (n : Z)
| EngineNotFound
| EngineFailure (err : error).

Definition engine_signal (getState : error + Z) : EngineSignal :=
  match getState with
  | inr n => EngineState n
  | inl err =>
      if Strings.Contains (error_text err) "not found" then EngineNotFound
      else EngineFailure err
  end.

(** The engine's state numbers (libvirt's [virDomainState]). *)
Definition VIR_DOMAIN_NOSTATE : Z := 0.
Definition VIR_DOMAIN_RUNNING : Z := 1.
Definition VIR_DOMAIN_BLOCKED : Z := 2.
Definition VIR_DOMAIN_PAUSED : Z := 3.
Definition VIR_DOMAIN_SHUTDOWN : Z := 4.
Definition VIR_DOMAIN_SHUTOFF : Z := 5.
Definition VIR_DOMAIN_CRASHED : Z := 6.
Definition VIR_DOMAIN_PMSUSPENDED : Z := 7.

(** The priority table, row by row as the specification words it; [None]
    where it has no row (an engine state it does not name). *)
Definition status_table (started exited pidResolvable : bool) (live : EngineSignal)
  : option (ProcessStatus * option error) :=
  if negb started then Some (Created, None)                      (* 1 *)
  else if negb pidResolvable then
    Some (if exited then Stopped else Unknown, None)             (* 2 *)
  else
    match live with                                              (* 3 *)
    | EngineState n =>
        if n =? VIR_DOMAIN_NOSTATE then Some (Created, None)
        else if n =? VIR_DOMAIN_RUNNING then Some (Running, None)
        else if (n =? VIR_DOMAIN_PAUSED) || (n =? VIR_DOMAIN_PMSUSPENDED)
             then Some (Paused, None)
        else if n =? VIR_DOMAIN_SHUTDOWN then Some (Pausing, None)
        else if (n =? VIR_DOMAIN_SHUTOFF) || (n =? VIR_DOMAIN_CRASHED)
             then Some (Stopped, None)
        else None
    | EngineNotFound => Some (if exited then Stopped else Unknown, None)
    | EngineFailure err => Some (Unknown, Some err)
    end.

(** *** Termination as the engine confirms it

    The answers to a destroy call after which the domain is not running:
    success, "not found", "not running". *)
Definition confirms_termination (destroy : option error) : bool :=
  match destroy with
  | None => true
  | Some err => IsNotFound err || Strings.Contains (error_text err) "is not running"
  end.

(** *** The last bind mount *)

Definition is_bind (m : Mount) : bool := String.eqb (Mount_Type m) "bind".

Definition last_bind (mounts : list Mount) : option Mount :=
  last (List.filter is_bind mounts).

(** The root-image directory of a bind mount, and the two files in it. *)
Definition rootImageDir (m : Mount) : string :=
  Filepath.Join [Mount_Source m; defaultRootImagePath].
Definition bootImageOf (m : Mount) : string :=
  Filepath.Join [rootImageDir m; defaultRootImageFileName].
Definition seedImageOf (m : Mount) : string :=
  Filepath.Join [rootImageDir m; defaultCloudInitImageFileName].

(** The link under the bundle's rootfs. *)
Definition rootfsLink (bundle : string) : string :=
  Filepath.Join [bundle; "rootfs"; defaultRootImagePath].

(** *** The fixed policy of the descriptor *)

Definition is_cdrom_of (path : string) (d : DomainDisk) : bool :=
  String.eqb (Disk_Device d) "cdrom" && Disk_ReadOnly d &&
  bool_decide (Disk_SourceFile d = Some path).

Definition is_primary_disk_of (path : string) (d : DomainDisk) : bool :=
  String.eqb (Disk_Device d) "disk" && negb (Disk_ReadOnly d) &&
  bool_decide (Disk_SourceFile d = Some path) &&
  match Disk_Driver d with
  | Some drv => String.eqb (Driver_Type drv) "qcow2"
  | None => false
  end.

(** 2 GiB of memory, 8 virtual CPUs, UEFI firmware, the read-only CD-ROM
    with the seed image, the read-write qcow2 disk with the boot image, a
    serial console, a VNC display on all interfaces, and the virtio network
    device on the host's shared network, given as raw engine arguments. *)
Definition fixed_policy (bundle : string) (d : Domain) : Prop :=
  Memory d = Some {| Memory_Value := 2; Memory_Unit := "GiB" |} ∧
  VCPU d = Some 8 ∧
  (∃ os, OS d = Some os ∧ OS_Firmware os = "efi") ∧
  (∃ devs, Devices d = Some devs ∧
     existsb (is_cdrom_of (Filepath.Join [bundle; "rootfs"; defaultRootImagePath;
                                          defaultCloudInitImageFileName]))
             (Devices_Disks devs) = true ∧
     existsb (is_primary_disk_of (Filepath.Join [bundle; "rootfs"; defaultRootImagePath;
                                                 defaultRootImageFileName]))
             (Devices_Disks devs) = true ∧
     existsb (fun c => bool_decide (Console_TargetType c = Some "serial"))
             (Devices_Consoles devs) = true ∧
     existsb (fun g => match Graphic_VNC g with
                       | Some vnc => String.eqb (VNC_Listen vnc) "0.0.0.0"
                       | None => false
                       end)
             (Devices_Graphics devs) = true) ∧
  QEMUCommandline d = Some [ "-netdev"; "vmnet-shared,id=net0";
                             "-device"; "virtio-net-device,netdev=net0" ].

(** The descriptor without its generated UUID. *)
Definition without_UUID (d : Domain) : Domain :=
  {| Type_ := Type_ d; Name := Name d; UUID := "";
     Memory := Memory d; CurrentMemory := CurrentMemory d; CPU := CPU d;
     VCPU := VCPU d; OS := OS d; Features := Features d; Clock := Clock d;
     OnPoweroff := OnPoweroff d; OnReboot := OnReboot d; OnCrash := OnCrash d;
     Devices := Devices d; QEMUCommandline := QEMUCommandline d |}.

(** ** Sample inputs *)

Definition sample_stdio : Stdio :=
  {| Stdin := ""; Stdout := "/run/b/stdout"; Stderr := "/run/b/stderr"; Terminal := false |}.

(** The mounts of a task: the bind mount of the native snapshotter, after
    a mount of another kind. *)
Definition sample_mounts : list Mount :=
  [ {| Mount_Type := "tmpfs"; Mount_Source := "tmpfs"; Mount_Target := "/tmp";
       Mount_Options := [] |};
    {| Mount_Type := "bind";
       Mount_Source := "/var/lib/containerd/io.containerd.snapshotter.v1.native/snapshots/4";
       Mount_Target := ""; Mount_Options := ["rbind"; "rw"] |} ].

Definition spec_of_env (env : list string) : Spec :=
  {| Spec_Process := Some {| Process_Env := env |} |}.

(** The VM as [NewVM] leaves it: nothing initialized yet. *)
Definition sample_vm : VM :=
  {| vm_id := "vm1"; vm_stdio := sample_stdio; vm_bundle := "/run/b";
     vm_pid := 0; vm_status := 0; vm_started := false; vm_exited := false;
     vm_exitedAt := 0; vm_spec := spec_of_env ["PATH=/usr/bin"];
     vm_mounts := sample_mounts; vm_env := {["PATH" := "/usr/bin"]};
     vm_domainMeta := zeroDomainMeta; vm_domain := None; vm_ctxDone := false |}.

Definition world_of {S} (s : S) (files : FS) : World S :=
  {| st := s; fs := files; log := [] |}.

(** The bundle directory of the sample task, before anything is linked
    into it. *)
Definition bundle_files : FS :=
  {[ "/run/b" := Dir; "/run/b/rootfs" := Dir ]}.

(** A service holding the sample VM and nothing else. *)
Definition sample_service : TaskService :=
  {| ts_id := "vm1"; ts_events := []; ts_eventsClosed := false;
     ts_vm := {[ "vm1" := sample_vm ]};
     ts_shimAddress := ""; ts_f := None |}.

(** Two answers of the engine to a destroy call on a domain that is not
    running any more. *)
Definition err_not_running : error :=
  LibvirtError 55 "Requested operation is not valid: domain is not running".
Definition err_no_domain : error :=
  LibvirtError 42 "Domain not found: no domain with matching uuid".

(** The table completed by the answer for the engine states it does not
    name, which is Unknown. *)
Definition reconcile (started exited pidResolvable : bool) (live : EngineSignal)
  : ProcessStatus * option error :=
  match status_table started exited pidResolvable live with
  | Some r => r
  | None => (Unknown, None)
  end.

(** The sample VM once defined and started, and the file system once the
    engine has written the domain's pid file. *)
Definition started_vm : VM :=
  set_started true
    (set_domainMeta {| Meta_Name := "vm1";
                       Meta_UUID := "8d3a4a0e-5a0c-4e43-9d0b-0f6b8c1f2a11";
                       Meta_ID := 1 |}
       (set_domain (RenderDomain "vm1" "/run/b" "8d3a4a0e-5a0c-4e43-9d0b-0f6b8c1f2a11")
          sample_vm)).

Definition engine_files : FS :=
  <[ pidFilePath "vm1" := File "4711" ]> bundle_files.

(** What no operation undoes between two states of a VM: a set exited
    flag, a cached non-zero process id, the rendered domain. *)
Definition keeps (v v' : VM) : Prop :=
  (vm_exited v = true -> vm_exited v' = true) /\
  (vm_pid v <> 0 -> vm_pid v' = vm_pid v) /\
  vm_domain v' = vm_domain v.

(** The same world seen with another file system. *)
Definition with_files {S} (files : FS) (w : World S) : World S :=
  {| st := st w; fs := files; log := log w |}.

(** The snapshot directory of the sample bind mount with both images in
    its [disk] directory, and the same without the seed image. *)
Definition snapshot_disk : string :=
  "/var/lib/containerd/io.containerd.snapshotter.v1.native/snapshots/4/disk".

Definition image_files_without_seed : FS :=
  <[ snapshot_disk := Dir ]>
    (<[ snapshot_disk +:+ "/boot.qcow2" := File "QFI" ]> bundle_files).

Definition image_files : FS :=
  <[ snapshot_disk +:+ "/cloudinit.iso" := File "CD001" ]> image_files_without_seed.

(** The inspection tool reporting a given format, or none ([""]). *)
Definition qemu_img_reports (format : string) (path : string) : QemuImgRun :=
  Printed (inr {| Info_Path := ""; Info_VirtualSize := 2361393152;
                  Info_Format := format; Info_DirtyFlag := false |}).

(** The file system after the engine has rewritten the pid file. *)
Definition rewritten_files : FS :=
  <[ pidFilePath "vm1" := File "9999" ]> bundle_files.

(** A run of the sample VM after its process id got cached: the pid file
    changes, the VM is killed, queried, waited for and deleted. *)
Definition sample_ops : list Op :=
  [ OpOutside rewritten_files;
    OpStatus (inr 1);
    OpKill 15 1700000001 None;
    OpStatus (inr 5);
    OpWait [Tick (inr 4); VMDone (inr 5)] 1700000003;
    OpDelete None;
    OpKill 9 1700000004 (Some err_not_running);
    OpPid ].

(** A create request for the sample task, and the outside world in which
    it succeeds. *)
Definition sample_create : CreateTaskRequest :=
  {| Create_ID := "vm1"; Create_Bundle := "/run/b"; Create_Rootfs := sample_mounts;
     Create_Terminal := false; Create_Stdin := ""; Create_Stdout := "/run/b/stdout";
     Create_Stderr := "/run/b/stderr"; Create_Checkpoint := "" |}.

Definition sample_create_env : CreateEnv :=
  {| create_openLog := None;
     create_readSpec := inr (spec_of_env ["PATH=/usr/bin"]);
     create_connect := None;
     create_init :=
       {| init_qemuImg := qemu_img_reports "qcow2";
          init_uuid := "8d3a4a0e-5a0c-4e43-9d0b-0f6b8c1f2a11";
          init_marshal := inr "<domain type='hvf'>...</domain>";
          init_define := inr {| Meta_Name := "vm1";
                                Meta_UUID := "8d3a4a0e-5a0c-4e43-9d0b-0f6b8c1f2a11";
                                Meta_ID := 0 |} |} |}.

Definition empty_service : TaskService :=
  {| ts_id := "vm1"; ts_events := []; ts_eventsClosed := false;
     ts_vm := ∅; ts_shimAddress := ""; ts_f := None |}.

(** * The rest of the task service, and what the operations change *)

(** ** The remaining operations of the task service *)

(** [Init] of [shim.go]: the new service, with the address read from the
    file [address] when that succeeds.  The forwarding goroutine it starts
    is [forward] below. *)
Definition shim_Init (s : string) (readAddress : error + string) : TaskService :=
  {| ts_id := s; ts_events := []; ts_eventsClosed := false; ts_vm := ∅;
     ts_shimAddress := match readAddress with inr address => address | inl _ => "" end;
     ts_f := None |}.

(** [task.Status] of the task API. *)
Inductive TaskStatus : Type :=
| Status_UNKNOWN | Status_CREATED | Status_RUNNING | Status_STOPPED
| Status_PAUSED | Status_PAUSING.

Definition fromStatus (s : ProcessStatus) : TaskStatus :=
  match s with
  | Created => Status_CREATED
  | Running => Status_RUNNING
  | Stopped => Status_STOPPED
  | Paused => Status_PAUSED
  | Pausing => Status_PAUSING
  | _ => Status_UNKNOWN
  end.

Record StateRequest : Type := { State_ID : string; State_ExecID : string }.

Record StateResponse : Type :=
  { StateResponse_ID : string;
    StateResponse_Bundle : string;
    StateResponse_Pid : Z;
    StateResponse_Status : TaskStatus;
    StateResponse_Stdin : string;
    StateResponse_Stdout : string;
    StateResponse_Stderr : string;
    StateResponse_Terminal : bool;
    StateResponse_ExitStatus : Z;
    StateResponse_ExitedAt : Time }.

(** [&task.StateResponse{}]. *)
Definition emptyStateResponse : StateResponse :=
  {| StateResponse_ID := ""; StateResponse_Bundle := ""; StateResponse_Pid := 0;
     StateResponse_Status := Status_UNKNOWN;
     StateResponse_Stdin := ""; StateResponse_Stdout := ""; StateResponse_Stderr := "";
     StateResponse_Terminal := false; StateResponse_ExitStatus := 0;
     StateResponse_ExitedAt := 0 |}.

Definition process_not_found : error := ToGRPC (ErrorString "process not found").

(** The deferred call of [State] has its arguments evaluated when the
    [defer] statement runs, with [err] still nil. *)
Definition TaskService_State (r : StateRequest) (getState : error + Z)
  : M (World TaskService) (StateResponse * option error) :=
  defer
    (s <- gets st ;;
     match ts_vm s !! State_ID r with
     | None => ret (emptyStateResponse, Some process_not_found)
     | Some _ =>
         res <- on_vm (State_ID r) (Status getState) ;;
         let '(status, err) := res in
         match err with
         | Some err => ret (emptyStateResponse, Some (ToGRPC err))
         | None =>
             pid <- on_vm (State_ID r) Pid ;;
             vm <- on_vm (State_ID r) (gets st) ;;
             ret ({| StateResponse_ID := vm_id vm;
                     StateResponse_Bundle := vm_bundle vm;
                     StateResponse_Pid := pid;
                     StateResponse_Status := fromStatus status;
                     StateResponse_Stdin := Stdin (vm_stdio vm);
                     StateResponse_Stdout := Stdout (vm_stdio vm);
                     StateResponse_Stderr := Stderr (vm_stdio vm);
                     StateResponse_Terminal := Terminal (vm_stdio vm);
                     StateResponse_ExitStatus := uint32 (vm_status vm);
                     StateResponse_ExitedAt := vm_exitedAt vm |}, None)
         end
     end)
    (logrus InfoLevel None "Task State").

Record StartRequest : Type := { Start_ID : string; Start_ExecID : string }.
Record StartResponse : Type := { StartResponse_Pid : Z }.

Definition TaskService_Start (r : StartRequest) (create : option error)
  : M (World TaskService) (option StartResponse * option error) :=
  defer_log
    (s <- gets st ;;
     match ts_vm s !! Start_ID r with
     | None => ret (None, Some process_not_found)
     | Some _ =>
         err <- on_vm (Start_ID r) (Start create) ;;
         match err with
         | Some err =>
             logrus ErrorLevel (Some err) "failed to start VM" ;;;
             ret (None, Some (ToGRPC err))
         | None =>
             pid <- on_vm (Start_ID r) Pid ;;
             send (TaskExecStarted (Start_ID r) (Start_ExecID r) pid) ;;;
             logrus InfoLevel None "Task Start" ;;;
             ret (Some {| StartResponse_Pid := pid |}, None)
         end
     end)
    "Task Start".

Record WaitRequest : Type := { Wait_ID : string; Wait_ExecID : string }.
Record WaitResponse : Type :=
  { WaitResponse_ExitStatus : Z; WaitResponse_ExitedAt : Time }.

(** [events] and [now] are what [VM.Wait] reads from outside, [now'] the
    clock read by [timestamppb.Now()].  [None] stands for a call that still
    blocks in [VM.Wait]; its deferred function has not run. *)
Definition TaskService_Wait (r : WaitRequest) (events : list WaitEvent) (now now' : Time)
  : M (World TaskService) (option (option WaitResponse * option error)) :=
  fun w =>
    match ts_vm (st w) !! Wait_ID r with
    | None =>
        match defer_log (ret (None, Some process_not_found)) "Task Wait" w with
        | (Ret res, w') => (Ret (Some res), w')
        | (Panic p, w') => (Panic p, w')
        end
    | Some _ =>
        match on_vm (Wait_ID r) (Wait events now) w with
        | (Panic p, w') => (Panic p, snd (logrus InfoLevel None "Task Wait" w'))
        | (Ret None, w') => (Ret None, w')
        | (Ret (Some (exitStatus, err)), w') =>
            let res :=
              match err with
              | Some _ => (Some {| WaitResponse_ExitStatus := 1;
                                   WaitResponse_ExitedAt := now' |}, None)
              | None => (Some {| WaitResponse_ExitStatus := ExitCode exitStatus;
                                 WaitResponse_ExitedAt := now' |}, None)
              end in
            (Ret (Some res), snd (logrus InfoLevel None "Task Wait" w'))
        end
    end.

Record ConnectRequest : Type := { Connect_ID : string }.
Record ConnectResponse : Type := { Connect_ShimPid : Z; Connect_TaskPid : Z }.

(** [getpid] is the answer of [os.Getpid()]. *)
Definition TaskService_Connect (r : ConnectRequest) (getpid : Z)
  : M (World TaskService) (ConnectResponse * option error) :=
  defer_log
    (s <- gets st ;;
     pid <- match ts_vm s !! Connect_ID r with
            | Some _ => on_vm (Connect_ID r) Pid
            | None => ret 0
            end ;;
     ret ({| Connect_ShimPid := uint32 getpid; Connect_TaskPid := uint32 pid |}, None))
    "Task Connect".

(** [shim.RemoveSocket]: removes the socket file of a [unix://] address;
    an address without that prefix names an abstract socket, with no file. *)
Definition RemoveSocket {S} (address : string) : M (World S) (option error) :=
  if Strings.HasPrefix address "unix://" then
    files <- gets fs ;;
    let '(err, files') := os_Remove files (Strings.drop 7 address) in
    put_fs files' ;;;
    ret err
  else ret None.

Definition close_events (s : TaskService) : TaskService :=
  {| ts_id := ts_id s; ts_events := ts_events s; ts_eventsClosed := true;
     ts_vm := ts_vm s; ts_shimAddress := ts_shimAddress s; ts_f := ts_f s |}.

(** [close(s.events)]: closing a closed channel panics. *)
Definition close_channel : M (World TaskService) unit :=
  s <- gets st ;;
  if ts_eventsClosed s then panic (PanicString "close of closed channel")
  else with_st close_events.

(** [cancel] is the function [s.cancel], handed to [Init] by the caller. *)
Definition TaskService_Shutdown (cancel : M (World TaskService) unit)
  : M (World TaskService) (option Empty * option error) :=
  defer
    (s <- gets st ;;
     (if negb (String.eqb (ts_shimAddress s) "")
      then (_ <- RemoveSocket (ts_shimAddress s) ;; ret tt)
      else ret tt) ;;;
     cancel ;;;
     close_channel ;;;
     ret (Some tt, None))
    (logrus InfoLevel None "Task Shutdown").

(** ** Event topics and the forwarding loop *)

(** The dynamic type of a value taken from the channel: one of the event
    types [GetTopic] knows, or anything else. *)
Inductive EventKind : Type :=
| KTaskCreate | KTaskStart | KTaskOOM | KTaskExit | KTaskDelete
| KTaskExecAdded | KTaskExecStarted | KTaskPaused | KTaskResumed
| KTaskCheckpointed | KOther.

(** The topic constants of containerd's package [runtime]. *)
Definition TaskCreateEventTopic : string := "/tasks/create".
Definition TaskStartEventTopic : string := "/tasks/start".
Definition TaskOOMEventTopic : string := "/tasks/oom".
Definition TaskExitEventTopic : string := "/tasks/exit".
Definition TaskDeleteEventTopic : string := "/tasks/delete".
Definition TaskExecAddedEventTopic : string := "/tasks/exec-added".
Definition TaskExecStartedEventTopic : string := "/tasks/exec-started".
Definition TaskPausedEventTopic : string := "/tasks/paused".
Definition TaskResumedEventTopic : string := "/tasks/resumed".
Definition TaskCheckpointedEventTopic : string := "/tasks/checkpointed".
Definition TaskUnknownTopic : string := "/tasks/?".

(** [GetTopic]: the topic, and whether the warning "no topic for type" was
    logged. *)
Definition GetTopic (k : EventKind) : string * bool :=
  match k with
  | KTaskCreate => (TaskCreateEventTopic, false)
  | KTaskStart => (TaskStartEventTopic, false)
  | KTaskOOM => (TaskOOMEventTopic, false)
  | KTaskExit => (TaskExitEventTopic, false)
  | KTaskDelete => (TaskDeleteEventTopic, false)
  | KTaskExecAdded => (TaskExecAddedEventTopic, false)
  | KTaskExecStarted => (TaskExecStartedEventTopic, false)
  | KTaskPaused => (TaskPausedEventTopic, false)
  | KTaskResumed => (TaskResumedEventTopic, false)
  | KTaskCheckpointed => (TaskCheckpointedEventTopic, false)
  | KOther => (TaskUnknownTopic, true)
  end.

(** The dynamic type of the events the service sends. *)
Definition kind_of (e : Event) : EventKind :=
  match e with
  | TaskCreate _ _ _ _ _ _ => KTaskCreate
  | TaskExecStarted _ _ _ => KTaskExecStarted
  | TaskDelete _ _ _ _ => KTaskDelete
  end.

(** What the forwarding goroutine has done when the channel is closed and
    drained: the calls of [Publish] in order, the log lines for the failed
    ones (latest first), the number of warnings of [GetTopic], and the
    final [publisher.Close()]. *)
Record Forwarded (E : Type) : Type :=
  { fw_published : list (string * E);
    fw_log : list LogEntry;
    fw_warnings : nat;
    fw_closed : bool }.
Arguments fw_published {E} f.
Arguments fw_log {E} f.
Arguments fw_warnings {E} f.
Arguments fw_closed {E} f.

(** The loop [for e := range s.events]: [kind] gives the dynamic type of a
    value, [publish n] the answer of the publisher to the [n]-th call of
    [Publish].  [GetTopic] is called twice for each value. *)
Fixpoint forwardLoop {E} (kind : E -> EventKind)
    (publish : nat -> string -> E -> option error)
    (n : nat) (events : list E) (acc : Forwarded E) : Forwarded E :=
  match events with
  | [] => {| fw_published := fw_published acc; fw_log := fw_log acc;
             fw_warnings := fw_warnings acc; fw_closed := true |}
  | e :: rest =>
      let '(_, warned) := GetTopic (kind e) in
      let '(topic, warned') := GetTopic (kind e) in
      let err := publish n topic e in
      forwardLoop kind publish (S n) rest
        {| fw_published := fw_published acc ++ [(topic, e)];
           fw_log := match err with
                     | Some err => {| log_level := ErrorLevel; log_msg := "post event fail";
                                      log_err := Some err |} :: fw_log acc
                     | None => fw_log acc
                     end;
           fw_warnings := fw_warnings acc + (if warned then 1 else 0)
                          + (if warned' then 1 else 0);
           fw_closed := false |}
  end.

Definition forward {E} (kind : E -> EventKind)
    (publish : nat -> string -> E -> option error) (events : list E) : Forwarded E :=
  forwardLoop kind publish 0 events
    {| fw_published := []; fw_log := []; fw_warnings := 0; fw_closed := false |}.

(** ** Sequences of calls to the service *)

Inductive ServiceOp : Type :=
| SCreate (r : CreateTaskRequest) (e : CreateEnv)
| SStart (r : StartRequest) (create : option error)
| SDelete (r : DeleteRequest) (undefine : option error)
| SKill (r : KillRequest) (now : Time) (destroy : option error)
| SState (r : StateRequest) (getState : error + Z)
| SWait (r : WaitRequest) (events : list WaitEvent) (now now' : Time)
| SConnect (r : ConnectRequest) (getpid : Z)
| SUnsupported (c : UnsupportedCall)
| SOutside (files : FS).

Definition service_step (w : World TaskService) (op : ServiceOp) : World TaskService :=
  match op with
  | SCreate r e => snd (TaskService_Create r e w)
  | SStart r create => snd (TaskService_Start r create w)
  | SDelete r undefine => snd (TaskService_Delete r undefine w)
  | SKill r now destroy => snd (TaskService_Kill r now destroy w)
  | SState r getState => snd (TaskService_State r getState w)
  | SWait r events now now' => snd (TaskService_Wait r events now now' w)
  | SConnect r getpid => snd (TaskService_Connect r getpid w)
  | SUnsupported c => snd (serve_unsupported c w)
  | SOutside files => snd (put_fs files w)
  end.

Definition service_run (ops : list ServiceOp) (w : World TaskService) : World TaskService :=
  fold_left service_step ops w.

(** What no call undoes: a task stays known, the events sent stay in
    their order before the new ones, the channel stays as open or closed
    as it was. *)
Definition grows (s s' : TaskService) : Prop :=
  (forall id, is_Some (ts_vm s !! id) -> is_Some (ts_vm s' !! id)) /\
  (exists more, ts_events s' = ts_events s ++ more) /\
  ts_eventsClosed s' = ts_eventsClosed s.

(** ** What an operation can do to a VM *)

(** The assignments to the fields of a VM that the methods make. *)
Inductive MutKind : Type :=
| MPid          (* v.pid = pid, in Pid *)
| MKill         (* the four assignments of a confirmed Kill *)
| MStart        (* v.started = true, in Start *)
| MDomain       (* v.domain = RenderDomain(...), in Init *)
| MMeta.        (* v.domainMeta = domainMeta, in Init *)

Inductive mutation : MutKind -> VM -> VM -> Prop :=
| mut_pid (pid : Z) (v : VM) : vm_pid v = 0 -> mutation MPid v (set_pid pid v)
| mut_kill (now : Time) (v : VM) : mutation MKill v (mark_terminated now v)
| mut_start (v : VM) : mutation MStart v (set_started true v)
| mut_domain (uuid : string) (v : VM) :
    mutation MDomain v (set_domain (RenderDomain (vm_id v) (vm_bundle v) uuid) v)
| mut_meta (m : DomainMeta) (v : VM) : mutation MMeta v (set_domainMeta m v).

(** A VM reached from another by assignments of the allowed kinds. *)
Inductive changes (allow : MutKind -> bool) : VM -> VM -> Prop :=
| changes_refl (v : VM) : changes allow v v
| changes_step (k : MutKind) (v1 v2 v3 : VM) :
    allow k = true -> mutation k v1 v2 -> changes allow v2 v3 -> changes allow v1 v3.

(** The operations of a VM's life, [Init] included. *)
Inductive LifeOp : Type :=
| LInit (e : InitEnv)
| LOp (op : Op).

Definition life_step (w : World VM) (op : LifeOp) : World VM :=
  match op with
  | LInit e => snd (Init e w)
  | LOp op => step w op
  end.

Definition life (ops : list LifeOp) (w : World VM) : World VM :=
  fold_left life_step ops w.

(** The kinds of assignment an operation can make, given what it reads
    from outside. *)
Definition op_kinds (op : LifeOp) (k : MutKind) : bool :=
  match op, k with
  | LInit _, (MDomain | MMeta) => true
  | LOp (OpStart None), MStart => true
  | LOp (OpKill _ _ destroy), MKill => confirms_termination destroy
  | LOp (OpStatus _ | OpPid | OpWait _ _), MPid => true
  | _, _ => false
  end.

Definition ops_kinds (ops : list LifeOp) (k : MutKind) : bool :=
  existsb (fun op => op_kinds op k) ops.

(** Only assignments of one kind, and none at all. *)
Definition only (k0 : MutKind) (k : MutKind) : bool :=
  match k0, k with
  | MPid, MPid | MKill, MKill | MStart, MStart | MDomain, MDomain | MMeta, MMeta => true
  | _, _ => false
  end.

Definition is_CallerDone (ev : WaitEvent) : bool :=
  match ev with CallerDone => true | _ => false end.

Definition is_LInit (op : LifeOp) : bool :=
  match op with LInit _ => true | LOp _ => false end.

(** The answers of the engine to a state query that tell the domain is
    gone: shut off, crashed, or not found. *)
Definition tells_gone (getState : error + Z) : bool :=
  match getState with
  | inr n => (n =? VIR_DOMAIN_SHUTOFF) || (n =? VIR_DOMAIN_CRASHED)
  | inl err => Strings.Contains (error_text err) "not found"
  end.

Fixpoint all_digits (s : string) : bool :=
  match s with
  | EmptyString => true
  | String c s' => match Strconv.digit c with Some _ => true | None => false end
                   && all_digits s'
  end.

(** A life of the sample VM without a successful Start: it is initialized,
    asked for its status, killed, deleted. *)
Definition sample_init_env : InitEnv :=
  {| init_qemuImg := qemu_img_reports "qcow2";
     init_uuid := "8d3a4a0e-5a0c-4e43-9d0b-0f6b8c1f2a11";
     init_marshal := inr "<domain type='hvf'>...</domain>";
     init_define := inr {| Meta_Name := "vm1";
                           Meta_UUID := "8d3a4a0e-5a0c-4e43-9d0b-0f6b8c1f2a11";
                           Meta_ID := 0 |} |}.

Definition unstarted_life : list LifeOp :=
  [ LInit sample_init_env;
    LOp (OpStart (Some (ErrorString "internal error: qemu unexpectedly closed the monitor")));
    LOp (OpStatus (inr 1));
    LOp (OpKill 15 1700000001 (Some err_not_running));
    LOp (OpDelete None) ].

(** A pid file with a newline after the number. *)
Definition newline_files : FS :=
  <[ pidFilePath "vm1" := File (String "4" (String "7" (String "1" (String "1"
                                  (String (ascii_of_nat 10) EmptyString))))) ]> bundle_files.

(** An id-less VM, as [NewVM] makes it for the empty task id. *)
Definition anonymous_vm : VM :=
  {| vm_id := ""; vm_stdio := sample_stdio; vm_bundle := "/run/b";
     vm_pid := 0; vm_status := 0; vm_started := false; vm_exited := false;
     vm_exitedAt := 0; vm_spec := spec_of_env []; vm_mounts := sample_mounts;
     vm_env := ∅; vm_domainMeta := zeroDomainMeta; vm_domain := None;
     vm_ctxDone := false |}.

(** The engine has written a pid file named after the empty domain name. *)
Definition anonymous_files : FS :=
  <[ pidFilePath "" := File "4711" ]> image_files.

Definition anonymous_life : list LifeOp :=
  [ LInit sample_init_env; LOp (OpStart None); LOp OpPid ].

(** An [Init] whose definition the engine refuses. *)
Definition refused_init_env : InitEnv :=
  {| init_qemuImg := qemu_img_reports "qcow2";
     init_uuid := "8d3a4a0e-5a0c-4e43-9d0b-0f6b8c1f2a11";
     init_marshal := inr "<domain type='hvf'>...</domain>";
     init_define := inl (LibvirtError 9 "operation failed: domain 'vm1' already exists") |}.

(** A computation on the service that only lets it grow. *)
Definition growing {A} (m : M (World TaskService) A) : Prop :=
  forall w, grows (st w) (st (snd (m w))).

(** The world after one more log line. *)
Definition logged {S} (lvl : Level) (err : option error) (msg : string) (w : World S)
  : World S :=
  {| st := st w; fs := fs w;
     log := {| log_level := lvl; log_msg := msg; log_err := err |} :: log w |}.

(** The exit code [VM.Delete] gives for an answer of the engine to the
    undefine. *)
Definition delete_code (undefine : option error) : Z :=
  match undefine with
  | Some err => if IsNotFound err then 0 else 1
  | None => 0
  end.

(** The sample service once [Create] has succeeded. *)
Definition created_world : World TaskService :=
  snd (TaskService_Create sample_create sample_create_env
         (world_of empty_service image_files)).

(** A create request without any bind mount. *)
Definition unbound_create : CreateTaskRequest :=
  {| Create_ID := "vm1"; Create_Bundle := "/run/b";
     Create_Rootfs := [ {| Mount_Type := "tmpfs"; Mount_Source := "tmpfs";
                           Mount_Target := "/tmp"; Mount_Options := [] |} ];
     Create_Terminal := false; Create_Stdin := ""; Create_Stdout := "/run/b/stdout";
     Create_Stderr := "/run/b/stderr"; Create_Checkpoint := "" |}.

(** The VM that [NewVM] makes for it. *)
Definition unbound_vm : VM :=
  {| vm_id := "vm1";
     vm_stdio := {| Stdin := ""; Stdout := "/run/b/stdout";
                    Stderr := "/run/b/stderr"; Terminal := false |};
     vm_bundle := "/run/b"; vm_pid := 0; vm_status := 0;
     vm_started := false; vm_exited := false; vm_exitedAt := 0;
     vm_spec := spec_of_env ["PATH=/usr/bin"];
     vm_mounts := Create_Rootfs unbound_create;
     vm_env := {["PATH" := "/usr/bin"]};
     vm_domainMeta := zeroDomainMeta; vm_domain := None;
     vm_ctxDone := false |}.

(** A service holding the sample VM once started, and what [State] answers
    for it while the engine runs it. *)
Definition running_service : TaskService :=
  {| ts_id := "vm1"; ts_events := []; ts_eventsClosed := false;
     ts_vm := {[ "vm1" := started_vm ]};
     ts_shimAddress := ""; ts_f := None |}.

Definition running_response : StateResponse :=
  {| StateResponse_ID := "vm1"; StateResponse_Bundle := "/run/b";
     StateResponse_Pid := 4711; StateResponse_Status := Status_RUNNING;
     StateResponse_Stdin := ""; StateResponse_Stdout := "/run/b/stdout";
     StateResponse_Stderr := "/run/b/stderr"; StateResponse_Terminal := false;
     StateResponse_ExitStatus := 0; StateResponse_ExitedAt := 0 |}.

(** The same service after a Kill that the engine carried out. *)
Definition killed_world : World TaskService :=
  snd (TaskService_Kill {| Kill_ID := "vm1"; Kill_ExecID := ""; Kill_Signal := 9;
                           Kill_All := false |} 1700000001 None
         (world_of running_service engine_files)).

(** The three events of a task's life, as they sit in the channel, and a
    publisher that accepts every event. *)
Definition sample_events : list Event :=
  [ TaskCreate "vm1" "/run/b" sample_mounts sample_stdio "" 0;
    TaskExecStarted "vm1" "" 4711;
    TaskDelete "vm1" 4711 0 1700000001 ].

Definition accepting_publisher (n : nat) (topic : string) (e : Event) : option error :=
  None.

(** A publisher that is down for the first event only. *)
Definition late_publisher (n : nat) (topic : string) (e : Event) : option error :=
  match n with
  | O => Some (ErrorString "ttrpc: closed")
  | S _ => None
  end.

(** The cancel function handed to [Init]: it cancels the shim's context
    and returns. *)
Definition cancel_context : M (World TaskService) unit := ret tt.

(** A service listening on a socket file, with the created sample task. *)
Definition listening_world : World TaskService :=
  {| st := {| ts_id := "vm1"; ts_events := ts_events (st created_world);
              ts_eventsClosed := false; ts_vm := ts_vm (st created_world);
              ts_shimAddress := "unix:///run/containerd/s/0a1b2c";
              ts_f := ts_f (st created_world) |};
     fs := <[ "/run/containerd/s/0a1b2c" := File "" ]> (fs created_world);
     log := [] |}.

(** ** Which tasks the service knows *)

(** A computation that registers no task but, possibly, the one named. *)
Definition adds_at_most {A} (id0 : option string) (m : M (World TaskService) A) : Prop :=
  forall w id,
    is_Some (ts_vm (st (snd (m w))) !! id) ->
    is_Some (ts_vm (st w) !! id) \/ id0 = Some id.

(** Whether a Create for the task id is among the calls. *)
Definition creates (id : string) (op : ServiceOp) : bool :=
  match op with
  | SCreate r _ => String.eqb (Create_ID r) id
  | _ => false
  end.

(** The service as [Init] makes it when the shim starts: the file
    [address] could not be read. *)
Definition fresh_world : World TaskService :=
  world_of (shim_Init "vm1" (inl (PathError "open" "address" ENOENT))) image_files.

(** * Properties *)

(** ** The library functions on sample inputs *)

Example Split_env : Strings.Split "A=b=c" "=" = ["A"; "b"; "c"].
Proof. reflexivity. Qed.
Example Split_none : Strings.Split "PATH" "=" = ["PATH"].
Proof. reflexivity. Qed.
Example Split_empty : Strings.Split "" "=" = [""].
Proof. reflexivity. Qed.
Example Clean_dots : Filepath.Clean "/a//b/./c/../d/" = "/a/b/d".
Proof. reflexivity. Qed.
Example Clean_rel : Filepath.Clean "../../a/.." = "../..".
Proof. reflexivity. Qed.
Example Clean_root : Filepath.Clean "/.." = "/".
Proof. reflexivity. Qed.
Example Join_bundle :
  Filepath.Join ["/run/b/"; "rootfs"; "disk"; "boot.qcow2"] = "/run/b/rootfs/disk/boot.qcow2".
Proof. reflexivity. Qed.
Example Join_empty_first : Filepath.Join [""; "disk"] = "disk".
Proof. reflexivity. Qed.
Example Atoi_pid : Strconv.Atoi "4711" = Some 4711.
Proof. reflexivity. Qed.
Example Atoi_newline : Strconv.Atoi (String "1" (String (ascii_of_nat 10) "")) = None.
Proof. reflexivity. Qed.
Example Atoi_big : Strconv.Atoi "9223372036854775808" = None.
Proof. reflexivity. Qed.
Example Dir_of_link : filepath_Dir "/run/b/rootfs/disk" = "/run/b/rootfs".
Proof. reflexivity. Qed.
Example Dir_of_root_file : filepath_Dir "/disk" = "/".
Proof. reflexivity. Qed.
Example Dir_of_relative : filepath_Dir "disk" = ".".
Proof. reflexivity. Qed.

(** ** Splitting and joining *)

Lemma Cut_without_byte (c : ascii) (s : string) :
  Strings.has_byte c s = false -> Strings.Cut s (String c EmptyString) = None.
Proof.
  induction s as [|d s IH]; simpl; intros H; [reflexivity|].
  apply orb_false_iff in H as [Hd Hs].
  rewrite Hd. simpl. rewrite (IH Hs). reflexivity.
Qed.

Lemma Split_without_byte (c : ascii) (s : string) :
  Strings.has_byte c s = false -> Strings.Split s (String c EmptyString) = [s].
Proof.
  intros H. unfold Strings.Split.
  destruct (String.length s); simpl; [reflexivity|].
  rewrite (Cut_without_byte c s H). reflexivity.
Qed.

Lemma genSplit_not_nil (fuel : nat) (s sep : string) :
  Strings.genSplit fuel s sep <> [].
Proof.
  destruct fuel; simpl; [discriminate|].
  destruct (Strings.Cut s sep) as [[before after]|]; discriminate.
Qed.

Lemma HasPrefix_drop (s pre : string) :
  Strings.HasPrefix s pre = true -> s = pre +:+ Strings.drop (String.length pre) s.
Proof.
  revert s. induction pre as [|p pre IH]; intros s H; [reflexivity|].
  destruct s as [|c s]; [discriminate|]. cbn in H.
  apply andb_true_iff in H as [Hc Hs].
  apply Ascii.eqb_eq in Hc as ->.
  change (String p s = String p (pre +:+ Strings.drop (String.length pre) s)).
  f_equal. apply IH, Hs.
Qed.

(** [Cut] cuts at an occurrence of the separator. *)
Lemma Cut_Some (s sep before after : string) :
  Strings.Cut s sep = Some (before, after) -> s = before +:+ sep +:+ after.
Proof.
  revert before. induction s as [|c s IH]; intros before; cbn [Strings.Cut].
  - destruct (Strings.HasPrefix "" sep) eqn:Hp; [|discriminate].
    intros H. injection H as <- <-. apply (HasPrefix_drop "" sep Hp).
  - destruct (Strings.HasPrefix (String c s) sep) eqn:Hp.
    + intros H. injection H as <- <-. apply (HasPrefix_drop _ sep Hp).
    + destruct (Strings.Cut s sep) as [[b a]|]; [|discriminate].
      intros H. injection H as <- <-.
      change (String c s = String c (b +:+ sep +:+ a)).
      f_equal. apply IH. reflexivity.
Qed.

Lemma length_append (a b : string) :
  String.length (a +:+ b) = (String.length a + String.length b)%nat.
Proof.
  induction a as [|c a IH]; [reflexivity|].
  change (S (String.length (a +:+ b)) = S (String.length a + String.length b)).
  f_equal. exact IH.
Qed.

Lemma Cut_shortens (s sep before after : string) :
  sep <> "" ->
  Strings.Cut s sep = Some (before, after) ->
  (String.length after < String.length s)%nat.
Proof.
  intros Hsep H. apply Cut_Some in H as ->.
  rewrite !length_append.
  destruct sep; [congruence|]. cbn [String.length]. lia.
Qed.

(** The fuel [Split] gives to [genSplit] is enough: more fuel yields the
    same elements. *)
Lemma genSplit_fuel (sep : string) (n m : nat) (s : string) :
  sep <> "" ->
  (String.length s <= n)%nat ->
  (String.length s <= m)%nat ->
  Strings.genSplit n s sep = Strings.genSplit m s sep.
Proof.
  intros Hsep. revert m s.
  assert (Hempty : forall k, Strings.genSplit k "" sep = [""]).
  { intros [|k]; cbn; [reflexivity|]. destruct sep; [congruence|reflexivity]. }
  induction n as [|n IH]; intros m s Hn Hm.
  - destruct s; [|cbn in Hn; lia]. rewrite !Hempty. reflexivity.
  - destruct m as [|m].
    + destruct s; [|cbn in Hm; lia]. rewrite !Hempty. reflexivity.
    + cbn [Strings.genSplit].
      destruct (Strings.Cut s sep) as [[before after]|] eqn:Hcut; [|reflexivity].
      pose proof (Cut_shortens s sep before after Hsep Hcut).
      f_equal. apply IH; lia.
Qed.

Lemma Cut_at_first (c : ascii) (before after : string) :
  Strings.has_byte c before = false ->
  Strings.Cut (before +:+ String c after) (String c EmptyString) = Some (before, after).
Proof.
  induction before as [|d before IH]; intros H.
  - change (EmptyString +:+ String c after) with (String c after).
    cbn [Strings.Cut Strings.HasPrefix]. rewrite Ascii.eqb_refl. reflexivity.
  - cbn [Strings.has_byte] in H. apply orb_false_iff in H as [Hd Hb].
    change (String d before +:+ String c after)
      with (String d (before +:+ String c after)).
    cbn [Strings.Cut Strings.HasPrefix]. rewrite Hd. cbn [andb].
    rewrite (IH Hb). reflexivity.
Qed.

Lemma Split_at_first (c : ascii) (before after : string) :
  Strings.has_byte c before = false ->
  Strings.Split (before +:+ String c after) (String c EmptyString)
  = before :: Strings.Split after (String c EmptyString).
Proof.
  intros H. unfold Strings.Split.
  rewrite length_append. cbn [String.length].
  rewrite Nat.add_succ_r. cbn [Strings.genSplit].
  rewrite (Cut_at_first c before after H). f_equal.
  apply genSplit_fuel; [discriminate | lia | lia].
Qed.

(** ** The environment loop of [NewVM] *)

(** An entry [name=v1=v2] binds [name] to [v1]: the value stops at the
    second separator. *)
Lemma parseEnv_value_stops_at_second_separator
    (name v1 v2 : string) (rest : list string) (env : gmap string string) :
  Strings.has_byte "=" name = false ->
  Strings.has_byte "=" v1 = false ->
  parseEnv ((name +:+ String "=" (v1 +:+ String "=" v2)) :: rest) env
  = parseEnv rest (<[name := v1]> env).
Proof.
  intros Hname Hv1. cbn [parseEnv].
  change "="%string with (String "="%char EmptyString).
  rewrite (Split_at_first "=" name _ Hname), (Split_at_first "=" v1 _ Hv1).
  reflexivity.
Qed.

Lemma parseEnv_panics (entries : list string) (env : gmap string string) (s : string) :
  In s entries ->
  Strings.has_byte "=" s = false ->
  parseEnv entries env = Panic (IndexOutOfRange 1 1).
Proof.
  revert env. induction entries as [|e rest IH]; intros env Hin Hs.
  - destruct Hin.
  - cbn [parseEnv].
    destruct Hin as [->|Hin].
    + rewrite (Split_without_byte "=" s Hs). reflexivity.
    + unfold Strings.Split.
      pose proof (genSplit_not_nil (String.length e) e "=") as Hne.
      destruct (Strings.genSplit (String.length e) e "=") as [|a [|b l]];
        [congruence | reflexivity | ].
      cbn. apply IH; assumption.
Qed.

(** C10.  With the engine connected, constructing a VM panics with an index
    out of range as soon as one entry of the declared process environment
    has no '=': [strings.Split] then yields a single element and
    [split[1]] is out of range.  A [Create] call that has opened its log
    file and read such a specification therefore panics instead of
    returning an error. *)
Theorem C10_NewVM_panics_without_separator
    (id bundle : string) (stdio : Stdio) (spec : Spec) (rootFS : list Mount)
    (process : Process) (s : string) :
  Spec_Process spec = Some process ->
  In s (Process_Env process) ->
  Strings.has_byte "=" s = false ->
  NewVM id stdio spec bundle rootFS None = Panic (IndexOutOfRange 1 1) /\
  forall (r : CreateTaskRequest) (e : CreateEnv) (w : World TaskService),
    create_openLog e = None ->
    create_readSpec e = inr spec ->
    create_connect e = None ->
    fst (TaskService_Create r e w) = Panic (IndexOutOfRange 1 1).
Proof.
  intros Hproc Hin Hs.
  assert (Hnew : forall id' stdio' bundle' rootFS',
             NewVM id' stdio' spec bundle' rootFS' None = Panic (IndexOutOfRange 1 1)).
  { intros. unfold NewVM. rewrite Hproc.
    rewrite (parseEnv_panics _ ∅ s Hin Hs). reflexivity. }
  split; [apply Hnew|].
  intros r e w Hopen Hspec Hconn.
  unfold TaskService_Create, defer_log.
  rewrite Hopen, Hspec, Hconn, Hnew. reflexivity.
Qed.

Lemma C10_NewVM_panics_witness :
  In "DEBUG" ["PATH=/usr/bin"; "DEBUG"; "HOME=/root"] /\
  Strings.has_byte "=" "DEBUG" = false /\
  NewVM "vm1" sample_stdio (spec_of_env ["PATH=/usr/bin"; "DEBUG"; "HOME=/root"])
        "/run/b" sample_mounts None
  = Panic (IndexOutOfRange 1 1).
Proof.
  split; [right; left; reflexivity|].
  split; [reflexivity|].
  apply (C10_NewVM_panics_without_separator
           "vm1" "/run/b" sample_stdio
           (spec_of_env ["PATH=/usr/bin"; "DEBUG"; "HOME=/root"]) sample_mounts
           {| Process_Env := ["PATH=/usr/bin"; "DEBUG"; "HOME=/root"] |} "DEBUG").
  - reflexivity.
  - right; left; reflexivity.
  - reflexivity.
Defined.

(** ** The parsed environment *)

Example NewVM_sample :
  NewVM "vm1" sample_stdio (spec_of_env ["PATH=/usr/bin"]) "/run/b" sample_mounts None
  = Ret (Some sample_vm, None).
Proof. vm_compute. reflexivity. Qed.

(** C8.  The loop binds a variable to the text between the first and the
    second '=' of its entry, not to the entire text after the first '=':
    for the entry [A=b=c] the map holds "b" under "A", where the
    specification asks for "b=c". *)
Theorem C8_env_value_stops_at_second_separator :
  exists v : VM,
    NewVM "vm1" sample_stdio (spec_of_env ["A=b=c"]) "/run/b" sample_mounts None
    = Ret (Some v, None) /\
    vm_env v !! "A" = Some "b" /\
    vm_env v !! "A" <> Some "b=c".
Proof.
  eexists. split; [reflexivity|].
  split; [vm_compute; reflexivity | vm_compute; discriminate].
Qed.

(** ** The unsupported operations *)

(** C9.  Pause, Resume, Checkpoint, Exec, ResizePty, CloseIO, Update and
    Stats return a nil response and a nil error and leave the service (its
    map of VMs, its event queue, its log file) and the file system as they
    were, whatever the request and whether or not its task id is known;
    they only write a log line. *)
Theorem C9_unsupported_operations_succeed (c : UnsupportedCall) (w : World TaskService) :
  fst (serve_unsupported c w) = Ret (false, None) /\
  st (snd (serve_unsupported c w)) = st w /\
  fs (snd (serve_unsupported c w)) = fs w /\
  length (log (snd (serve_unsupported c w))) = S (length (log w)).
Proof.
  destruct c; repeat split.
Qed.

(** ** [VM.Delete] *)

Lemma Delete_returns (undefine : option error) (w : World VM) :
  exists status w',
    Delete undefine w = (Ret (status, None), w') /\
    st w' = st w /\
    status = match undefine with
             | Some err =>
                 if IsNotFound err then NewExitStatus 0 (vm_exitedAt (st w)) None
                 else NewExitStatus 1 (vm_exitedAt (st w)) (Some err)
             | None => NewExitStatus 0 (vm_exitedAt (st w)) None
             end /\
    match os_Remove (fs w) (rootfsLink (vm_bundle (st w))) with
    | (None, files') => fs w' = files' /\ log w' = log w
    | (Some removeErr, files') =>
        fs w' = files' /\
        log w' = {| log_level := ErrorLevel; log_msg := "failed to remove image path";
                    log_err := Some removeErr |} :: log w
    end.
Proof.
  unfold Delete, defer, bind, gets, rootfsLink.
  destruct undefine as [err|]; [destruct (IsNotFound err)|]; cbn;
    destruct (os_Remove (fs w) _) as [[removeErr|] files']; cbn;
    eexists _, _; repeat split.
Qed.

(** C5.  [VM.Delete] always returns, with a nil error value: exit status 0
    when the undefine succeeds or fails with not-found, exit status 1
    carrying the undefine error when it fails otherwise.  A failure to
    remove the link under the bundle is logged and changes nothing in the
    result. *)
Theorem C5_Delete_never_returns_error (undefine : option error) (w : World VM) :
  exists status w',
    Delete undefine w = (Ret (status, None), w') /\
    (undefine = None \/ (exists err, undefine = Some err /\ IsNotFound err = true)
     <-> ExitCode status = 0 /\ ExitError status = None) /\
    (forall err, undefine = Some err -> IsNotFound err = false ->
                 ExitCode status = 1 /\ ExitError status = Some err) /\
    (forall removeErr,
        fst (os_Remove (fs w) (rootfsLink (vm_bundle (st w)))) = Some removeErr ->
        In {| log_level := ErrorLevel; log_msg := "failed to remove image path";
              log_err := Some removeErr |} (log w')).
Proof.
  destruct (Delete_returns undefine w) as (status & w' & Hrun & _ & Hstatus & Hremove).
  exists status, w'. split; [exact Hrun|].
  split; [|split].
  - subst status. destruct undefine as [err|].
    + destruct (IsNotFound err) eqn:Hnf; cbn.
      * split; [tauto|]. intros _. right. exists err. tauto.
      * split.
        -- intros [Hnone|(err' & Heq & Hnf')]; [discriminate|].
           injection Heq as <-. congruence.
        -- intros [Hcode _]. discriminate.
    + cbn. tauto.
  - intros err -> Hnf. subst status. rewrite Hnf. cbn. tauto.
  - intros removeErr Hfail.
    destruct (os_Remove (fs w) _) as [[e|] files']; cbn in Hfail; [|discriminate].
    injection Hfail as ->. destruct Hremove as [_ ->]. left. reflexivity.
Qed.

Lemma C5_Delete_never_returns_error_witness :
  exists status w',
    Delete (Some (LibvirtError 38 "cannot undefine domain with nvram"))
           (world_of started_vm engine_files)
    = (Ret (status, None), w') /\
    ExitCode status = 1 /\
    ExitError status = Some (LibvirtError 38 "cannot undefine domain with nvram").
Proof.
  destruct (C5_Delete_never_returns_error
              (Some (LibvirtError 38 "cannot undefine domain with nvram"))
              (world_of started_vm engine_files))
    as (status & w' & Hrun & _ & Hother & _).
  exists status, w'. split; [exact Hrun|].
  apply (Hother _ eq_refl). reflexivity.
Defined.

(** ** [RenderDomain] *)

Lemma C7_RenderDomain_differs_by_uuid :
  RenderDomain "vm1" "/run/b" "8d3a4a0e-5a0c-4e43-9d0b-0f6b8c1f2a11"
  <> RenderDomain "vm1" "/run/b" "c1f0e7b2-17c4-4a55-b9d3-6a2e4d90f3c7".
Proof. intros H. apply (f_equal UUID) in H. discriminate H. Qed.

(** C7, amended.  The descriptor is a function of the task id, the bundle
    path and the UUID drawn at the call: two invocations with the same id
    and bundle yield descriptors that agree in everything but the generated
    UUID, and every descriptor carries the fixed policy values. *)
Theorem C7_RenderDomain_fixed_up_to_uuid (id bundle uuid1 uuid2 : string) :
  without_UUID (RenderDomain id bundle uuid1) = without_UUID (RenderDomain id bundle uuid2) /\
  UUID (RenderDomain id bundle uuid1) = uuid1 /\
  Name (RenderDomain id bundle uuid1) = id /\
  fixed_policy bundle (RenderDomain id bundle uuid1).
Proof.
  split; [reflexivity|]. split; [reflexivity|]. split; [reflexivity|].
  unfold fixed_policy. cbn -[Filepath.Join].
  split; [reflexivity|]. split; [reflexivity|].
  split; [eexists; split; reflexivity|].
  split; [|reflexivity].
  eexists. split; [reflexivity|].
  unfold is_cdrom_of, is_primary_disk_of. cbn -[Filepath.Join].
  rewrite !bool_decide_eq_true_2 by reflexivity.
  repeat split.
Qed.

(** ** [Pid] and [TaskService.Delete] on a VM that was never initialized *)

Lemma Pid_nil_domain (w : World VM) :
  vm_domain (st w) = None -> Pid w = (Panic NilDereference, w).
Proof.
  intros H. unfold Pid, domain_Name, bind, gets. rewrite H. reflexivity.
Qed.

Lemma TaskService_Delete_nil_domain
    (r : DeleteRequest) (undefine : option error) (w : World TaskService) (v : VM) :
  ts_vm (st w) !! Delete_ID r = Some v ->
  vm_domain v = None ->
  fst (TaskService_Delete r undefine w) = Panic NilDereference.
Proof.
  intros Hv Hnil.
  unfold TaskService_Delete, defer_log.
  unfold bind at 1. unfold gets at 1. rewrite Hv.
  unfold bind at 1. unfold on_vm at 1. rewrite Hv.
  destruct (Delete_returns undefine {| st := v; fs := fs w; log := log w |})
    as (status & w' & Hrun & Hst & _ & _).
  rewrite Hrun. cbn in Hst.
  destruct (ExitError status) as [e|]; cbn.
  - unfold bind, logrus, modify. cbn.
    unfold on_vm at 1. cbn. rewrite lookup_insert_eq. rewrite Hst.
    rewrite Pid_nil_domain by exact Hnil. reflexivity.
  - unfold bind, ret. cbn.
    unfold on_vm at 1. cbn. rewrite lookup_insert_eq. rewrite Hst.
    rewrite Pid_nil_domain by exact Hnil. reflexivity.
Qed.

(** C3.  Deleting a task whose VM was constructed and never initialized:
    [VM.Delete] returns, and then [vm.Pid()] reads [v.domain.Name] through
    the nil [domain] pointer, so the call panics, whatever the engine
    answers to the undefine, where the specification asks for a result
    with a process id of 0. *)
Theorem C3_Delete_uninitialized_panics (undefine : option error) :
  fst (TaskService_Delete {| Delete_ID := "vm1"; Delete_ExecID := "" |} undefine
         (world_of sample_service bundle_files))
  = Panic NilDereference.
Proof.
  apply (TaskService_Delete_nil_domain _ undefine _ sample_vm); reflexivity.
Qed.

(** ** [Kill] *)

Lemma Kill_confirmed (signal : Z) (now : Time) (destroy : option error) (w : World VM) :
  confirms_termination destroy = true ->
  Kill signal now destroy w
  = (Ret None, {| st := mark_terminated now (st w); fs := fs w; log := log w |}).
Proof.
  intros H. unfold Kill. destruct destroy as [err|]; cbn in H.
  - rewrite H. reflexivity.
  - reflexivity.
Qed.

(** C2.  When the engine answers the destroy call with "not found" or "not
    running" (or with success), [Kill] returns a nil error, records the
    exit time, sets the exited flag and cancels the VM's context.  A second
    [Kill], which the engine answers in one of these ways since the domain
    is already gone, returns a nil error again, for every signal value, and
    the flag stays set. *)
Theorem C2_Kill_idempotent
    (w : World VM) (signal signal' : Z) (now now' : Time)
    (destroy destroy' : option error) :
  confirms_termination destroy = true ->
  confirms_termination destroy' = true ->
  let first := Kill signal now destroy w in
  let second := Kill signal' now' destroy' (snd first) in
  fst first = Ret None /\
  vm_exitedAt (st (snd first)) = now /\
  vm_exited (st (snd first)) = true /\
  vm_ctxDone (st (snd first)) = true /\
  fst second = Ret None /\
  vm_exited (st (snd second)) = true /\
  vm_ctxDone (st (snd second)) = true.
Proof.
  intros H H'. cbn zeta.
  rewrite (Kill_confirmed signal now destroy w H). cbn [fst snd].
  rewrite (Kill_confirmed signal' now' destroy' _ H'). cbn.
  repeat split.
Qed.

Lemma C2_Kill_idempotent_witness :
  confirms_termination (Some err_not_running) = true /\
  confirms_termination (Some err_no_domain) = true /\
  fst (Kill 9 1700000002
         (Some err_no_domain)
         (snd (Kill 15 1700000001 (Some err_not_running) (world_of sample_vm bundle_files))))
  = Ret None.
Proof.
  split; [reflexivity|]. split; [reflexivity|].
  apply (C2_Kill_idempotent (world_of sample_vm bundle_files) 15 9
           1700000001 1700000002 (Some err_not_running) (Some err_no_domain));
    reflexivity.
Defined.

(** ** [Status] *)

Lemma Status_not_started (getState : error + Z) (w : World VM) :
  vm_started (st w) = false -> Status getState w = (Ret (Created, None), w).
Proof.
  intros H. unfold Status, bind, gets. rewrite H. reflexivity.
Qed.

Lemma Status_reconcile (getState : error + Z) (w : World VM) (pid : Z) :
  (vm_started (st w) = true -> fst (Pid w) = Ret pid) ->
  fst (Status getState w)
  = Ret (reconcile (vm_started (st w)) (vm_exited (st w)) (negb (pid =? 0))
                   (engine_signal getState)).
Proof.
  intros Hpid.
  destruct (vm_started (st w)) eqn:Hstarted.
  - specialize (Hpid eq_refl).
    unfold Status, bind, gets. rewrite Hstarted. cbn [negb].
    destruct (Pid w) as [o w1]. cbn in Hpid. subst o.
    unfold reconcile, status_table. cbn [negb].
    destruct (pid =? 0); cbn [negb]; [destruct (vm_exited (st w)); reflexivity|].
    destruct getState as [err|n]; cbn [engine_signal].
    + destruct (Strings.Contains (error_text err) "not found");
        [destruct (vm_exited (st w))|]; reflexivity.
    + unfold VIR_DOMAIN_NOSTATE, VIR_DOMAIN_RUNNING, VIR_DOMAIN_PAUSED,
        VIR_DOMAIN_PMSUSPENDED, VIR_DOMAIN_SHUTDOWN, VIR_DOMAIN_SHUTOFF,
        VIR_DOMAIN_CRASHED.
      destruct (n =? 0); [reflexivity|].
      destruct (n =? 1); [reflexivity|].
      destruct ((n =? 3) || (n =? 7)); [reflexivity|].
      destruct (n =? 4); [reflexivity|].
      destruct ((n =? 5) || (n =? 6)); reflexivity.
  - rewrite Status_not_started by exact Hstarted. reflexivity.
Qed.

(** C1.  The status a query returns is determined by four signals: the
    started flag, the exited flag, whether [Pid] resolves a non-zero
    process id, and the live engine state.  On every combination that the
    priority table names, it is the table's entry; and two queries with the
    same four signals return the same status and error. *)
Theorem C1_Status_follows_table (w : World VM) (getState : error + Z) (pid : Z) :
  (vm_started (st w) = true -> fst (Pid w) = Ret pid) ->
  (forall r,
      status_table (vm_started (st w)) (vm_exited (st w)) (negb (pid =? 0))
                   (engine_signal getState) = Some r ->
      fst (Status getState w) = Ret r) /\
  (forall (w' : World VM) (getState' : error + Z) (pid' : Z),
      (vm_started (st w') = true -> fst (Pid w') = Ret pid') ->
      vm_started (st w') = vm_started (st w) ->
      vm_exited (st w') = vm_exited (st w) ->
      negb (pid' =? 0) = negb (pid =? 0) ->
      engine_signal getState' = engine_signal getState ->
      fst (Status getState' w') = fst (Status getState w)).
Proof.
  intros Hpid. split.
  - intros r Hrow. rewrite (Status_reconcile getState w pid Hpid).
    unfold reconcile. rewrite Hrow. reflexivity.
  - intros w' getState' pid' Hpid' Hs He Hp Hl.
    rewrite (Status_reconcile getState w pid Hpid).
    rewrite (Status_reconcile getState' w' pid' Hpid').
    rewrite Hs, He, Hp, Hl. reflexivity.
Qed.

Lemma C1_Status_follows_table_witness :
  (vm_started (st (world_of started_vm engine_files)) = true ->
   fst (Pid (world_of started_vm engine_files)) = Ret 4711) /\
  fst (Status (inr VIR_DOMAIN_RUNNING) (world_of started_vm engine_files))
  = Ret (Running, None).
Proof.
  assert (H : vm_started (st (world_of started_vm engine_files)) = true ->
              fst (Pid (world_of started_vm engine_files)) = Ret 4711).
  { intros _. vm_compute. reflexivity. }
  split; [exact H|].
  apply (proj1 (C1_Status_follows_table (world_of started_vm engine_files)
                  (inr VIR_DOMAIN_RUNNING) 4711 H)).
  reflexivity.
Defined.

(** ** What the operations keep *)

Lemma keeps_refl (v : VM) : keeps v v.
Proof. unfold keeps. tauto. Qed.

Lemma keeps_trans (v1 v2 v3 : VM) : keeps v1 v2 -> keeps v2 v3 -> keeps v1 v3.
Proof.
  unfold keeps. intros (He & Hp & Hd) (He' & Hp' & Hd').
  split; [tauto|]. split; [|congruence].
  intros Hne. rewrite Hp' by (rewrite Hp; assumption). apply Hp, Hne.
Qed.

#[local] Hint Resolve keeps_refl : core.

Lemma Pid_keeps (w : World VM) : keeps (st w) (st (snd (Pid w))).
Proof.
  unfold Pid, domain_Name, bind, gets, with_st, modify, ret, panic.
  destruct (vm_domain (st w)) as [d|]; cbn; [|auto].
  destruct (String.eqb (Name d) ""); cbn; [auto|].
  destruct (vm_pid (st w) =? 0) eqn:Hzero; cbn; [|auto].
  apply Z.eqb_eq in Hzero.
  destruct (os_Stat (fs w) _) as [e|stat]; cbn; [auto|].
  destruct (fi_Size stat =? 0); cbn; [auto|].
  destruct (os_ReadFile (fs w) _) as [e|data]; cbn; [auto|].
  destruct (Strconv.Atoi data) as [pid|]; cbn; [|auto].
  unfold keeps. cbn. split; [tauto|]. split; [congruence|reflexivity].
Qed.

Lemma Status_world (getState : error + Z) (w : World VM) :
  snd (Status getState w) = w \/ snd (Status getState w) = snd (Pid w).
Proof.
  unfold Status, bind, gets.
  destruct (vm_started (st w)); cbn; [|left; reflexivity].
  right. destruct (Pid w) as [[pid|p] w1]; cbn; [|reflexivity].
  destruct (pid =? 0); [destruct (vm_exited (st w)); reflexivity|].
  destruct getState as [err|n].
  - destruct (Strings.Contains _ _); [destruct (vm_exited (st w))|]; reflexivity.
  - repeat (match goal with |- context [if ?b then _ else _] => destruct b end;
            try reflexivity).
Qed.

Lemma Status_keeps (getState : error + Z) (w : World VM) :
  keeps (st w) (st (snd (Status getState w))).
Proof.
  destruct (Status_world getState w) as [-> | ->]; [auto | apply Pid_keeps].
Qed.

Lemma Start_keeps (create : option error) (w : World VM) :
  keeps (st w) (st (snd (Start create w))).
Proof.
  unfold Start, domain_Name, bind, gets, with_st, modify, ret, panic.
  destruct create as [err|]; cbn.
  - destruct (vm_domain (st w)); cbn; auto.
  - unfold keeps. cbn. tauto.
Qed.

Lemma Kill_keeps (signal : Z) (now : Time) (destroy : option error) (w : World VM) :
  keeps (st w) (st (snd (Kill signal now destroy w))).
Proof.
  destruct (confirms_termination destroy) eqn:Hc.
  - rewrite Kill_confirmed by exact Hc. unfold keeps. cbn. tauto.
  - destruct destroy as [err|]; [|discriminate]. cbn in Hc.
    unfold Kill. rewrite Hc.
    unfold domain_Name, bind, gets, logrus, modify, ret, panic. cbn.
    destruct (vm_domain (st w)); cbn; auto.
Qed.

Lemma Delete_keeps (undefine : option error) (w : World VM) :
  keeps (st w) (st (snd (Delete undefine w))).
Proof.
  destruct (Delete_returns undefine w) as (status & w' & Hrun & Hst & _).
  rewrite Hrun. cbn. rewrite Hst. auto.
Qed.

Lemma waitLoop_keeps (events : list WaitEvent) (w : World VM) :
  keeps (st w) (st (snd (waitLoop events w))).
Proof.
  revert w. induction events as [|ev rest IH]; intros w; cbn [waitLoop].
  - cbn. auto.
  - assert (Hpoll : forall getState,
               keeps (st w)
                 (st (snd (bind (Status getState)
                             (fun r => if is_stopped r then ret true else waitLoop rest) w)))).
    { intros getState. unfold bind.
      pose proof (Status_keeps getState w) as Hk.
      destruct (Status getState w) as [[r|p] w1]; cbn in Hk |- *; [|exact Hk].
      destruct (is_stopped r); cbn; [exact Hk|].
      eapply keeps_trans; [exact Hk | apply IH]. }
    destruct ev as [getState|getState| |files].
    + apply Hpoll.
    + unfold bind at 1. unfold gets at 1.
      destruct (vm_ctxDone (st w)); [apply Hpoll | apply IH].
    + cbn. auto.
    + unfold bind, put_fs, modify.
      apply (IH {| st := st w; fs := files; log := log w |}).
Qed.

Lemma Wait_keeps (events : list WaitEvent) (now : Time) (w : World VM) :
  keeps (st w) (st (snd (Wait events now w))).
Proof.
  unfold Wait, bind.
  pose proof (waitLoop_keeps events w) as Hk.
  destruct (waitLoop events w) as [[[|]|p] w1]; exact Hk.
Qed.

Lemma step_keeps (w : World VM) (op : Op) : keeps (st w) (st (step w op)).
Proof.
  destruct op; cbn [step].
  - apply Start_keeps.
  - apply Kill_keeps.
  - apply Status_keeps.
  - apply Pid_keeps.
  - apply Delete_keeps.
  - apply Wait_keeps.
  - cbn. auto.
Qed.

Lemma run_keeps (ops : list Op) (w : World VM) : keeps (st w) (st (run ops w)).
Proof.
  revert w. induction ops as [|op ops IH]; intros w; cbn.
  - auto.
  - eapply keeps_trans; [apply step_keeps | apply IH].
Qed.

(** ** The cached process id *)

Lemma eqb_empty_false (s : string) : String.eqb s "" = false <-> s <> "".
Proof. apply String.eqb_neq. Qed.

Lemma Pid_cached (w : World VM) (d : Domain) :
  vm_domain (st w) = Some d ->
  Name d <> "" ->
  vm_pid (st w) <> 0 ->
  Pid w = (Ret (uint32 (vm_pid (st w))), w).
Proof.
  intros Hd Hname Hpid.
  unfold Pid, domain_Name, bind, gets. rewrite Hd. cbn.
  apply eqb_empty_false in Hname. rewrite Hname.
  apply Z.eqb_neq in Hpid. rewrite Hpid. reflexivity.
Qed.

(** The call that caches a process id has a named domain, and returns the
    [uint32] of what it caches. *)
Lemma Pid_caching_call (w0 w : World VM) (p : Z) :
  Pid w0 = (Ret p, w) ->
  vm_pid (st w0) = 0 ->
  vm_pid (st w) <> 0 ->
  p = uint32 (vm_pid (st w)) /\
  exists d, vm_domain (st w) = Some d /\ Name d <> "".
Proof.
  unfold Pid, domain_Name, bind, gets, with_st, modify, ret, panic.
  intros Hrun Hzero Hne.
  destruct (vm_domain (st w0)) as [d|] eqn:Hd; cbn in Hrun; [|discriminate].
  destruct (String.eqb (Name d) "") eqn:Hname; cbn in Hrun.
  { injection Hrun as <- <-. contradiction. }
  rewrite Hzero in Hrun. cbn in Hrun.
  destruct (os_Stat (fs w0) _) as [e|stat]; cbn in Hrun.
  { injection Hrun as <- <-. contradiction. }
  destruct (fi_Size stat =? 0); cbn in Hrun.
  { injection Hrun as <- <-. contradiction. }
  destruct (os_ReadFile (fs w0) _) as [e|data]; cbn in Hrun.
  { injection Hrun as <- <-. contradiction. }
  destruct (Strconv.Atoi data) as [pid|]; cbn in Hrun.
  2: { injection Hrun as <- <-. contradiction. }
  injection Hrun as <- <-. cbn. split; [reflexivity|].
  exists d. split; [exact Hd | apply eqb_empty_false, Hname].
Qed.

(** C6.  Over every sequence of Start, Kill, Status, Pid, Delete and Wait,
    with the outside world rewriting the file system in between: a set
    exited flag stays set; and once a call of [Pid] has cached a non-zero
    process id, the cache is never written again and every later [Pid]
    returns the value that call returned, whatever the file system holds
    by then and without any change to the VM. *)
Theorem C6_exited_flag_and_cached_pid_are_kept (w : World VM) (ops : list Op) :
  (vm_exited (st w) = true -> vm_exited (st (run ops w)) = true) /\
  (forall (w0 : World VM) (p : Z),
      Pid w0 = (Ret p, w) ->
      vm_pid (st w0) = 0 ->
      vm_pid (st w) <> 0 ->
      vm_pid (st (run ops w)) = vm_pid (st w) /\
      forall files : FS,
        Pid (with_files files (run ops w)) = (Ret p, with_files files (run ops w))).
Proof.
  destruct (run_keeps ops w) as (Hexited & Hpid & Hdomain).
  split; [exact Hexited|].
  intros w0 p Hrun Hzero Hne.
  destruct (Pid_caching_call w0 w p Hrun Hzero Hne) as (-> & d & Hd & Hname).
  split; [apply Hpid, Hne|].
  intros files.
  rewrite (Pid_cached (with_files files (run ops w)) d); cbn.
  - rewrite (Hpid Hne). reflexivity.
  - rewrite Hdomain. exact Hd.
  - exact Hname.
  - rewrite (Hpid Hne). exact Hne.
Qed.

Lemma C6_cached_pid_witness :
  let w0 := world_of started_vm engine_files in
  let w := snd (Pid w0) in
  Pid w0 = (Ret 4711, w) /\
  vm_pid (st w0) = 0 /\
  vm_pid (st w) <> 0 /\
  Pid (with_files rewritten_files (run sample_ops w))
  = (Ret 4711, with_files rewritten_files (run sample_ops w)) /\
  vm_exited (st (run sample_ops w)) = true.
Proof.
  cbn zeta.
  assert (H1 : Pid (world_of started_vm engine_files)
               = (Ret 4711, snd (Pid (world_of started_vm engine_files)))).
  { vm_compute. reflexivity. }
  assert (H2 : vm_pid (st (world_of started_vm engine_files)) = 0) by reflexivity.
  assert (H3 : vm_pid (st (snd (Pid (world_of started_vm engine_files)))) <> 0).
  { vm_compute. discriminate. }
  split; [exact H1|]. split; [exact H2|]. split; [exact H3|].
  split.
  - apply (proj2 (C6_exited_flag_and_cached_pid_are_kept
                    (snd (Pid (world_of started_vm engine_files))) sample_ops)
             (world_of started_vm engine_files) 4711 H1 H2 H3).
  - vm_compute. reflexivity.
Defined.

(** ** Paths are never empty *)

Lemma Strings_Join_not_empty (e : string) (rest : list string) (sep : string) :
  e <> "" -> Strings.Join (e :: rest) sep <> "".
Proof.
  intros He. destruct e as [|c e]; [congruence|].
  destruct rest; cbn; discriminate.
Qed.

Lemma cleanElems_elements (rooted : bool) (elems out : list string) :
  Forall (fun e => e <> "") out ->
  Forall (fun e => e <> "") (Filepath.cleanElems rooted elems out).
Proof.
  revert out. induction elems as [|e rest IH]; intros out Hout; cbn.
  - apply Forall_rev. exact Hout.
  - destruct (String.eqb e "") eqn:Hempty; cbn; [apply IH, Hout|].
    apply eqb_empty_false in Hempty.
    destruct (String.eqb e "."); cbn; [apply IH, Hout|].
    destruct (String.eqb e "..").
    + destruct out as [|prev out'].
      * destruct rooted; apply IH; auto.
      * destruct (String.eqb prev ".."); apply IH; auto.
        inversion Hout; assumption.
    + apply IH. auto.
Qed.

Lemma Clean_not_empty (path : string) : Filepath.Clean path <> "".
Proof.
  unfold Filepath.Clean. destruct path as [|c path]; [discriminate|].
  destruct (Ascii.eqb c "/"); [discriminate|].
  pose proof (cleanElems_elements false (Strings.Split (String c path) "/") []
                (List.Forall_nil _)) as Hall.
  destruct (Filepath.cleanElems false _ []) as [|e out]; [discriminate|].
  apply Strings_Join_not_empty. inversion Hall; assumption.
Qed.

Lemma Filepath_Join_not_empty (a b : string) : b <> "" -> Filepath.Join [a; b] <> "".
Proof.
  intros Hb. cbn [Filepath.Join].
  destruct (String.eqb a ""); [|apply Clean_not_empty].
  apply eqb_empty_false in Hb. rewrite Hb. apply Clean_not_empty.
Qed.

(** ** The loop over the mounts *)

Lemma selectImage_last_bind (mounts : list Mount) (acc : string * string * string) :
  selectImage mounts acc
  = match last_bind mounts with
    | Some m => (bootImageOf m, seedImageOf m, rootImageDir m)
    | None => acc
    end.
Proof.
  revert acc. unfold last_bind.
  induction mounts as [|m rest IH]; intros acc; cbn [selectImage List.filter].
  - reflexivity.
  - unfold is_bind at 1. destruct (String.eqb (Mount_Type m) "bind"); cbn [negb].
    + rewrite IH, last_cons.
      destruct (last (List.filter is_bind rest)); reflexivity.
    + apply IH.
Qed.

Lemma bootImageOf_not_empty (m : Mount) : String.eqb (bootImageOf m) "" = false.
Proof.
  apply eqb_empty_false, Filepath_Join_not_empty. discriminate.
Qed.

Lemma os_Stat_absent (files : FS) (path : string) :
  files !! path = None -> os_Stat files path = inl (PathError "stat" path ENOENT).
Proof.
  intros H. unfold os_Stat, MAXSYMLINKS. cbn [resolve]. rewrite H. reflexivity.
Qed.

(** ** [setupRootFS] *)

Lemma setupRootFS_no_bind (q : string -> QemuImgRun) (w : World VM) :
  last_bind (vm_mounts (st w)) = None ->
  setupRootFS q w = (Ret (Some (Wrapped ErrInvalidImage "no bind type mounts")), w).
Proof.
  intros Hnone. unfold setupRootFS, bind, gets.
  rewrite selectImage_last_bind, Hnone. reflexivity.
Qed.

(** The checks in the order the code makes them. *)
Lemma setupRootFS_bind (q : string -> QemuImgRun) (w : World VM) (m : Mount) :
  last_bind (vm_mounts (st w)) = Some m ->
  setupRootFS q w
  = match os_Stat (fs w) (bootImageOf m) with
    | inl err => (Ret (Some err), w)
    | inr _ =>
        match getImageInfo (q (bootImageOf m)) (bootImageOf m) with
        | Panic p => (Panic p, w)
        | Ret (inl err) => (Ret (Some err), w)
        | Ret (inr bootInfo) =>
            if negb (String.eqb (Info_Format bootInfo) "qcow2") then
              (Ret (Some (Wrapped ErrInvalidImage
                            (bootImageOf m +:+ " is not a qcow2 image"))), w)
            else
              match os_Stat (fs w) (seedImageOf m) with
              | inl err => (Ret (Some err), w)
              | inr _ =>
                  (Ret (fst (os_Symlink (fs w) (rootImageDir m)
                               (rootfsLink (vm_bundle (st w))))),
                   with_files (snd (os_Symlink (fs w) (rootImageDir m)
                                      (rootfsLink (vm_bundle (st w))))) w)
              end
        end
    end.
Proof.
  intros Hm. unfold setupRootFS, bind, gets.
  rewrite selectImage_last_bind, Hm. cbn beta iota.
  rewrite bootImageOf_not_empty. cbn beta iota.
  destruct (os_Stat (fs w) (bootImageOf m)) as [err|stat]; [reflexivity|].
  destruct (getImageInfo _ _) as [[err|bootInfo]|p]; try reflexivity.
  destruct (negb _); [reflexivity|].
  destruct (os_Stat (fs w) (seedImageOf m)) as [err|stat']; [reflexivity|].
  unfold rootfsLink.
  destruct (os_Symlink _ _ _) as [err files']. reflexivity.
Qed.

Lemma getImageInfo_format (info : QemuImageInfo) (path : string) :
  exists bootInfo,
    getImageInfo (Printed (inr info)) path = Ret (inr bootInfo) /\
    Info_Format bootInfo = if String.eqb (Info_Format info) "" then "raw"
                           else Info_Format info.
Proof.
  unfold getImageInfo.
  destruct (String.eqb (Info_Format info) ""); eexists; split; reflexivity.
Qed.

Lemma os_Symlink_failed (files files' : FS) (oldname newname : string) (err : error) :
  os_Symlink files oldname newname = (Some err, files') -> files' = files.
Proof.
  unfold os_Symlink.
  destruct (files !! newname); [congruence|].
  destruct (resolve _ _ _ _ _) as [e|[c| |t]]; congruence.
Qed.

Lemma os_Symlink_created (files files' : FS) (oldname newname : string) :
  os_Symlink files oldname newname = (None, files') ->
  files !! newname = None /\ files' = <[newname := Symlink oldname]> files.
Proof.
  unfold os_Symlink.
  destruct (files !! newname); [discriminate|].
  destruct (resolve _ _ _ _ _) as [e|[c| |t]]; try discriminate.
  intros H. injection H as <-. split; reflexivity.
Qed.

Lemma C4_seed_absent_fails_with_InvalidImage :
  let w := world_of sample_vm image_files_without_seed in
  exists m err,
    last_bind (vm_mounts (st w)) = Some m /\
    fs w !! seedImageOf m = None /\
    setupRootFS (qemu_img_reports "raw") w = (Ret (Some err), w) /\
    os_IsNotExist err = false /\
    is_InvalidImage err = true.
Proof.
  cbn zeta. eexists _, _.
  split; [reflexivity|].
  split; [vm_compute; reflexivity|].
  split; [vm_compute; reflexivity|].
  split; reflexivity.
Qed.

Example setupRootFS_accepts :
  setupRootFS (qemu_img_reports "qcow2") (world_of sample_vm image_files)
  = (Ret None,
     world_of sample_vm (<[ "/run/b/rootfs/disk" := Symlink snapshot_disk ]> image_files)).
Proof. vm_compute. reflexivity. Qed.

Example setupRootFS_rejects_unreported_format :
  exists err,
    fst (setupRootFS (qemu_img_reports "") (world_of sample_vm image_files)) = Ret (Some err) /\
    is_InvalidImage err = true.
Proof. eexists. split; [vm_compute; reflexivity | reflexivity]. Qed.

Example setupRootFS_missing_seed :
  exists err,
    fst (setupRootFS (qemu_img_reports "qcow2") (world_of sample_vm image_files_without_seed))
    = Ret (Some err) /\
    os_IsNotExist err = true.
Proof. eexists. split; [vm_compute; reflexivity | reflexivity]. Qed.

(** C4, amended.  Image validation takes the root-image directory from the
    last bind mount and makes its checks in this order: with no bind mount
    it fails with InvalidImage; with the boot image absent, that is when
    [os.Stat] of the boot image answers an error that [os.IsNotExist]
    accepts, it fails with a not-found error (the error of [os.Stat] is
    returned as it is); with the boot image there and introspected, a
    format other than "qcow2" (a missing format is read as "raw") fails
    with InvalidImage; only then, with the format "qcow2", an absent seed
    image (no node at its path, in the directory where the boot image was
    just found) fails with a not-found error.  A failure leaves the file
    system as it was, and a success has created exactly one symbolic link,
    at the bundle's rootfs subpath, to the validated directory. *)
Theorem C4_setupRootFS_checks_in_order (q : string -> QemuImgRun) (w : World VM) :
  match last_bind (vm_mounts (st w)) with
  | None =>
      exists err, setupRootFS q w = (Ret (Some err), w) /\ is_InvalidImage err = true
  | Some m =>
      (forall e,
          os_Stat (fs w) (bootImageOf m) = inl e ->
          os_IsNotExist e = true ->
          exists err, setupRootFS q w = (Ret (Some err), w) /\ os_IsNotExist err = true) /\
      (forall stat info,
          os_Stat (fs w) (bootImageOf m) = inr stat ->
          q (bootImageOf m) = Printed (inr info) ->
          Info_Format info <> "qcow2" ->
          exists err, setupRootFS q w = (Ret (Some err), w) /\ is_InvalidImage err = true) /\
      (forall stat info,
          os_Stat (fs w) (bootImageOf m) = inr stat ->
          q (bootImageOf m) = Printed (inr info) ->
          Info_Format info = "qcow2" ->
          fs w !! seedImageOf m = None ->
          exists err, setupRootFS q w = (Ret (Some err), w) /\ os_IsNotExist err = true) /\
      (forall err w', setupRootFS q w = (Ret (Some err), w') -> w' = w) /\
      (forall w',
          setupRootFS q w = (Ret None, w') ->
          st w' = st w /\
          fs w !! rootfsLink (vm_bundle (st w)) = None /\
          fs w' = <[ rootfsLink (vm_bundle (st w)) := Symlink (rootImageDir m) ]> (fs w))
  end.
Proof.
  destruct (last_bind (vm_mounts (st w))) as [m|] eqn:Hm.
  2: { eexists. split; [apply setupRootFS_no_bind, Hm | reflexivity]. }
  rewrite (setupRootFS_bind q w m Hm).
  split; [|split; [|split; [|split]]].
  - intros e Hstat Habsent. rewrite Hstat.
    exists e. split; [reflexivity | exact Habsent].
  - intros stat info Hstat Hq Hformat. rewrite Hstat, Hq.
    destruct (getImageInfo_format info (bootImageOf m)) as (bootInfo & -> & Hf).
    assert (Hne : String.eqb (Info_Format bootInfo) "qcow2" = false).
    { rewrite Hf. destruct (String.eqb (Info_Format info) "") eqn:He; [reflexivity|].
      apply String.eqb_neq, Hformat. }
    rewrite Hne. cbn [negb]. eexists. split; reflexivity.
  - intros stat info Hstat Hq Hformat Habsent. rewrite Hstat, Hq.
    destruct (getImageInfo_format info (bootImageOf m)) as (bootInfo & -> & Hf).
    rewrite Hformat in Hf. cbn in Hf. rewrite Hf, String.eqb_refl. cbn [negb].
    rewrite (os_Stat_absent _ _ Habsent).
    eexists. split; reflexivity.
  - intros err w'.
    destruct (os_Stat (fs w) (bootImageOf m)) as [e|stat]; [congruence|].
    destruct (getImageInfo _ _) as [[e|bootInfo]|p]; try congruence.
    destruct (negb _); [congruence|].
    destruct (os_Stat (fs w) (seedImageOf m)) as [e|stat']; [congruence|].
    destruct (os_Symlink _ _ _) as [e files'] eqn:Hlink. cbn [fst snd].
    intros H. injection H as -> <-.
    apply os_Symlink_failed in Hlink as ->. destruct w; reflexivity.
  - intros w'.
    destruct (os_Stat (fs w) (bootImageOf m)) as [e|stat]; [discriminate|].
    destruct (getImageInfo _ _) as [[e|bootInfo]|p]; try discriminate.
    destruct (negb _); [discriminate|].
    destruct (os_Stat (fs w) (seedImageOf m)) as [e|stat']; [discriminate|].
    destruct (os_Symlink _ _ _) as [err files'] eqn:Hlink. cbn.
    intros H. injection H as -> <-.
    apply os_Symlink_created in Hlink as [Hfree ->]. cbn. auto.
Qed.

Lemma C4_setupRootFS_checks_witness :
  (setupRootFS (qemu_img_reports "qcow2") (world_of sample_vm image_files)
   = (Ret None,
      world_of sample_vm (<[ "/run/b/rootfs/disk" := Symlink snapshot_disk ]> image_files)) /\
   image_files !! "/run/b/rootfs/disk" = None /\
   fs (world_of sample_vm (<[ "/run/b/rootfs/disk" := Symlink snapshot_disk ]> image_files))
   = <[ rootfsLink "/run/b" := Symlink snapshot_disk ]> image_files) /\
  (os_Stat bundle_files (snapshot_disk +:+ "/boot.qcow2")
   = inl (PathError "stat" (snapshot_disk +:+ "/boot.qcow2") ENOENT) /\
   exists err,
     setupRootFS (qemu_img_reports "qcow2") (world_of sample_vm bundle_files)
     = (Ret (Some err), world_of sample_vm bundle_files) /\
     os_IsNotExist err = true).
Proof.
  assert (Hrun : setupRootFS (qemu_img_reports "qcow2") (world_of sample_vm image_files)
                 = (Ret None,
                    world_of sample_vm
                      (<[ "/run/b/rootfs/disk" := Symlink snapshot_disk ]> image_files))).
  { vm_compute. reflexivity. }
  assert (Hstat : os_Stat bundle_files (snapshot_disk +:+ "/boot.qcow2")
                  = inl (PathError "stat" (snapshot_disk +:+ "/boot.qcow2") ENOENT)).
  { vm_compute. reflexivity. }
  split.
  - split; [exact Hrun|].
    pose proof (C4_setupRootFS_checks_in_order (qemu_img_reports "qcow2")
                  (world_of sample_vm image_files)) as H.
    change (last_bind (vm_mounts (st (world_of sample_vm image_files))))
      with (Some {| Mount_Type := "bind";
                    Mount_Source :=
                      "/var/lib/containerd/io.containerd.snapshotter.v1.native/snapshots/4";
                    Mount_Target := ""; Mount_Options := ["rbind"; "rw"] |}) in H.
    destruct H as (_ & _ & _ & _ & Hok).
    destruct (Hok _ Hrun) as (_ & Hfree & Hlink).
    split; [exact Hfree | exact Hlink].
  - split; [exact Hstat|].
    pose proof (C4_setupRootFS_checks_in_order (qemu_img_reports "qcow2")
                  (world_of sample_vm bundle_files)) as H.
    change (last_bind (vm_mounts (st (world_of sample_vm bundle_files))))
      with (Some {| Mount_Type := "bind";
                    Mount_Source :=
                      "/var/lib/containerd/io.containerd.snapshotter.v1.native/snapshots/4";
                    Mount_Target := ""; Mount_Options := ["rbind"; "rw"] |}) in H.
    destruct H as (Habsent & _).
    exact (Habsent _ Hstat eq_refl).
Defined.

(** ** A task from creation to deletion *)

Example Create_sample :
  exists w,
    TaskService_Create sample_create sample_create_env (world_of empty_service image_files)
    = (Ret ({| CreateResponse_Pid := 0 |}, None), w) /\
    fs w !! "/run/b/rootfs/disk" = Some (Symlink snapshot_disk) /\
    length (ts_events (st w)) = 1%nat /\
    (vm_domain <$> ts_vm (st w) !! "vm1")
    = Some (Some (RenderDomain "vm1" "/run/b" "8d3a4a0e-5a0c-4e43-9d0b-0f6b8c1f2a11")).
Proof.
  eexists. split; [vm_compute; reflexivity|].
  split; [vm_compute; reflexivity|]. split; vm_compute; reflexivity.
Qed.

Example Delete_after_Create :
  let w := snd (TaskService_Create sample_create sample_create_env
                  (world_of empty_service image_files)) in
  let r := TaskService_Delete {| Delete_ID := "vm1"; Delete_ExecID := "" |} None w in
  fst r = Ret (Some {| DeleteResponse_Pid := 0; DeleteResponse_ExitStatus := 0;
                       DeleteResponse_ExitedAt := 0 |}, None) /\
  fs (snd r) !! "/run/b/rootfs/disk" = None.
Proof. split; vm_compute; reflexivity. Qed.

Example Status_blocked_is_Unknown :
  fst (Status (inr VIR_DOMAIN_BLOCKED) (world_of started_vm engine_files))
  = Ret (Unknown, None).
Proof. vm_compute. reflexivity. Qed.

Example Status_without_pid_file :
  fst (Status (inr VIR_DOMAIN_RUNNING) (world_of started_vm bundle_files))
  = Ret (Unknown, None).
Proof. vm_compute. reflexivity. Qed.

Example Status_domain_gone_after_Kill :
  let w := snd (Kill 15 1700000001 None (world_of started_vm engine_files)) in
  fst (Status (inl err_no_domain) w) = Ret (Stopped, None).
Proof. vm_compute. reflexivity. Qed.

Example Status_other_failure :
  fst (Status (inl (ErrorString "connection reset by peer"))
         (world_of started_vm engine_files))
  = Ret (Unknown, Some (ErrorString "connection reset by peer")).
Proof. vm_compute. reflexivity. Qed.

Example Kill_other_failure_is_surfaced :
  exists err w',
    Kill 15 1700000001 (Some (ErrorString "connection reset by peer"))
         (world_of started_vm engine_files)
    = (Ret (Some err), w') /\
    vm_exited (st w') = false /\ vm_ctxDone (st w') = false.
Proof. eexists _, _. split; [vm_compute; reflexivity|]. split; reflexivity. Qed.

(** * Invariants and edge cases *)

(** ** What the operations can change in a VM *)

Lemma changes_trans (allow : MutKind -> bool) (v1 v2 v3 : VM) :
  changes allow v1 v2 -> changes allow v2 v3 -> changes allow v1 v3.
Proof.
  induction 1 as [v|k v1 v2 v2' Hk Hm _ IH]; intros H'; [exact H'|].
  eapply changes_step; [exact Hk | exact Hm | apply IH, H'].
Qed.

Lemma changes_mono (allow allow' : MutKind -> bool) (v v' : VM) :
  (forall k, allow k = true -> allow' k = true) ->
  changes allow v v' -> changes allow' v v'.
Proof.
  intros Hsub. induction 1 as [v|k v1 v2 v3 Hk Hm _ IH]; [constructor|].
  eapply changes_step; [apply Hsub, Hk | exact Hm | exact IH].
Qed.

Lemma changes_once (allow : MutKind -> bool) (k : MutKind) (v v' : VM) :
  allow k = true -> mutation k v v' -> changes allow v v'.
Proof.
  intros Hk Hm. eapply changes_step; [exact Hk | exact Hm | constructor].
Qed.

(** A property that every allowed assignment keeps is kept. *)
Lemma changes_invariant (allow : MutKind -> bool) (P : VM -> Prop) (v v' : VM) :
  (forall k v1 v2, allow k = true -> mutation k v1 v2 -> P v1 -> P v2) ->
  changes allow v v' -> P v -> P v'.
Proof.
  intros Hkeep. induction 1 as [v|k v1 v2 v3 Hk Hm _ IH]; [auto|].
  intros HP. apply IH. exact (Hkeep k v1 v2 Hk Hm HP).
Qed.

Lemma Pid_changes (w : World VM) : changes (only MPid) (st w) (st (snd (Pid w))).
Proof.
  unfold Pid, domain_Name, bind, gets, with_st, modify, ret, panic.
  destruct (vm_domain (st w)) as [d|]; cbn; [|constructor].
  destruct (String.eqb (Name d) ""); cbn; [constructor|].
  destruct (vm_pid (st w) =? 0) eqn:Hzero; cbn; [|constructor].
  apply Z.eqb_eq in Hzero.
  destruct (os_Stat (fs w) _) as [e|stat]; cbn; [constructor|].
  destruct (fi_Size stat =? 0); cbn; [constructor|].
  destruct (os_ReadFile (fs w) _) as [e|data]; cbn; [constructor|].
  destruct (Strconv.Atoi data) as [pid|]; cbn; [|constructor].
  apply (changes_once _ MPid); [reflexivity | constructor; exact Hzero].
Qed.

Lemma Status_changes (getState : error + Z) (w : World VM) :
  changes (only MPid) (st w) (st (snd (Status getState w))).
Proof.
  destruct (Status_world getState w) as [-> | ->]; [constructor | apply Pid_changes].
Qed.

Lemma Start_changes (create : option error) (w : World VM) :
  changes (op_kinds (LOp (OpStart create))) (st w) (st (snd (Start create w))).
Proof.
  unfold Start, domain_Name, bind, gets, with_st, modify, ret, panic.
  destruct create as [err|]; cbn.
  - destruct (vm_domain (st w)); cbn; constructor.
  - apply (changes_once _ MStart); [reflexivity | constructor].
Qed.

Lemma Kill_changes (signal : Z) (now : Time) (destroy : option error) (w : World VM) :
  changes (op_kinds (LOp (OpKill signal now destroy))) (st w)
          (st (snd (Kill signal now destroy w))).
Proof.
  destruct (confirms_termination destroy) eqn:Hc.
  - rewrite Kill_confirmed by exact Hc. cbn [snd st].
    apply (changes_once _ MKill); [exact Hc | constructor].
  - destruct destroy as [err|]; [|discriminate]. cbn in Hc.
    unfold Kill. rewrite Hc.
    unfold domain_Name, bind, gets, logrus, modify, ret, panic. cbn.
    destruct (vm_domain (st w)); cbn; constructor.
Qed.

Lemma Delete_unchanged (undefine : option error) (w : World VM) :
  st (snd (Delete undefine w)) = st w.
Proof.
  destruct (Delete_returns undefine w) as (status & w' & Hrun & Hst & _).
  rewrite Hrun. exact Hst.
Qed.

Lemma waitLoop_changes (events : list WaitEvent) (w : World VM) :
  changes (only MPid) (st w) (st (snd (waitLoop events w))).
Proof.
  revert w. induction events as [|ev rest IH]; intros w; cbn [waitLoop].
  - constructor.
  - assert (Hpoll : forall getState,
               changes (only MPid) (st w)
                 (st (snd (bind (Status getState)
                             (fun r => if is_stopped r then ret true else waitLoop rest) w)))).
    { intros getState. unfold bind.
      pose proof (Status_changes getState w) as Hk.
      destruct (Status getState w) as [[r|p] w1]; cbn in Hk |- *; [|exact Hk].
      destruct (is_stopped r); cbn; [exact Hk|].
      eapply changes_trans; [exact Hk | apply IH]. }
    destruct ev as [getState|getState| |files].
    + apply Hpoll.
    + unfold bind at 1. unfold gets at 1.
      destruct (vm_ctxDone (st w)); [apply Hpoll | apply IH].
    + constructor.
    + unfold bind, put_fs, modify.
      apply (IH {| st := st w; fs := files; log := log w |}).
Qed.

Lemma Wait_changes (events : list WaitEvent) (now : Time) (w : World VM) :
  changes (only MPid) (st w) (st (snd (Wait events now w))).
Proof.
  unfold Wait, bind.
  pose proof (waitLoop_changes events w) as Hk.
  destruct (waitLoop events w) as [[[|]|p] w1]; exact Hk.
Qed.

Lemma setupRootFS_unchanged (q : string -> QemuImgRun) (w : World VM) :
  st (snd (setupRootFS q w)) = st w.
Proof.
  destruct (last_bind (vm_mounts (st w))) as [m|] eqn:Hm.
  - rewrite (setupRootFS_bind q w m Hm).
    destruct (os_Stat (fs w) (bootImageOf m)); [reflexivity|].
    destruct (getImageInfo _ _) as [[e|bootInfo]|p]; try reflexivity.
    destruct (negb _); [reflexivity|].
    destruct (os_Stat (fs w) (seedImageOf m)); reflexivity.
  - rewrite (setupRootFS_no_bind q w Hm). reflexivity.
Qed.

Lemma Init_changes (e : InitEnv) (w : World VM) :
  changes (op_kinds (LInit e)) (st w) (st (snd (Init e w))).
Proof.
  unfold Init, bind.
  pose proof (setupRootFS_unchanged (init_qemuImg e) w) as Hst.
  destruct (setupRootFS (init_qemuImg e) w) as [[[err|]|p] w1]; cbn in Hst |- *;
    try (rewrite Hst; constructor).
  unfold gets, with_st, modify, ret. cbn. rewrite Hst.
  destruct (init_marshal e) as [err|xml]; cbn.
  { apply (changes_once _ MDomain); [reflexivity | constructor]. }
  destruct (init_define e) as [err|meta]; cbn.
  { apply (changes_once _ MDomain); [reflexivity | constructor]. }
  eapply changes_step; [| apply (mut_domain (init_uuid e)) |]; [reflexivity|].
  apply (changes_once _ MMeta); [reflexivity | constructor].
Qed.

Lemma only_MPid_sub (op : LifeOp) :
  (op = LOp OpPid \/ (exists g, op = LOp (OpStatus g)) \/ exists ev now, op = LOp (OpWait ev now)) ->
  forall k, only MPid k = true -> op_kinds op k = true.
Proof.
  intros [-> | [[g ->] | (ev & now & ->)]] [] H; try discriminate; reflexivity.
Qed.

Lemma life_step_changes (w : World VM) (op : LifeOp) :
  changes (op_kinds op) (st w) (st (life_step w op)).
Proof.
  destruct op as [e|[create|signal now destroy|getState| |undefine|events now|files]];
    cbn [life_step step].
  - apply Init_changes.
  - apply Start_changes.
  - apply Kill_changes.
  - eapply changes_mono; [apply only_MPid_sub; eauto | apply Status_changes].
  - eapply changes_mono; [apply only_MPid_sub; eauto | apply Pid_changes].
  - rewrite Delete_unchanged. constructor.
  - eapply changes_mono; [apply only_MPid_sub; eauto | apply Wait_changes].
  - constructor.
Qed.

Lemma life_changes (ops : list LifeOp) (w : World VM) :
  changes (ops_kinds ops) (st w) (st (life ops w)).
Proof.
  revert w. induction ops as [|op ops IH]; intros w; cbn [life fold_left].
  - constructor.
  - eapply changes_trans.
    + eapply changes_mono; [|apply life_step_changes].
      intros k Hk. unfold ops_kinds. cbn. rewrite Hk. reflexivity.
    + eapply changes_mono; [|apply IH].
      intros k Hk. unfold ops_kinds in *. cbn. rewrite Hk. apply orb_true_r.
Qed.

(** X1.  No sequence of Init, Start, Kill, Status, Pid, Delete and Wait
    changes the id, the bundle, the specification, the mounts, the parsed
    environment or the [status] field of a VM: they stay what [NewVM] set. *)
Theorem life_keeps_identity (ops : list LifeOp) (w : World VM) :
  vm_id (st (life ops w)) = vm_id (st w) /\
  vm_bundle (st (life ops w)) = vm_bundle (st w) /\
  vm_spec (st (life ops w)) = vm_spec (st w) /\
  vm_mounts (st (life ops w)) = vm_mounts (st w) /\
  vm_env (st (life ops w)) = vm_env (st w) /\
  vm_status (st (life ops w)) = vm_status (st w).
Proof.
  apply (changes_invariant (ops_kinds ops)
           (fun v => vm_id v = vm_id (st w) /\ vm_bundle v = vm_bundle (st w) /\
                     vm_spec v = vm_spec (st w) /\ vm_mounts v = vm_mounts (st w) /\
                     vm_env v = vm_env (st w) /\ vm_status v = vm_status (st w))
           (st w) (st (life ops w))).
  - intros k v1 v2 _ Hm HP. destruct Hm; exact HP.
  - apply life_changes.
  - repeat split.
Qed.

(** X2.  Only a successful Start sets the started flag: over a sequence of
    operations without one, a VM that was not started stays so, and its
    status is Created, with no look at the pid file or the engine, even
    after a Kill or a Delete. *)
Theorem unstarted_status_is_Created
    (ops : list LifeOp) (w : World VM) (getState : error + Z) :
  vm_started (st w) = false ->
  ops_kinds ops MStart = false ->
  Status getState (life ops w) = (Ret (Created, None), life ops w).
Proof.
  intros Hstarted Hno. apply Status_not_started.
  apply (changes_invariant (ops_kinds ops) (fun v => vm_started v = false)
           (st w) (st (life ops w))); [|apply life_changes|exact Hstarted].
  intros k v1 v2 Hk Hm HP. destruct Hm; try exact HP. congruence.
Qed.

Lemma unstarted_status_is_Created_witness :
  vm_started (st (world_of sample_vm image_files)) = false /\
  ops_kinds unstarted_life MStart = false /\
  vm_exited (st (life unstarted_life (world_of sample_vm image_files))) = true /\
  fst (Status (inr VIR_DOMAIN_SHUTOFF) (life unstarted_life (world_of sample_vm image_files)))
  = Ret (Created, None).
Proof.
  split; [reflexivity|]. split; [reflexivity|]. split; [vm_compute; reflexivity|].
  rewrite (unstarted_status_is_Created unstarted_life (world_of sample_vm image_files)
             (inr VIR_DOMAIN_SHUTOFF) eq_refl eq_refl).
  reflexivity.
Defined.

(** X3.  The started flag, once set, is never cleared; and only a Kill
    that the engine confirms touches the exit record: over a sequence of
    operations without one, the exited flag, the exit time, the
    cancellation of the VM's context and the terminal flag stay as they
    were. *)
Theorem only_confirmed_Kill_marks_exit (ops : list LifeOp) (w : World VM) :
  (vm_started (st w) = true -> vm_started (st (life ops w)) = true) /\
  (ops_kinds ops MKill = false ->
   vm_exited (st (life ops w)) = vm_exited (st w) /\
   vm_exitedAt (st (life ops w)) = vm_exitedAt (st w) /\
   vm_ctxDone (st (life ops w)) = vm_ctxDone (st w) /\
   vm_stdio (st (life ops w)) = vm_stdio (st w)).
Proof.
  split.
  - apply (changes_invariant (ops_kinds ops) (fun v => vm_started v = true)
             (st w) (st (life ops w))); [|apply life_changes].
    intros k v1 v2 _ Hm HP. destruct Hm; first [exact HP | reflexivity].
  - intros Hno.
    apply (changes_invariant (ops_kinds ops)
             (fun v => vm_exited v = vm_exited (st w) /\
                       vm_exitedAt v = vm_exitedAt (st w) /\
                       vm_ctxDone v = vm_ctxDone (st w) /\
                       vm_stdio v = vm_stdio (st w))
             (st w) (st (life ops w))); [|apply life_changes|repeat split].
    intros k v1 v2 Hk Hm HP. destruct Hm; try exact HP. congruence.
Qed.

Lemma no_Init_kinds (ops : list LifeOp) :
  existsb is_LInit ops = false ->
  ops_kinds ops MDomain = false /\ ops_kinds ops MMeta = false.
Proof.
  unfold ops_kinds. induction ops as [|op ops IH]; cbn; [auto|].
  intros H. apply orb_false_iff in H as [Hop Hops].
  destruct (IH Hops) as [-> ->].
  destruct op as [e|[[?|]| | | | | |]]; try discriminate; auto.
Qed.

(** X4.  Only Init sets the rendered domain and the engine's handle: a VM
    on which Init never ran keeps its nil domain through every sequence
    of the other operations, and [Pid] panics on it at the end as at the
    start. *)
Theorem without_Init_Pid_panics (ops : list LifeOp) (w : World VM) :
  vm_domain (st w) = None ->
  existsb is_LInit ops = false ->
  vm_domainMeta (st (life ops w)) = vm_domainMeta (st w) /\
  Pid (life ops w) = (Panic NilDereference, life ops w).
Proof.
  intros Hnil Hno. destruct (no_Init_kinds ops Hno) as [Hd Hm].
  assert (H : vm_domain (st (life ops w)) = None /\
              vm_domainMeta (st (life ops w)) = vm_domainMeta (st w)).
  { apply (changes_invariant (ops_kinds ops)
             (fun v => vm_domain v = None /\ vm_domainMeta v = vm_domainMeta (st w))
             (st w) (st (life ops w))); [|apply life_changes|auto].
    intros k v1 v2 Hk Hmut HP. destruct Hmut; try exact HP; congruence. }
  destruct H as [Hdom Hmeta]. split; [exact Hmeta|].
  apply Pid_nil_domain, Hdom.
Qed.

Lemma without_Init_Pid_panics_witness :
  vm_domain (st (world_of sample_vm bundle_files)) = None /\
  existsb is_LInit [LOp (OpStart None); LOp (OpKill 15 1700000001 None); LOp (OpDelete None)]
  = false /\
  fst (Pid (life [LOp (OpStart None); LOp (OpKill 15 1700000001 None); LOp (OpDelete None)]
             (world_of sample_vm bundle_files)))
  = Panic NilDereference.
Proof.
  split; [reflexivity|]. split; [reflexivity|].
  destruct (without_Init_Pid_panics
              [LOp (OpStart None); LOp (OpKill 15 1700000001 None); LOp (OpDelete None)]
              (world_of sample_vm bundle_files) eq_refl eq_refl) as [_ H].
  rewrite H. reflexivity.
Defined.

(** ** [Wait] *)

Lemma waitLoop_unstarted (events : list WaitEvent) (w : World VM) :
  vm_started (st w) = false ->
  fst (waitLoop events w) = Ret (existsb is_CallerDone events).
Proof.
  revert w. induction events as [|ev rest IH]; intros w Hs; cbn [waitLoop existsb].
  - reflexivity.
  - destruct ev as [getState|getState| |files]; cbn [is_CallerDone orb].
    + unfold bind. rewrite Status_not_started by exact Hs. cbn. apply IH, Hs.
    + unfold bind at 1. unfold gets at 1.
      destruct (vm_ctxDone (st w)); [|apply IH, Hs].
      unfold bind. rewrite Status_not_started by exact Hs. cbn. apply IH, Hs.
    + reflexivity.
    + unfold bind, put_fs, modify. apply IH. exact Hs.
Qed.



Lemma Pid_returns (w : World VM) (d : Domain) :
  vm_domain (st w) = Some d -> exists pid, fst (Pid w) = Ret pid.
Proof.
  intros Hd. unfold Pid, domain_Name, bind, gets, with_st, modify, ret.
  rewrite Hd. cbn.
  destruct (String.eqb (Name d) ""); cbn; [eauto|].
  destruct (negb _); cbn; [eauto|].
  destruct (os_Stat (fs w) _) as [e|stat]; cbn; [eauto|].
  destruct (fi_Size stat =? 0); cbn; [eauto|].
  destruct (os_ReadFile (fs w) _) as [e|data]; cbn; [eauto|].
  destruct (Strconv.Atoi data) as [pid|]; cbn; eauto.
Qed.

Lemma Status_after_Kill_gone (w : World VM) (d : Domain) (getState : error + Z) :
  vm_started (st w) = true ->
  vm_exited (st w) = true ->
  vm_domain (st w) = Some d ->
  tells_gone getState = true ->
  fst (Status getState w) = Ret (Stopped, None).
Proof.
  intros Hs He Hd Hgone.
  destruct (Pid_returns w d Hd) as [pid Hpid].
  rewrite (Status_reconcile getState w pid (fun _ => Hpid)).
  rewrite Hs, He. unfold reconcile, status_table. cbn [negb].
  destruct (negb (pid =? 0)); cbn [negb]; [|reflexivity].
  destruct getState as [err|n]; cbn in Hgone |- *.
  - rewrite Hgone. reflexivity.
  - unfold VIR_DOMAIN_NOSTATE, VIR_DOMAIN_RUNNING, VIR_DOMAIN_PAUSED,
      VIR_DOMAIN_PMSUSPENDED, VIR_DOMAIN_SHUTDOWN, VIR_DOMAIN_SHUTOFF,
      VIR_DOMAIN_CRASHED in *.
    apply orb_true_iff in Hgone as [H|H]; apply Z.eqb_eq in H; subst n; reflexivity.
Qed.

(** X6.  After a Kill that the engine confirmed on a started VM with a
    rendered domain, a status query that the engine answers with shut off,
    crashed or not found is Stopped, never Unknown; and a [Wait] woken by
    the Kill's cancellation with such an answer returns at once with exit
    code 0. *)
Theorem Wait_returns_after_Kill
    (w : World VM) (d : Domain) (signal : Z) (now now' : Time)
    (destroy : option error) (getState : error + Z) (rest : list WaitEvent) :
  vm_started (st w) = true ->
  vm_domain (st w) = Some d ->
  confirms_termination destroy = true ->
  tells_gone getState = true ->
  let killed := snd (Kill signal now destroy w) in
  fst (Status getState killed) = Ret (Stopped, None) /\
  fst (Wait (VMDone getState :: rest) now' killed)
  = Ret (Some (NewExitStatus 0 now' None, None)).
Proof.
  intros Hs Hd Hc Hgone. cbn zeta.
  rewrite (Kill_confirmed signal now destroy w Hc). cbn [snd].
  set (killed := {| st := mark_terminated now (st w); fs := fs w; log := log w |}).
  assert (Hstatus : fst (Status getState killed) = Ret (Stopped, None)).
  { apply (Status_after_Kill_gone killed d); [exact Hs | reflexivity | exact Hd | exact Hgone]. }
  split; [exact Hstatus|].
  unfold Wait. cbn [waitLoop]. unfold bind at 1 2. unfold gets at 1.
  change (vm_ctxDone (st killed)) with true. cbn iota.
  unfold bind at 1.
  destruct (Status getState killed) as [o w1]. cbn in Hstatus. subst o.
  reflexivity.
Qed.

Lemma Wait_returns_after_Kill_witness :
  let killed := snd (Kill 15 1700000001 (Some err_not_running)
                       (world_of started_vm engine_files)) in
  tells_gone (inl err_no_domain) = true /\
  fst (Wait [VMDone (inl err_no_domain)] 1700000002 killed)
  = Ret (Some (NewExitStatus 0 1700000002 None, None)).
Proof.
  cbn zeta. split; [reflexivity|].
  apply (Wait_returns_after_Kill (world_of started_vm engine_files)
           (RenderDomain "vm1" "/run/b" "8d3a4a0e-5a0c-4e43-9d0b-0f6b8c1f2a11")
           15 1700000001 1700000002 (Some err_not_running) (inl err_no_domain) []);
    reflexivity.
Defined.

(** ** [Pid] and the pid file *)

Lemma resolve_plain (fuel : nat) (files : FS) (op path : string) (n : node) :
  files !! path = Some n ->
  (forall target, n <> Symlink target) ->
  resolve fuel files op path path = inr n.
Proof.
  intros Hn Hplain. destruct fuel; cbn; rewrite Hn;
    destruct n; try reflexivity; exfalso; eapply Hplain; reflexivity.
Qed.

Lemma parseDigits_all_digits (s : string) (acc n : Z) :
  Strconv.parseDigits s acc = Some n -> all_digits s = true.
Proof.
  revert acc. induction s as [|c s IH]; intros acc; cbn; [reflexivity|].
  destruct (Strconv.digit c); [|discriminate].
  intros H. cbn. eapply IH, H.
Qed.

(** [Atoi] accepts nothing but digits after the first byte. *)
Lemma Atoi_all_digits (c : ascii) (rest : string) (n : Z) :
  Strconv.Atoi (String c rest) = Some n -> all_digits rest = true.
Proof.
  unfold Strconv.Atoi.
  destruct c as [[] [] [] [] [] [] [] []]; cbn beta iota zeta; intros H;
    first
      [ match type of H with
        | context [Strconv.parseDigits (String ?a rest) 0] =>
            destruct (Strconv.parseDigits (String a rest) 0) eqn:Hp; [|discriminate];
            apply parseDigits_all_digits in Hp; cbn in Hp;
            apply andb_true_iff in Hp as [_ Hp]; exact Hp
        end
      | destruct rest as [|b rest']; [reflexivity|];
        destruct (Strconv.parseDigits (String b rest') 0) eqn:Hp; [|discriminate];
        eapply parseDigits_all_digits, Hp ].
Qed.

Lemma Pid_refused (w : World VM) (d : Domain) (content : string) :
  vm_domain (st w) = Some d ->
  vm_pid (st w) = 0 ->
  fs w !! pidFilePath (Name d) = Some (File content) ->
  Strconv.Atoi content = None ->
  Pid w = (Ret 0, w).
Proof.
  intros Hd Hzero Hfile Hatoi.
  unfold Pid, domain_Name, bind, gets. rewrite Hd. cbn.
  destruct (String.eqb (Name d) ""); [reflexivity|].
  rewrite Hzero. cbn.
  unfold os_Stat, os_ReadFile.
  rewrite !(resolve_plain _ _ _ _ _ Hfile) by discriminate. cbn.
  destruct (Z.of_nat (String.length content) =? 0); [reflexivity|].
  rewrite Hatoi. reflexivity.
Qed.

(** X7.  With a rendered, named domain and nothing cached, [Pid] returns 0,
    caches nothing and changes nothing when the pid file is absent, is
    empty, is a directory, or holds something [strconv.Atoi] refuses, as is
    every content with a byte after the first that is not a decimal digit:
    a number followed by a newline resolves to no process id. *)
Theorem Pid_zero_without_pid_file (w : World VM) (d : Domain) :
  vm_domain (st w) = Some d ->
  vm_pid (st w) = 0 ->
  fs w !! pidFilePath (Name d) = None \/
  fs w !! pidFilePath (Name d) = Some (File "") \/
  fs w !! pidFilePath (Name d) = Some Dir \/
  (exists content, fs w !! pidFilePath (Name d) = Some (File content) /\
                   Strconv.Atoi content = None) \/
  (exists c rest, fs w !! pidFilePath (Name d) = Some (File (String c rest)) /\
                  all_digits rest = false) ->
  Pid w = (Ret 0, w).
Proof.
  intros Hd Hzero Hfile.
  destruct Hfile as [Habsent|[Hempty|[Hdir|[(content & Hfile & Hatoi)
                                          |(c & rest & Hfile & Hrest)]]]].
  - unfold Pid, domain_Name, bind, gets. rewrite Hd. cbn.
    destruct (String.eqb (Name d) ""); [reflexivity|].
    rewrite Hzero. cbn.
    rewrite (os_Stat_absent _ _ Habsent). reflexivity.
  - unfold Pid, domain_Name, bind, gets. rewrite Hd. cbn.
    destruct (String.eqb (Name d) ""); [reflexivity|].
    rewrite Hzero. cbn.
    unfold os_Stat. rewrite (resolve_plain _ _ _ _ _ Hempty) by discriminate. reflexivity.
  - unfold Pid, domain_Name, bind, gets. rewrite Hd. cbn.
    destruct (String.eqb (Name d) ""); [reflexivity|].
    rewrite Hzero. cbn.
    unfold os_Stat. rewrite (resolve_plain _ _ _ _ _ Hdir) by discriminate. reflexivity.
  - exact (Pid_refused w d content Hd Hzero Hfile Hatoi).
  - apply (Pid_refused w d (String c rest) Hd Hzero Hfile).
    destruct (Strconv.Atoi (String c rest)) as [n|] eqn:Hatoi; [|reflexivity].
    apply Atoi_all_digits in Hatoi. congruence.
Qed.

Lemma Pid_zero_without_pid_file_witness :
  bundle_files !! pidFilePath "vm1" = None /\
  Pid (world_of started_vm bundle_files) = (Ret 0, world_of started_vm bundle_files) /\
  all_digits (String "7" (String "1" (String "1" (String (ascii_of_nat 10) EmptyString))))
  = false /\
  Pid (world_of started_vm newline_files) = (Ret 0, world_of started_vm newline_files) /\
  fst (Status (inr VIR_DOMAIN_RUNNING) (world_of started_vm newline_files))
  = Ret (Unknown, None).
Proof.
  split; [vm_compute; reflexivity|].
  split.
  { apply (Pid_zero_without_pid_file (world_of started_vm bundle_files)
             (RenderDomain "vm1" "/run/b" "8d3a4a0e-5a0c-4e43-9d0b-0f6b8c1f2a11"));
      [reflexivity | reflexivity | left; vm_compute; reflexivity]. }
  split; [reflexivity|].
  split; [|vm_compute; reflexivity].
  apply (Pid_zero_without_pid_file (world_of started_vm newline_files)
           (RenderDomain "vm1" "/run/b" "8d3a4a0e-5a0c-4e43-9d0b-0f6b8c1f2a11"));
    [reflexivity | reflexivity |].
  right. right. right. right.
  exists "4"%char,
         (String "7" (String "1" (String "1" (String (ascii_of_nat 10) EmptyString)))).
  split; [vm_compute; reflexivity | reflexivity].
Defined.

(** ** A task without an id *)

(** X8.  A VM with the empty task id, from [NewVM] on, never resolves a
    process id: [Init] renders a domain with the empty name, for which
    [Pid] returns 0 whatever the pid files hold, so its status is never
    Running, whatever the engine reports. *)
Theorem empty_id_never_runs
    (ops : list LifeOp) (w : World VM) (getState : error + Z) :
  vm_id (st w) = "" ->
  vm_domain (st w) = None ->
  (forall pid, fst (Pid (life ops w)) = Ret pid -> pid = 0) /\
  (forall status err,
      fst (Status getState (life ops w)) = Ret (status, err) -> status <> Running).
Proof.
  intros Hid Hnil.
  assert (Hinv : match vm_domain (st (life ops w)) with
                 | Some d => Name d = ""
                 | None => True
                 end).
  { assert (H : vm_id (st (life ops w)) = "" /\
                match vm_domain (st (life ops w)) with
                | Some d => Name d = ""
                | None => True
                end); [|tauto].
    apply (changes_invariant (ops_kinds ops)
             (fun v => vm_id v = "" /\
                       match vm_domain v with Some d => Name d = "" | None => True end)
             (st w) (st (life ops w))); [|apply life_changes|rewrite Hnil; auto].
    intros k v1 v2 _ Hm [HP1 HP2]. destruct Hm; cbn; auto. }
  remember (life ops w) as w' eqn:Hw'. clear Hw'.
  assert (Hpid : forall pid, fst (Pid w') = Ret pid -> pid = 0).
  { intros pid. unfold Pid, domain_Name, bind, gets.
    destruct (vm_domain (st w')) as [d|]; cbn; [|discriminate].
    rewrite Hinv. cbn. congruence. }
  split; [exact Hpid|].
  intros status err.
  destruct (vm_started (st w')) eqn:Hs.
  - destruct (Pid w') as [[pid|p] w1] eqn:Hrun.
    + rewrite (Status_reconcile getState w' pid) by (intros _; rewrite Hrun; reflexivity).
      rewrite (Hpid pid eq_refl).
      rewrite Hs. unfold reconcile, status_table. cbn.
      destruct (vm_exited (st w')); intros H; injection H as <- <-; discriminate.
    + unfold Status, bind, gets. cbv beta iota. rewrite Hs. cbv beta iota delta [negb].
      rewrite Hrun. discriminate.
  - rewrite Status_not_started by exact Hs. cbn.
    intros H; injection H as <- <-; discriminate.
Qed.

Lemma empty_id_never_runs_witness :
  vm_id (st (world_of anonymous_vm anonymous_files)) = "" /\
  vm_domain (st (world_of anonymous_vm anonymous_files)) = None /\
  vm_started (st (life anonymous_life (world_of anonymous_vm anonymous_files))) = true /\
  fs (life anonymous_life (world_of anonymous_vm anonymous_files)) !! pidFilePath ""
  = Some (File "4711") /\
  fst (Status (inr VIR_DOMAIN_RUNNING)
         (life anonymous_life (world_of anonymous_vm anonymous_files)))
  = Ret (Unknown, None).
Proof.
  split; [reflexivity|]. split; [reflexivity|].
  split; [vm_compute; reflexivity|]. split; [vm_compute; reflexivity|].
  pose proof (proj2 (empty_id_never_runs anonymous_life
                       (world_of anonymous_vm anonymous_files)
                       (inr VIR_DOMAIN_RUNNING) eq_refl eq_refl)) as H.
  vm_compute. reflexivity.
Defined.

(** ** The link under the bundle *)

Lemma setupRootFS_success (q : string -> QemuImgRun) (w w' : World VM) :
  setupRootFS q w = (Ret None, w') ->
  exists m,
    last_bind (vm_mounts (st w)) = Some m /\
    st w' = st w /\ log w' = log w /\
    fs w !! rootfsLink (vm_bundle (st w)) = None /\
    fs w' = <[ rootfsLink (vm_bundle (st w)) := Symlink (rootImageDir m) ]> (fs w).
Proof.
  destruct (last_bind (vm_mounts (st w))) as [m|] eqn:Hm.
  2: { rewrite (setupRootFS_no_bind q w Hm). discriminate. }
  rewrite (setupRootFS_bind q w m Hm). intros Hrun.
  exists m. split; [reflexivity|]. revert Hrun.
  destruct (os_Stat (fs w) (bootImageOf m)) as [e|stat]; [discriminate|].
  destruct (getImageInfo _ _) as [[e|bootInfo]|p]; try discriminate.
  destruct (negb _); [discriminate|].
  destruct (os_Stat (fs w) (seedImageOf m)) as [e|stat']; [discriminate|].
  destruct (os_Symlink _ _ _) as [err files'] eqn:Hlink. cbn [fst snd].
  intros Heq. injection Heq as -> <-.
  apply os_Symlink_created in Hlink as [Hfree ->]. cbn. auto.
Qed.

Lemma setupRootFS_failure (q : string -> QemuImgRun) (w w' : World VM) (o : outcome (option error)) :
  setupRootFS q w = (o, w') -> o <> Ret None -> w' = w.
Proof.
  destruct (last_bind (vm_mounts (st w))) as [m|] eqn:Hm.
  2: { rewrite (setupRootFS_no_bind q w Hm). congruence. }
  rewrite (setupRootFS_bind q w m Hm).
  destruct (os_Stat (fs w) (bootImageOf m)) as [e|stat]; [congruence|].
  destruct (getImageInfo _ _) as [[e|bootInfo]|p]; try congruence.
  destruct (negb _); [congruence|].
  destruct (os_Stat (fs w) (seedImageOf m)) as [e|stat']; [congruence|].
  destruct (os_Symlink _ _ _) as [[err|] files'] eqn:Hlink; cbn [fst snd].
  - intros Heq _. injection Heq as <- <-.
    apply os_Symlink_failed in Hlink as ->. destruct w; reflexivity.
  - intros Heq Hne. injection Heq as <- <-. congruence.
Qed.

(** X9.  Image validation writes nothing but the link: whatever its
    outcome, it leaves every other path of the file system, the VM and the
    log as they were, and it cannot succeed when something already sits at
    the link's path, so not twice in a row. *)
Theorem setupRootFS_writes_only_the_link (q : string -> QemuImgRun) (w : World VM) :
  let w' := snd (setupRootFS q w) in
  st w' = st w /\ log w' = log w /\
  (forall path, path <> rootfsLink (vm_bundle (st w)) -> fs w' !! path = fs w !! path) /\
  (is_Some (fs w !! rootfsLink (vm_bundle (st w))) ->
   fst (setupRootFS q w) <> Ret None) /\
  (fst (setupRootFS q w) = Ret None ->
   forall q', fst (setupRootFS q' w') <> Ret None).
Proof.
  cbn zeta. destruct (setupRootFS q w) as [o w'] eqn:Hrun. cbn [fst snd].
  assert (Hcases : (o = Ret None /\ exists m, st w' = st w /\ log w' = log w /\
                      fs w !! rootfsLink (vm_bundle (st w)) = None /\
                      fs w' = <[ rootfsLink (vm_bundle (st w)) := Symlink (rootImageDir m) ]> (fs w))
                   \/ (o <> Ret None /\ w' = w)).
  { destruct o as [[err|]|p].
    - right. split; [discriminate|]. eapply setupRootFS_failure; [exact Hrun|discriminate].
    - left. split; [reflexivity|].
      destruct (setupRootFS_success q w w' Hrun) as (m & _ & H). exists m. exact H.
    - right. split; [discriminate|]. eapply setupRootFS_failure; [exact Hrun|discriminate]. }
  destruct Hcases as [[-> (m & Hst & Hlog & Hfree & Hfs)] | [Hne ->]].
  - split; [exact Hst|]. split; [exact Hlog|]. split; [|split].
    + intros path Hpath. rewrite Hfs. apply lookup_insert_ne. congruence.
    + rewrite Hfree. intros [x Hx]. discriminate.
    + intros _ q' Hagain.
      destruct (setupRootFS q' w') as [o2 w2] eqn:Hrun2. cbn in Hagain. subst o2.
      destruct (setupRootFS_success q' w' w2 Hrun2) as (_ & _ & _ & _ & Hfree2 & _).
      rewrite Hst, Hfs, lookup_insert_eq in Hfree2. discriminate.
  - split; [reflexivity|]. split; [reflexivity|]. split; [reflexivity|]. split.
    + intros _. exact Hne.
    + intros H. contradiction.
Qed.

Lemma Init_success (e : InitEnv) (w w1 : World VM) :
  Init e w = (Ret None, w1) ->
  exists w0 meta,
    setupRootFS (init_qemuImg e) w = (Ret None, w0) /\
    init_define e = inr meta /\
    st w1 = set_domainMeta meta
              (set_domain (RenderDomain (vm_id (st w)) (vm_bundle (st w)) (init_uuid e)) (st w)) /\
    fs w1 = fs w0 /\ log w1 = log w0.
Proof.
  unfold Init, bind.
  destruct (setupRootFS (init_qemuImg e) w) as [[[err|]|p] w0] eqn:Hsetup;
    try discriminate.
  destruct (setupRootFS_success _ _ _ Hsetup) as (_ & _ & Hst & _).
  unfold gets, with_st, modify, ret. cbn. rewrite Hst.
  destruct (init_marshal e) as [err|xml]; [discriminate|].
  destruct (init_define e) as [err|meta]; [discriminate|].
  cbn. intros Heq. injection Heq as <-.
  exists w0, meta. cbn. auto.
Qed.

Lemma os_Remove_frame (files : FS) (path other : string) :
  other <> path -> snd (os_Remove files path) !! other = files !! other.
Proof.
  intros Hne. unfold os_Remove.
  destruct (files !! path) as [[c| |t]|]; cbn; try reflexivity;
    try (apply lookup_delete_ne; congruence).
  destruct (has_child files path); cbn; [reflexivity|].
  apply lookup_delete_ne. congruence.
Qed.

Lemma Delete_files (undefine : option error) (w : World VM) :
  fs (snd (Delete undefine w)) = snd (os_Remove (fs w) (rootfsLink (vm_bundle (st w)))).
Proof.
  destruct (Delete_returns undefine w) as (status & w' & Hrun & _ & _ & Hremove).
  rewrite Hrun. cbn [snd].
  destruct (os_Remove (fs w) _) as [[err|] files']; cbn; tauto.
Qed.

(** X10.  [Delete] removes nothing but what sits at the link's path, and
    it undoes what a successful [Init] did to the file system: after
    [Init] and [Delete] the file system is what it was before. *)
Theorem Delete_undoes_Init (e : InitEnv) (undefine : option error) (w w1 : World VM) :
  (forall path, path <> rootfsLink (vm_bundle (st w)) ->
                fs (snd (Delete undefine w)) !! path = fs w !! path) /\
  (Init e w = (Ret None, w1) -> fs (snd (Delete undefine w1)) = fs w).
Proof.
  split.
  - intros path Hpath. rewrite Delete_files. apply os_Remove_frame, Hpath.
  - intros Hinit.
    destruct (Init_success e w w1 Hinit) as (w0 & meta & Hsetup & _ & Hst & Hfs & _).
    destruct (setupRootFS_success _ _ _ Hsetup) as (m & _ & _ & _ & Hfree & Hfs0).
    rewrite Delete_files, Hst, Hfs, Hfs0. cbn [vm_bundle set_domainMeta set_domain].
    unfold os_Remove. rewrite lookup_insert_eq. cbn [snd].
    apply delete_insert_id, Hfree.
Qed.

Lemma Delete_undoes_Init_witness :
  exists w1,
    Init sample_init_env (world_of sample_vm image_files) = (Ret None, w1) /\
    fs w1 !! "/run/b/rootfs/disk" = Some (Symlink snapshot_disk) /\
    fs (snd (Delete None w1)) = image_files.
Proof.
  eexists. split; [vm_compute; reflexivity|]. split; [vm_compute; reflexivity|].
  apply (proj2 (Delete_undoes_Init sample_init_env None
                  (world_of sample_vm image_files) _)).
  vm_compute. reflexivity.
Defined.

(** X11.  [Init] is not undone when it fails late: if the validation
    passed and [Marshal] or the engine's definition fails, the domain stays
    rendered, the engine's handle stays what it was, the link stays in
    place, and no later [Init] can succeed on that VM until the link is
    removed. *)
Theorem Init_late_failure_blocks_retry (e e' : InitEnv) (w w1 : World VM) (err : error) :
  Init e w = (Ret (Some err), w1) ->
  fst (setupRootFS (init_qemuImg e) w) = Ret None ->
  vm_domain (st w1)
  = Some (RenderDomain (vm_id (st w)) (vm_bundle (st w)) (init_uuid e)) /\
  vm_domainMeta (st w1) = vm_domainMeta (st w) /\
  is_Some (fs w1 !! rootfsLink (vm_bundle (st w))) /\
  fst (Init e' w1) <> Ret None.
Proof.
  intros Hinit Hsetup.
  destruct (setupRootFS (init_qemuImg e) w) as [o w0] eqn:Hrun. cbn in Hsetup. subst o.
  destruct (setupRootFS_success _ _ _ Hrun) as (m & _ & Hst & _ & Hfree & Hfs).
  assert (Hw1 : vm_domain (st w1)
                = Some (RenderDomain (vm_id (st w)) (vm_bundle (st w)) (init_uuid e)) /\
                vm_domainMeta (st w1) = vm_domainMeta (st w) /\
                vm_bundle (st w1) = vm_bundle (st w) /\
                fs w1 = fs w0).
  { revert Hinit. unfold Init, bind. rewrite Hrun.
    unfold gets, with_st, modify, ret. cbn. rewrite Hst.
    destruct (init_marshal e) as [e1|xml].
    { intros Heq. injection Heq as _ <-. cbn. auto. }
    destruct (init_define e) as [e1|meta]; [|discriminate].
    intros Heq. injection Heq as _ <-. cbn. auto. }
  destruct Hw1 as (Hdom & Hmeta & Hbundle & Hfs1).
  split; [exact Hdom|]. split; [exact Hmeta|].
  assert (Hlink : is_Some (fs w1 !! rootfsLink (vm_bundle (st w)))).
  { rewrite Hfs1, Hfs, lookup_insert_eq. eauto. }
  split; [exact Hlink|].
  intros Hagain.
  destruct (Init e' w1) as [o2 w2] eqn:Hrun2. cbn in Hagain. subst o2.
  destruct (Init_success e' w1 w2 Hrun2) as (w3 & _ & Hsetup2 & _).
  destruct (setupRootFS_success _ _ _ Hsetup2) as (_ & _ & _ & _ & Hfree2 & _).
  rewrite Hbundle in Hfree2. rewrite Hfree2 in Hlink. destruct Hlink; discriminate.
Qed.

Lemma Init_late_failure_blocks_retry_witness :
  exists err w1,
    Init refused_init_env (world_of sample_vm image_files) = (Ret (Some err), w1) /\
    fst (setupRootFS (init_qemuImg refused_init_env) (world_of sample_vm image_files))
    = Ret None /\
    fst (Init sample_init_env w1) <> Ret None.
Proof.
  eexists _, _.
  assert (H1 : Init refused_init_env (world_of sample_vm image_files)
               = (Ret (Some (LibvirtError 9 "operation failed: domain 'vm1' already exists")),
                  snd (Init refused_init_env (world_of sample_vm image_files)))).
  { vm_compute. reflexivity. }
  assert (H2 : fst (setupRootFS (init_qemuImg refused_init_env)
                      (world_of sample_vm image_files)) = Ret None).
  { vm_compute. reflexivity. }
  split; [exact H1|]. split; [exact H2|].
  apply (Init_late_failure_blocks_retry refused_init_env sample_init_env _ _ _ H1 H2).
Defined.

(** ** What the service keeps *)

Lemma grows_refl (s : TaskService) : grows s s.
Proof.
  unfold grows. split; [auto|]. split; [|reflexivity].
  exists []. symmetry. apply app_nil_r.
Qed.

Lemma grows_trans (s1 s2 s3 : TaskService) : grows s1 s2 -> grows s2 s3 -> grows s1 s3.
Proof.
  intros (Hv & [m1 He] & Hc) (Hv' & [m2 He'] & Hc').
  split; [auto|]. split; [|congruence].
  exists (m1 ++ m2). rewrite He', He. symmetry. apply app_assoc.
Qed.

Lemma grows_set_vm (id : string) (v : VM) (s : TaskService) : grows s (set_vm id v s).
Proof.
  split; [|split; [exists []; symmetry; apply app_nil_r | reflexivity]].
  intros id' H. cbn. destruct (decide (id = id')) as [->|Hne].
  - rewrite lookup_insert_eq. eauto.
  - rewrite lookup_insert_ne by exact Hne. exact H.
Qed.

Lemma growing_ret {A} (a : A) : growing (ret a).
Proof. intros w. apply grows_refl. Qed.

Lemma growing_panic {A} (p : panic_value) : growing (@panic _ A p).
Proof. intros w. apply grows_refl. Qed.

Lemma growing_gets {A} (f : World TaskService -> A) : growing (gets f).
Proof. intros w. apply grows_refl. Qed.

Lemma growing_logrus (lvl : Level) (err : option error) (msg : string) :
  growing (logrus lvl err msg).
Proof. intros w. apply grows_refl. Qed.

Lemma growing_bind {A B} (m : M (World TaskService) A) (k : A -> M (World TaskService) B) :
  growing m -> (forall a, growing (k a)) -> growing (bind m k).
Proof.
  intros Hm Hk w. unfold bind. specialize (Hm w).
  destruct (m w) as [[a|p] w1]; cbn in Hm |- *; [|exact Hm].
  eapply grows_trans; [exact Hm | apply Hk].
Qed.

Lemma growing_on_vm {A} (id : string) (m : M (World VM) A) : growing (on_vm id m).
Proof.
  intros w. unfold on_vm.
  destruct (ts_vm (st w) !! id); [|apply grows_refl].
  destruct (m _) as [o w1]. cbn. apply grows_set_vm.
Qed.

Lemma growing_send (evt : Event) : growing (send evt).
Proof.
  intros w. unfold send, bind, gets, with_st, modify, panic.
  destruct (ts_eventsClosed (st w)); cbn; [apply grows_refl|].
  split; [auto|]. split; [exists [evt]; reflexivity | reflexivity].
Qed.

Lemma growing_set_vm (id : string) (v : VM) : growing (with_st (set_vm id v)).
Proof. intros w. apply grows_set_vm. Qed.

Lemma growing_set_f (path : string) : growing (with_st (set_f path)).
Proof.
  intros w. cbn. split; [auto|]. split; [exists []; symmetry; apply app_nil_r | reflexivity].
Qed.

Lemma growing_defer_log {A} (body : M (World TaskService) (A * option error)) (msg : string) :
  growing body -> growing (defer_log body msg).
Proof.
  intros Hb w. unfold defer_log. specialize (Hb w).
  destruct (body w) as [o w1]. exact Hb.
Qed.

Lemma growing_defer_logrus {A} (body : M (World TaskService) A)
    (lvl : Level) (err : option error) (msg : string) :
  growing body -> growing (defer body (logrus lvl err msg)).
Proof.
  intros Hb w. unfold defer. specialize (Hb w).
  destruct (body w) as [o w1]. exact Hb.
Qed.

Ltac growing :=
  repeat first
    [ apply growing_ret | apply growing_panic | apply growing_gets
    | apply growing_logrus | apply growing_on_vm | apply growing_send
    | apply growing_set_vm | apply growing_set_f
    | apply growing_defer_log | apply growing_defer_logrus
    | apply growing_bind; [|intros]
    | match goal with
      | |- growing (match ?x with _ => _ end) => destruct x
      | |- growing (let '(_, _) := ?x in _) => destruct x
      | |- growing (if ?b then _ else _) => destruct b
      end ].

Lemma Create_growing (r : CreateTaskRequest) (e : CreateEnv) :
  growing (TaskService_Create r e).
Proof. unfold TaskService_Create. growing. Qed.

Lemma Start_growing (r : StartRequest) (create : option error) :
  growing (TaskService_Start r create).
Proof. unfold TaskService_Start. growing. Qed.

Lemma Delete_growing (r : DeleteRequest) (undefine : option error) :
  growing (TaskService_Delete r undefine).
Proof. unfold TaskService_Delete. growing. Qed.

Lemma TaskKill_growing (r : KillRequest) (now : Time) (destroy : option error) :
  growing (TaskService_Kill r now destroy).
Proof. unfold TaskService_Kill. growing. Qed.

Lemma State_growing (r : StateRequest) (getState : error + Z) :
  growing (TaskService_State r getState).
Proof. unfold TaskService_State. growing. Qed.

Lemma Connect_growing (r : ConnectRequest) (getpid : Z) :
  growing (TaskService_Connect r getpid).
Proof. unfold TaskService_Connect. growing. Qed.

Lemma TaskWait_growing (r : WaitRequest) (events : list WaitEvent) (now now' : Time) :
  growing (TaskService_Wait r events now now').
Proof.
  intros w. unfold TaskService_Wait.
  destruct (ts_vm (st w) !! Wait_ID r).
  - pose proof (growing_on_vm (Wait_ID r) (Wait events now) w) as H.
    destruct (on_vm (Wait_ID r) (Wait events now) w) as [[[[exitStatus err]|]|p] w1];
      exact H.
  - apply grows_refl.
Qed.

Lemma service_step_grows (w : World TaskService) (op : ServiceOp) :
  grows (st w) (st (service_step w op)).
Proof.
  destruct op; cbn [service_step].
  - apply Create_growing.
  - apply Start_growing.
  - apply Delete_growing.
  - apply TaskKill_growing.
  - apply State_growing.
  - apply TaskWait_growing.
  - apply Connect_growing.
  - destruct c; apply grows_refl.
  - apply grows_refl.
Qed.

(** X12.  Over every sequence of Create, Start, Delete, Kill, State, Wait,
    Connect and the unsupported calls, the service never forgets a task,
    not even one it deleted; the events sent so far stay, in their order,
    before the new ones; and the channel is never closed. *)
Theorem service_only_grows (ops : list ServiceOp) (w : World TaskService) :
  (forall id, is_Some (ts_vm (st w) !! id) ->
              is_Some (ts_vm (st (service_run ops w)) !! id)) /\
  (exists more, ts_events (st (service_run ops w)) = ts_events (st w) ++ more) /\
  ts_eventsClosed (st (service_run ops w)) = ts_eventsClosed (st w).
Proof.
  change (grows (st w) (st (service_run ops w))).
  revert w. induction ops as [|op ops IH]; intros w; cbn.
  - apply grows_refl.
  - eapply grows_trans; [apply service_step_grows | apply IH].
Qed.

(** ** Calls that name an unknown task *)

(** X13.  For a task id the service does not know, State, Start, Delete,
    Kill and Wait return the error "process not found" (State with an
    empty response, the others with none), Connect succeeds with task pid
    0; none of them touches the service or the file system, each writes
    its one log line. *)
Theorem unknown_task_is_not_found (w : World TaskService) (id : string) :
  ts_vm (st w) !! id = None ->
  (forall r getState, State_ID r = id ->
     TaskService_State r getState w
     = (Ret (emptyStateResponse, Some process_not_found),
        logged InfoLevel None "Task State" w)) /\
  (forall r create, Start_ID r = id ->
     TaskService_Start r create w
     = (Ret (None, Some process_not_found),
        logged InfoLevel (Some process_not_found) "Task Start" w)) /\
  (forall r undefine, Delete_ID r = id ->
     TaskService_Delete r undefine w
     = (Ret (None, Some process_not_found),
        logged InfoLevel (Some process_not_found) "Task Delete" w)) /\
  (forall r now destroy, Kill_ID r = id ->
     TaskService_Kill r now destroy w
     = (Ret (None, Some process_not_found),
        logged InfoLevel (Some process_not_found) "Task Kill" w)) /\
  (forall r events now now', Wait_ID r = id ->
     TaskService_Wait r events now now' w
     = (Ret (Some (None, Some process_not_found)),
        logged InfoLevel (Some process_not_found) "Task Wait" w)) /\
  (forall r getpid, Connect_ID r = id ->
     TaskService_Connect r getpid w
     = (Ret ({| Connect_ShimPid := uint32 getpid; Connect_TaskPid := 0 |}, None),
        logged InfoLevel None "Task Connect" w)).
Proof.
  intros Hnone. repeat split; intros r; intros; subst id.
  - unfold TaskService_State, defer, bind, gets. cbn. rewrite Hnone. reflexivity.
  - unfold TaskService_Start, defer_log, bind, gets. cbn. rewrite Hnone. reflexivity.
  - unfold TaskService_Delete, defer_log, bind, gets. cbn. rewrite Hnone. reflexivity.
  - unfold TaskService_Kill, defer_log, bind, gets. cbn. rewrite Hnone. reflexivity.
  - unfold TaskService_Wait. rewrite Hnone. reflexivity.
  - unfold TaskService_Connect, defer_log, bind, gets. cbn. rewrite Hnone. reflexivity.
Qed.

Lemma unknown_task_is_not_found_witness :
  ts_vm (st (world_of sample_service bundle_files)) !! "vm2" = None /\
  fst (TaskService_Kill {| Kill_ID := "vm2"; Kill_ExecID := ""; Kill_Signal := 9;
                           Kill_All := false |} 1700000001 None
         (world_of sample_service bundle_files))
  = Ret (None, Some process_not_found).
Proof.
  assert (H : ts_vm (st (world_of sample_service bundle_files)) !! "vm2" = None).
  { vm_compute. reflexivity. }
  split; [exact H|].
  destruct (unknown_task_is_not_found _ "vm2" H) as (_ & _ & _ & Hkill & _).
  rewrite (Hkill {| Kill_ID := "vm2"; Kill_ExecID := ""; Kill_Signal := 9;
                    Kill_All := false |} 1700000001 None eq_refl).
  reflexivity.
Defined.

(** ** [TaskService.Delete] on a known task *)

Lemma on_vm_run {A} (id : string) (m : M (World VM) A) (w : World TaskService) (v : VM) :
  ts_vm (st w) !! id = Some v ->
  on_vm id m w
  = (fst (m {| st := v; fs := fs w; log := log w |}),
     {| st := set_vm id (st (snd (m {| st := v; fs := fs w; log := log w |}))) (st w);
        fs := fs (snd (m {| st := v; fs := fs w; log := log w |}));
        log := log (snd (m {| st := v; fs := fs w; log := log w |})) |}).
Proof.
  intros Hv. unfold on_vm. rewrite Hv.
  destruct (m _) as [o w1]. reflexivity.
Qed.

Lemma Pid_returns_named (w : World VM) (d : Domain) :
  vm_domain (st w) = Some d ->
  exists pid, fst (Pid w) = Ret pid /\
              vm_domain (st (snd (Pid w))) = Some d /\
              vm_exitedAt (st (snd (Pid w))) = vm_exitedAt (st w).
Proof.
  intros Hd. destruct (Pid_returns w d Hd) as [pid Hpid]. exists pid.
  split; [exact Hpid|].
  apply (changes_invariant (only MPid)
           (fun v => vm_domain v = Some d /\ vm_exitedAt v = vm_exitedAt (st w))
           (st w) (st (snd (Pid w)))); [|apply Pid_changes|auto].
  intros k v1 v2 Hk Hm HP. destruct Hm; try discriminate. exact HP.
Qed.

Lemma Delete_known
    (r : DeleteRequest) (undefine : option error) (w : World TaskService)
    (v : VM) (d : Domain) :
  ts_vm (st w) !! Delete_ID r = Some v ->
  vm_domain v = Some d ->
  ts_eventsClosed (st w) = false ->
  exists pid v' w',
    TaskService_Delete r undefine w
    = (Ret (Some {| DeleteResponse_Pid := pid;
                    DeleteResponse_ExitStatus := delete_code undefine;
                    DeleteResponse_ExitedAt := vm_exitedAt v |}, None), w') /\
    ts_events (st w')
    = ts_events (st w) ++
      (if String.eqb (Delete_ExecID r) ""
       then [TaskDelete (Delete_ID r) pid (delete_code undefine) (vm_exitedAt v)] else []) /\
    ts_eventsClosed (st w') = false /\
    ts_vm (st w') !! Delete_ID r = Some v' /\
    vm_domain v' = Some d /\
    vm_exitedAt v' = vm_exitedAt v.
Proof.
  intros Hv Hd Hopen.
  unfold TaskService_Delete, defer_log.
  unfold bind at 1. unfold gets at 1. rewrite Hv.
  unfold bind at 1. rewrite (on_vm_run _ _ _ v Hv).
  destruct (Delete_returns undefine {| st := v; fs := fs w; log := log w |})
    as (status & w1 & Hrun & Hst & Hstatus & _).
  rewrite Hrun. cbn [fst snd]. cbn in Hst, Hstatus. rewrite Hst.
  set (logB := match ExitError status with
               | Some e => {| log_level := ErrorLevel;
                              log_msg := "failed to release VM resources";
                              log_err := Some e |} :: log w1
               | None => log w1
               end).
  set (wB := {| st := set_vm (Delete_ID r) v (st w); fs := fs w1; log := logB |}).
  assert (HB : forall A (k : unit -> M (World TaskService) A),
             bind (match ExitError status with
                   | Some e => logrus ErrorLevel (Some e) "failed to release VM resources"
                   | None => ret tt
                   end) k
               {| st := set_vm (Delete_ID r) v (st w); fs := fs w1; log := log w1 |}
             = k tt wB).
  { intros A k. unfold wB, logB. destruct (ExitError status); reflexivity. }
  rewrite HB. clear HB.
  assert (HvB : ts_vm (st wB) !! Delete_ID r = Some v).
  { cbn. apply lookup_insert_eq. }
  unfold bind at 1. rewrite (on_vm_run _ _ _ v HvB).
  destruct (Pid_returns_named {| st := v; fs := fs wB; log := log wB |} d Hd)
    as (pid & Hpid & Hdom & Hat).
  destruct (Pid {| st := v; fs := fs wB; log := log wB |}) as [o w2].
  cbn [fst snd] in *. subst o.
  assert (Hcode : ExitCode status = delete_code undefine /\ ExitTime status = vm_exitedAt v).
  { subst status. unfold delete_code.
    destruct undefine as [err|]; [destruct (IsNotFound err)|]; split; reflexivity. }
  destruct Hcode as [-> ->].
  exists pid, (st w2).
  destruct (String.eqb (Delete_ExecID r) "").
  - unfold bind, send, gets, with_st, modify, ret. cbn. rewrite Hopen. cbn.
    eexists. split; [reflexivity|]. cbn.
    rewrite lookup_insert_eq. auto.
  - unfold bind, ret. cbn.
    eexists. split; [reflexivity|]. cbn.
    rewrite lookup_insert_eq, app_nil_r. auto.
Qed.

(** X14.  Deleting a known, initialized task returns a response with exit
    status 0, or 1 when the undefine failed other than with not-found,
    never an error, and queues one TaskDelete event exactly when the
    request names no exec id.  The task is not removed from the service:
    a second Delete finds it, returns a response again and queues a second
    TaskDelete event. *)
Theorem Delete_twice
    (r : DeleteRequest) (undefine undefine' : option error) (w : World TaskService)
    (v : VM) (d : Domain) :
  ts_vm (st w) !! Delete_ID r = Some v ->
  vm_domain v = Some d ->
  ts_eventsClosed (st w) = false ->
  exists pid pid' resp resp',
    fst (TaskService_Delete r undefine w) = Ret (Some resp, None) /\
    DeleteResponse_ExitStatus resp = delete_code undefine /\
    fst (TaskService_Delete r undefine' (snd (TaskService_Delete r undefine w)))
    = Ret (Some resp', None) /\
    DeleteResponse_ExitStatus resp' = delete_code undefine' /\
    ts_events (st (snd (TaskService_Delete r undefine'
                          (snd (TaskService_Delete r undefine w)))))
    = ts_events (st w) ++
      (if String.eqb (Delete_ExecID r) ""
       then [TaskDelete (Delete_ID r) pid (delete_code undefine) (vm_exitedAt v);
             TaskDelete (Delete_ID r) pid' (delete_code undefine') (vm_exitedAt v)]
       else []).
Proof.
  intros Hv Hd Hopen.
  destruct (Delete_known r undefine w v d Hv Hd Hopen)
    as (pid & v1 & w1 & Hrun & Hev & Hopen1 & Hv1 & Hd1 & Hat1).
  destruct (Delete_known r undefine' w1 v1 d Hv1 Hd1 Hopen1)
    as (pid' & v2 & w2 & Hrun2 & Hev2 & _).
  rewrite Hrun. cbn [fst snd]. rewrite Hrun2. cbn [fst snd].
  exists pid, pid'. eexists _, _.
  split; [reflexivity|]. split; [reflexivity|].
  split; [reflexivity|]. split; [reflexivity|].
  rewrite Hev2, Hev, Hat1.
  destruct (String.eqb (Delete_ExecID r) ""); rewrite <- app_assoc; reflexivity.
Qed.

Lemma Delete_twice_witness :
  exists v d,
    ts_vm (st created_world) !! "vm1" = Some v /\
    vm_domain v = Some d /\
    ts_eventsClosed (st created_world) = false /\
    length (ts_events (st (snd (TaskService_Delete
                                  {| Delete_ID := "vm1"; Delete_ExecID := "" |} None
                                  (snd (TaskService_Delete
                                          {| Delete_ID := "vm1"; Delete_ExecID := "" |}
                                          None created_world))))))
    = 3%nat.
Proof.
  eexists _, _.
  assert (H1 : ts_vm (st created_world) !! "vm1"
               = Some (set_domainMeta (match init_define sample_init_env with
                                       | inr m => m | inl _ => zeroDomainMeta end)
                         (set_domain (RenderDomain "vm1" "/run/b"
                                        "8d3a4a0e-5a0c-4e43-9d0b-0f6b8c1f2a11")
                            sample_vm))).
  { vm_compute. reflexivity. }
  split; [exact H1|]. split; [reflexivity|]. split; [reflexivity|].
  destruct (Delete_twice {| Delete_ID := "vm1"; Delete_ExecID := "" |} None None
              created_world _ _ H1 eq_refl eq_refl)
    as (pid & pid' & resp & resp' & _ & _ & _ & _ & Hev).
  rewrite Hev. reflexivity.
Defined.

(** ** [TaskService.Create] *)

Lemma NewVM_fields (id bundle : string) (stdio : Stdio) (spec : Spec)
    (rootFS : list Mount) (connect : option error) (vm : VM) :
  NewVM id stdio spec bundle rootFS connect = Ret (Some vm, None) ->
  vm_id vm = id /\ vm_bundle vm = bundle /\ vm_mounts vm = rootFS /\
  vm_domain vm = None /\ vm_started vm = false /\ vm_exited vm = false /\
  vm_ctxDone vm = false /\ vm_pid vm = 0 /\ vm_status vm = 0.
Proof.
  unfold NewVM. destruct connect; [discriminate|].
  destruct (match Spec_Process spec with
            | Some process => parseEnv (Process_Env process) ∅
            | None => Ret ∅
            end) as [env|p]; [|discriminate].
  intros H. injection H as <-. cbn. repeat split.
Qed.

Lemma Init_no_bind (e : InitEnv) (w : World VM) :
  last_bind (vm_mounts (st w)) = None ->
  Init e w
  = (Ret (Some (Wrapped (Wrapped ErrInvalidImage "no bind type mounts")
                  "failed to set up rootfs")), w).
Proof.
  intros Hnone. unfold Init, bind.
  rewrite (setupRootFS_no_bind _ _ Hnone). reflexivity.
Qed.

(** X15.  A Create whose mounts hold no bind mount fails with an error
    that wraps the InvalidImage sentinel and queues no event; but it has
    already registered the VM, which stays in the service with a nil
    domain, so that a Delete of that task panics. *)
Theorem Create_without_bind_mount
    (r : CreateTaskRequest) (e : CreateEnv) (w : World TaskService)
    (spec : Spec) (vm : VM) :
  create_openLog e = None ->
  create_readSpec e = inr spec ->
  NewVM (Create_ID r)
        {| Stdin := Create_Stdin r; Stdout := Create_Stdout r;
           Stderr := Create_Stderr r; Terminal := Create_Terminal r |}
        spec (Create_Bundle r) (Create_Rootfs r) (create_connect e)
  = Ret (Some vm, None) ->
  last_bind (Create_Rootfs r) = None ->
  exists err w',
    TaskService_Create r e w = (Ret ({| CreateResponse_Pid := 0 |}, Some err), w') /\
    is_InvalidImage err = true /\
    ts_vm (st w') !! Create_ID r = Some vm /\
    vm_domain vm = None /\
    ts_events (st w') = ts_events (st w) /\
    forall r' undefine,
      Delete_ID r' = Create_ID r ->
      fst (TaskService_Delete r' undefine w') = Panic NilDereference.
Proof.
  intros Hopen Hspec Hnew Hbind.
  destruct (NewVM_fields _ _ _ _ _ _ _ Hnew) as (Hid & _ & Hmounts & Hnil & _).
  set (s1 := set_vm (vm_id vm) vm
               (set_f (Filepath.Join
                         [Filepath.Join ["/var/log/containerd-shim-hvf-v1"; Create_ID r];
                          "shim.log"]) (st w))).
  set (w1 := {| st := s1; fs := fs w; log := log w |}).
  assert (Hv : ts_vm (st w1) !! vm_id vm = Some vm) by apply lookup_insert_eq.
  assert (Hinit : on_vm (vm_id vm) (Init (create_init e)) w1
                  = (Ret (Some (Wrapped (Wrapped ErrInvalidImage "no bind type mounts")
                                  "failed to set up rootfs")),
                     {| st := set_vm (vm_id vm) vm s1; fs := fs w; log := log w |})).
  { rewrite (on_vm_run _ _ _ _ Hv).
    rewrite Init_no_bind by (cbn [st]; rewrite Hmounts; exact Hbind).
    reflexivity. }
  assert (Hlook : ts_vm (set_vm (vm_id vm) vm s1) !! Create_ID r = Some vm).
  { rewrite <- Hid. apply lookup_insert_eq. }
  eexists _, _. split.
  - unfold TaskService_Create, defer_log.
    rewrite Hopen, Hspec, Hnew.
    unfold bind at 1. unfold with_st at 1. unfold modify at 1. cbn [fst snd].
    unfold bind at 1. unfold with_st at 1. unfold modify at 1. cbn [fst snd st fs log].
    unfold bind at 1. fold s1. fold w1. rewrite Hinit. reflexivity.
  - cbn [st fs log].
    split; [reflexivity|].
    split; [exact Hlook|]. split; [exact Hnil|]. split; [reflexivity|].
    intros r' undefine Hr'.
    apply (TaskService_Delete_nil_domain r' undefine _ vm); [|exact Hnil].
    rewrite Hr'. exact Hlook.
Qed.

Lemma Create_without_bind_mount_witness :
  last_bind (Create_Rootfs unbound_create) = None /\
  exists err w',
    TaskService_Create unbound_create sample_create_env (world_of empty_service image_files)
    = (Ret ({| CreateResponse_Pid := 0 |}, Some err), w') /\
    is_InvalidImage err = true /\
    fst (TaskService_Delete {| Delete_ID := "vm1"; Delete_ExecID := "" |} None w')
    = Panic NilDereference.
Proof.
  split; [reflexivity|].
  assert (Hnew : NewVM (Create_ID unbound_create)
                   {| Stdin := Create_Stdin unbound_create;
                      Stdout := Create_Stdout unbound_create;
                      Stderr := Create_Stderr unbound_create;
                      Terminal := Create_Terminal unbound_create |}
                   (spec_of_env ["PATH=/usr/bin"]) (Create_Bundle unbound_create)
                   (Create_Rootfs unbound_create) (create_connect sample_create_env)
                 = Ret (Some unbound_vm, None)).
  { vm_compute. reflexivity. }
  destruct (Create_without_bind_mount unbound_create sample_create_env
              (world_of empty_service image_files)
              (spec_of_env ["PATH=/usr/bin"]) unbound_vm
              eq_refl eq_refl Hnew eq_refl)
    as (err & w' & Hrun & Hinv & _ & _ & _ & Hdel).
  exists err, w'. split; [exact Hrun|]. split; [exact Hinv|].
  apply Hdel. reflexivity.
Defined.

(** ** Calls on a task whose VM was never initialized *)

Lemma bind_run {S A B} (m : M S A) (k : A -> M S B) (s : S) :
  bind m k s = match m s with
               | (Ret a, s') => k a s'
               | (Panic p, s') => (Panic p, s')
               end.
Proof. reflexivity. Qed.

Lemma defer_log_fst {S A} (body : M (World S) (A * option error)) (msg : string)
    (w : World S) :
  fst (defer_log body msg w) = fst (body w).
Proof. unfold defer_log. destruct (body w) as [o w']. reflexivity. Qed.

Lemma defer_logrus_fst {S A} (body : M (World S) A)
    (lvl : Level) (err : option error) (msg : string) (w : World S) :
  fst (defer body (logrus lvl err msg) w) = fst (body w).
Proof. unfold defer. destruct (body w) as [o w']. reflexivity. Qed.

Lemma on_vm_Pid_nil (id : string) (w : World TaskService) (v : VM) :
  ts_vm (st w) !! id = Some v ->
  vm_domain v = None ->
  fst (on_vm id Pid w) = Panic NilDereference.
Proof.
  intros Hv Hnil. rewrite (on_vm_run _ _ _ v Hv). cbn [fst].
  rewrite Pid_nil_domain by exact Hnil. reflexivity.
Qed.

Lemma Status_nil_domain (getState : error + Z) (w : World VM) :
  vm_domain (st w) = None ->
  Status getState w
  = if vm_started (st w) then (Panic NilDereference, w) else (Ret (Created, None), w).
Proof.
  intros Hnil. unfold Status. rewrite bind_run. unfold gets at 1.
  destruct (vm_started (st w)); cbn [negb]; [|reflexivity].
  rewrite bind_run, Pid_nil_domain by exact Hnil. reflexivity.
Qed.

(** X16.  On a task whose VM is registered and was never initialized (its
    domain is nil, as [Create] leaves it when the validation fails), State,
    Start and Connect panic with a nil dereference, whatever the engine
    answers; Kill returns when the engine confirms the termination and
    panics likewise when it refuses. *)
Theorem uninitialized_task_panics (w : World TaskService) (id : string) (v : VM) :
  ts_vm (st w) !! id = Some v ->
  vm_domain v = None ->
  (forall r getState, State_ID r = id ->
     fst (TaskService_State r getState w) = Panic NilDereference) /\
  (forall r create, Start_ID r = id ->
     fst (TaskService_Start r create w) = Panic NilDereference) /\
  (forall r getpid, Connect_ID r = id ->
     fst (TaskService_Connect r getpid w) = Panic NilDereference) /\
  (forall r now destroy, Kill_ID r = id ->
     fst (TaskService_Kill r now destroy w)
     = if confirms_termination destroy then Ret (Some tt, None)
       else Panic NilDereference).
Proof.
  intros Hv Hnil. split; [|split; [|split]].
  - intros r getState <-.
    unfold TaskService_State. rewrite defer_logrus_fst.
    rewrite bind_run. unfold gets at 1. rewrite Hv.
    rewrite bind_run, (on_vm_run _ _ _ v Hv).
    rewrite Status_nil_domain by exact Hnil.
    cbn [st]. destruct (vm_started v); cbn [fst snd]; [reflexivity|].
    rewrite bind_run.
    match goal with
    | |- context [on_vm ?i Pid ?w0] =>
        pose proof (on_vm_Pid_nil i w0 v (lookup_insert_eq _ _ _) Hnil) as Hp;
        destruct (on_vm i Pid w0) as [o w1]
    end.
    cbn [fst] in Hp. subst o. reflexivity.
  - intros r create <-.
    unfold TaskService_Start. rewrite defer_log_fst.
    rewrite bind_run. unfold gets at 1. rewrite Hv.
    rewrite bind_run, (on_vm_run _ _ _ v Hv).
    destruct create as [err|].
    + unfold Start, domain_Name. rewrite !bind_run. unfold gets. cbn [st].
      rewrite Hnil. reflexivity.
    + unfold Start. rewrite bind_run. unfold with_st, modify, ret. cbn [fst snd st fs log].
      rewrite bind_run.
      match goal with
      | |- context [on_vm ?i Pid ?w0] =>
          pose proof (on_vm_Pid_nil i w0 (set_started true v)
                        (lookup_insert_eq _ _ _) Hnil) as Hp;
          destruct (on_vm i Pid w0) as [o w1]
      end.
      cbn [fst] in Hp. subst o. reflexivity.
  - intros r getpid <-.
    unfold TaskService_Connect. rewrite defer_log_fst.
    rewrite bind_run. unfold gets at 1. rewrite Hv.
    rewrite bind_run.
    pose proof (on_vm_Pid_nil (Connect_ID r) w v Hv Hnil) as Hp.
    destruct (on_vm (Connect_ID r) Pid w) as [o w1].
    cbn [fst] in Hp. subst o. reflexivity.
  - intros r now destroy <-.
    unfold TaskService_Kill. rewrite defer_log_fst.
    rewrite bind_run. unfold gets at 1. rewrite Hv.
    rewrite bind_run, (on_vm_run _ _ _ v Hv).
    unfold Kill, confirms_termination.
    destruct destroy as [err|].
    + destruct (IsNotFound err || Strings.Contains (error_text err) "is not running").
      * reflexivity.
      * unfold domain_Name, bind, logrus, modify, gets. cbn [st fst snd].
        rewrite Hnil. reflexivity.
    + reflexivity.
Qed.

Lemma uninitialized_task_panics_witness :
  ts_vm (st (world_of sample_service bundle_files)) !! "vm1" = Some sample_vm /\
  vm_domain sample_vm = None /\
  fst (TaskService_State {| State_ID := "vm1"; State_ExecID := "" |} (inr 1)
         (world_of sample_service bundle_files))
  = Panic NilDereference /\
  fst (TaskService_Kill {| Kill_ID := "vm1"; Kill_ExecID := ""; Kill_Signal := 9;
                           Kill_All := false |} 1700000001
         (Some (ErrorString "connection reset by peer"))
         (world_of sample_service bundle_files))
  = Panic NilDereference.
Proof.
  assert (H : ts_vm (st (world_of sample_service bundle_files)) !! "vm1" = Some sample_vm).
  { vm_compute. reflexivity. }
  split; [exact H|]. split; [reflexivity|].
  destruct (uninitialized_task_panics _ "vm1" sample_vm H eq_refl)
    as (Hstate & _ & _ & Hkill).
  split.
  - exact (Hstate {| State_ID := "vm1"; State_ExecID := "" |} (inr 1) eq_refl).
  - exact (Hkill {| Kill_ID := "vm1"; Kill_ExecID := ""; Kill_Signal := 9;
                    Kill_All := false |} 1700000001
             (Some (ErrorString "connection reset by peer")) eq_refl).
Defined.

(** ** A second [Create] for a task *)

Lemma Pid_fs (w : World VM) : fs (snd (Pid w)) = fs w.
Proof.
  unfold Pid, domain_Name, bind, gets, with_st, modify, ret, panic.
  destruct (vm_domain (st w)) as [d|]; cbn; [|reflexivity].
  destruct (String.eqb (Name d) ""); cbn; [reflexivity|].
  destruct (vm_pid (st w) =? 0); cbn; [|reflexivity].
  destruct (os_Stat (fs w) _) as [e|stat]; cbn; [reflexivity|].
  destruct (fi_Size stat =? 0); cbn; [reflexivity|].
  destruct (os_ReadFile (fs w) _) as [e|data]; cbn; [reflexivity|].
  destruct (Strconv.Atoi data) as [pid|]; reflexivity.
Qed.

Lemma on_vm_Pid_fs (id : string) (w : World TaskService) :
  fs (snd (on_vm id Pid w)) = fs w.
Proof.
  unfold on_vm. destruct (ts_vm (st w) !! id) as [v|]; [|reflexivity].
  pose proof (Pid_fs {| st := v; fs := fs w; log := log w |}) as H.
  destruct (Pid _) as [o w']. exact H.
Qed.

Lemma send_fs (evt : Event) (w : World TaskService) : fs (snd (send evt w)) = fs w.
Proof.
  unfold send, bind, gets, with_st, modify, panic.
  destruct (ts_eventsClosed (st w)); reflexivity.
Qed.

Lemma bind_fs {A B} (m : M (World TaskService) A) (k : A -> M (World TaskService) B) :
  (forall w, fs (snd (m w)) = fs w) ->
  (forall a w, fs (snd (k a w)) = fs w) ->
  forall w, fs (snd (bind m k w)) = fs w.
Proof.
  intros Hm Hk w. unfold bind. specialize (Hm w).
  destruct (m w) as [[a|p] w']; cbn [snd] in *; [|exact Hm].
  rewrite Hk. exact Hm.
Qed.

(** A [Create] that succeeds has made the link under its bundle. *)
Lemma Create_success_link
    (r : CreateTaskRequest) (e : CreateEnv) (w w1 : World TaskService)
    (resp : CreateTaskResponse) :
  TaskService_Create r e w = (Ret (resp, None), w1) ->
  is_Some (fs w1 !! rootfsLink (Create_Bundle r)).
Proof.
  intros H. unfold TaskService_Create, defer_log in H.
  match type of H with
  | context [match ?b w with _ => _ end] => destruct (b w) as [o w'] eqn:Hb
  end.
  cbn in H. injection H as -> <-. cbn [fs].
  destruct (create_openLog e); [discriminate|].
  rewrite bind_run in Hb. unfold with_st at 1, modify at 1 in Hb.
  destruct (create_readSpec e) as [err|spec]; [discriminate|].
  destruct (NewVM _ _ _ _ _ _) as [[[vm|] [err|]]|p] eqn:Hnew; try discriminate.
  destruct (NewVM_fields _ _ _ _ _ _ _ Hnew) as (Hid & Hbundle & _).
  rewrite bind_run in Hb. unfold with_st at 1, modify at 1 in Hb.
  rewrite bind_run in Hb.
  match type of Hb with
  | context [on_vm (vm_id vm) (Init ?ie) ?w0] =>
      rewrite (on_vm_run (vm_id vm) (Init ie) w0 vm (lookup_insert_eq _ _ _)) in Hb
  end.
  cbn [st fs log] in Hb.
  destruct (Init _ _) as [[[err|]|p] w2] eqn:Hinit; cbn [fst snd] in Hb; try discriminate.
  apply Init_success in Hinit as (w0 & meta & Hsetup & _ & _ & Hfs2 & _).
  apply setupRootFS_success in Hsetup as (m & _ & _ & _ & _ & Hfs0).
  cbn [st fs] in Hfs0. rewrite Hbundle in Hfs0.
  pose proof (f_equal (fun x => fs (snd x)) Hb) as Hfs. cbn beta in Hfs.
  rewrite bind_fs in Hfs.
  - cbn [snd fs] in Hfs. rewrite <- Hfs, Hfs2, Hfs0, lookup_insert_eq. eexists. reflexivity.
  - intros w3. apply on_vm_Pid_fs.
  - intros pid w3. apply bind_fs; [intros; apply send_fs|].
    intros _ w4. apply bind_fs; [intros; apply on_vm_Pid_fs|].
    intros pid' w5. reflexivity.
Qed.

Lemma setupRootFS_link_exists (q : string -> QemuImgRun) (w : World VM) :
  is_Some (fs w !! rootfsLink (vm_bundle (st w))) ->
  fst (setupRootFS q w) <> Ret None.
Proof.
  intros [n Hn] Hres.
  destruct (setupRootFS q w) as [o w'] eqn:Hrun. cbn [fst] in Hres. subst o.
  apply setupRootFS_success in Hrun as (m & _ & _ & _ & Hfree & _).
  congruence.
Qed.

(** A [Create] whose image validation does not pass: the new VM is in the
    map, with nothing else changed but the log file and the log. *)
Lemma Create_validation_fails
    (r : CreateTaskRequest) (e : CreateEnv) (w : World TaskService)
    (spec : Spec) (vm : VM) :
  create_openLog e = None ->
  create_readSpec e = inr spec ->
  NewVM (Create_ID r)
        {| Stdin := Create_Stdin r; Stdout := Create_Stdout r;
           Stderr := Create_Stderr r; Terminal := Create_Terminal r |}
        spec (Create_Bundle r) (Create_Rootfs r) (create_connect e)
  = Ret (Some vm, None) ->
  fst (setupRootFS (init_qemuImg (create_init e)) {| st := vm; fs := fs w; log := log w |})
  <> Ret None ->
  (forall resp, fst (TaskService_Create r e w) <> Ret (resp, None)) /\
  ts_vm (st (snd (TaskService_Create r e w))) !! Create_ID r = Some vm /\
  ts_events (st (snd (TaskService_Create r e w))) = ts_events (st w) /\
  fs (snd (TaskService_Create r e w)) = fs w.
Proof.
  intros Hopen Hspec Hnew Hfail.
  destruct (NewVM_fields _ _ _ _ _ _ _ Hnew) as (Hid & _).
  assert (Hrun : exists o w',
             TaskService_Create r e w = (o, w') /\
             (forall resp, o <> Ret (resp, None)) /\
             ts_vm (st w') !! Create_ID r = Some vm /\
             ts_events (st w') = ts_events (st w) /\
             fs w' = fs w).
  { unfold TaskService_Create, defer_log.
    rewrite Hopen, Hspec, Hnew.
    rewrite bind_run. unfold with_st at 1, modify at 1. cbv beta iota.
    rewrite bind_run. unfold with_st at 1, modify at 1. cbv beta iota.
    rewrite bind_run.
    match goal with
    | |- context [on_vm (vm_id vm) (Init ?ie) ?w0] =>
        rewrite (on_vm_run (vm_id vm) (Init ie) w0 vm (lookup_insert_eq _ _ _))
    end.
    cbn [st fs log].
    unfold Init. rewrite bind_run.
    destruct (setupRootFS _ _) as [o w0] eqn:Hs. cbn [fst] in Hfail.
    pose proof (setupRootFS_failure _ _ _ _ Hs Hfail) as ->.
    rewrite <- Hid.
    destruct o as [[err|]|p]; [|contradiction|]; cbn.
    - eexists _, _. split; [reflexivity|]. split; [discriminate|].
      split; [apply lookup_insert_eq|]. split; reflexivity.
    - eexists _, _. split; [reflexivity|]. split; [discriminate|].
      split; [apply lookup_insert_eq|]. split; reflexivity. }
  destruct Hrun as (o & w' & -> & Hno & Hlook & Hev & Hfs).
  cbn [fst snd]. auto.
Qed.

(** X17.  [Create] is not repeatable: after a Create that succeeded, a
    second Create for the same request, with whatever the log, the spec,
    the engine and the inspection tool answer as long as [NewVM] returns a
    VM, does not succeed, because the link of the first is in place.  It
    has by then replaced the task's VM by the new one, whose domain is
    nil, and queues no event; a Delete of the task then panics. *)
Theorem repeated_Create_breaks_task
    (r : CreateTaskRequest) (e e' : CreateEnv) (w w1 : World TaskService)
    (resp : CreateTaskResponse) (spec' : Spec) (vm' : VM) :
  TaskService_Create r e w = (Ret (resp, None), w1) ->
  create_openLog e' = None ->
  create_readSpec e' = inr spec' ->
  NewVM (Create_ID r)
        {| Stdin := Create_Stdin r; Stdout := Create_Stdout r;
           Stderr := Create_Stderr r; Terminal := Create_Terminal r |}
        spec' (Create_Bundle r) (Create_Rootfs r) (create_connect e')
  = Ret (Some vm', None) ->
  (forall resp', fst (TaskService_Create r e' w1) <> Ret (resp', None)) /\
  ts_vm (st (snd (TaskService_Create r e' w1))) !! Create_ID r = Some vm' /\
  vm_domain vm' = None /\
  ts_events (st (snd (TaskService_Create r e' w1))) = ts_events (st w1) /\
  forall r' undefine,
    Delete_ID r' = Create_ID r ->
    fst (TaskService_Delete r' undefine (snd (TaskService_Create r e' w1)))
    = Panic NilDereference.
Proof.
  intros Hfirst Hopen Hspec Hnew.
  destruct (NewVM_fields _ _ _ _ _ _ _ Hnew) as (_ & Hbundle & _ & Hnil & _).
  apply Create_success_link in Hfirst.
  destruct (Create_validation_fails r e' w1 spec' vm' Hopen Hspec Hnew)
    as (Hno & Hlook & Hev & _).
  { apply setupRootFS_link_exists. cbn [st fs]. rewrite Hbundle. exact Hfirst. }
  split; [exact Hno|]. split; [exact Hlook|]. split; [exact Hnil|].
  split; [exact Hev|].
  intros r' undefine Hr'.
  apply (TaskService_Delete_nil_domain r' undefine _ vm'); [|exact Hnil].
  rewrite Hr'. exact Hlook.
Qed.

Lemma repeated_Create_breaks_task_witness :
  TaskService_Create sample_create sample_create_env (world_of empty_service image_files)
  = (Ret ({| CreateResponse_Pid := 0 |}, None), created_world) /\
  (vm_domain <$> ts_vm (st created_world) !! "vm1")
  = Some (Some (RenderDomain "vm1" "/run/b" "8d3a4a0e-5a0c-4e43-9d0b-0f6b8c1f2a11")) /\
  ts_vm (st (snd (TaskService_Create sample_create sample_create_env created_world))) !! "vm1"
  = Some sample_vm /\
  fst (TaskService_Delete {| Delete_ID := "vm1"; Delete_ExecID := "" |} None
         (snd (TaskService_Create sample_create sample_create_env created_world)))
  = Panic NilDereference.
Proof.
  assert (Hfirst : TaskService_Create sample_create sample_create_env
                     (world_of empty_service image_files)
                   = (Ret ({| CreateResponse_Pid := 0 |}, None), created_world)).
  { vm_compute. reflexivity. }
  assert (Hnew : NewVM (Create_ID sample_create)
                   {| Stdin := Create_Stdin sample_create;
                      Stdout := Create_Stdout sample_create;
                      Stderr := Create_Stderr sample_create;
                      Terminal := Create_Terminal sample_create |}
                   (spec_of_env ["PATH=/usr/bin"]) (Create_Bundle sample_create)
                   (Create_Rootfs sample_create) (create_connect sample_create_env)
                 = Ret (Some sample_vm, None)).
  { vm_compute. reflexivity. }
  split; [exact Hfirst|]. split; [vm_compute; reflexivity|].
  destruct (repeated_Create_breaks_task sample_create sample_create_env sample_create_env
              _ _ _ _ _ Hfirst eq_refl eq_refl Hnew)
    as (_ & Hlook & _ & _ & Hdel).
  split; [exact Hlook|].
  apply Hdel. reflexivity.
Defined.

(** ** [TaskService.State] and [TaskService.Wait] on a known task *)

Lemma uint32_zero : uint32 0 = 0.
Proof. reflexivity. Qed.

(** A [Pid] that returned a non-zero process id returns it again. *)
Lemma Pid_again (w w1 : World VM) (p : Z) :
  Pid w = (Ret p, w1) -> p <> 0 -> Pid w1 = (Ret p, w1).
Proof.
  intros Hrun Hp.
  unfold Pid, domain_Name, bind, gets, with_st, modify, ret, panic in Hrun.
  destruct (vm_domain (st w)) as [d|] eqn:Hd; cbn in Hrun; [|discriminate].
  destruct (String.eqb (Name d) "") eqn:Hname; cbn in Hrun.
  { injection Hrun as <- <-. contradiction. }
  apply String.eqb_neq in Hname.
  destruct (vm_pid (st w) =? 0) eqn:Hzero; cbn in Hrun.
  - destruct (os_Stat (fs w) _) as [e|stat]; cbn in Hrun.
    { injection Hrun as <- <-. contradiction. }
    destruct (fi_Size stat =? 0); cbn in Hrun.
    { injection Hrun as <- <-. contradiction. }
    destruct (os_ReadFile (fs w) _) as [e|data]; cbn in Hrun.
    { injection Hrun as <- <-. contradiction. }
    destruct (Strconv.Atoi data) as [pid|]; cbn in Hrun.
    2: { injection Hrun as <- <-. contradiction. }
    injection Hrun as <- <-.
    set (w1 := {| st := set_pid pid (st w); fs := fs w; log := log w |}).
    change (uint32 pid) with (uint32 (vm_pid (st w1))).
    apply (Pid_cached w1 d); [exact Hd | exact Hname |].
    cbn. intros ->. apply Hp, uint32_zero.
  - injection Hrun as <- <-.
    apply Z.eqb_neq in Hzero.
    apply (Pid_cached _ d Hd Hname Hzero).
Qed.

Lemma Status_Running (getState : error + Z) (w w1 : World VM) (err : option error) :
  Status getState w = (Ret (Running, err), w1) ->
  getState = inr VIR_DOMAIN_RUNNING /\ exists p, p <> 0 /\ Pid w = (Ret p, w1).
Proof.
  unfold Status. rewrite bind_run. unfold gets at 1.
  destruct (vm_started (st w)); cbn [negb]; [|discriminate].
  rewrite bind_run.
  destruct (Pid w) as [[pid|p] w'] eqn:Hpid; [|discriminate].
  destruct (pid =? 0) eqn:Hzero.
  { destruct (vm_exited (st w)); discriminate. }
  apply Z.eqb_neq in Hzero.
  destruct getState as [e|n].
  { destruct (Strings.Contains _ _); [destruct (vm_exited (st w))|]; discriminate. }
  destruct (n =? 0); [discriminate|].
  destruct (n =? 1) eqn:Hone.
  - intros H. injection H as _ <-. apply Z.eqb_eq in Hone. subst n.
    split; [reflexivity|]. exists pid. split; [exact Hzero | reflexivity].
  - destruct ((n =? 3) || (n =? 7)); [discriminate|].
    destruct (n =? 4); [discriminate|].
    destruct ((n =? 5) || (n =? 6)); discriminate.
Qed.

(** X18.  A State response that says RUNNING carries a non-zero process
    id, and is given only when the engine reports the running state for a
    started VM: the id is the one [Status] resolved, cached by then. *)
Theorem State_running_has_pid
    (r : StateRequest) (getState : error + Z) (w : World TaskService)
    (resp : StateResponse) :
  fst (TaskService_State r getState w) = Ret (resp, None) ->
  StateResponse_Status resp = Status_RUNNING ->
  StateResponse_Pid resp <> 0 /\
  getState = inr VIR_DOMAIN_RUNNING /\
  exists v, ts_vm (st w) !! State_ID r = Some v /\ vm_started v = true.
Proof.
  intros H Hrunning.
  unfold TaskService_State in H. rewrite defer_logrus_fst in H.
  rewrite bind_run in H. unfold gets at 1 in H.
  destruct (ts_vm (st w) !! State_ID r) as [v|] eqn:Hv; [|discriminate].
  rewrite bind_run, (on_vm_run _ _ _ v Hv) in H.
  destruct (Status getState _) as [[[status err]|p] w1] eqn:Hstat; [|discriminate].
  cbn [fst snd] in H. destruct err as [err|]; [discriminate|].
  rewrite bind_run in H.
  match type of H with
  | context [on_vm ?i Pid ?w0] =>
      rewrite (on_vm_run i Pid w0 (st w1) (lookup_insert_eq _ _ _)) in H
  end.
  cbn [st fs log] in H.
  replace {| st := st w1; fs := fs w1; log := log w1 |} with w1 in H
    by (destruct w1; reflexivity).
  destruct (Pid w1) as [[pid|p] w2] eqn:Hpid; [|discriminate].
  cbn [fst snd] in H. rewrite bind_run in H.
  match type of H with
  | context [on_vm ?i (gets st) ?w0] =>
      rewrite (on_vm_run i (gets st) w0 (st w2) (lookup_insert_eq _ _ _)) in H
  end.
  cbn in H. injection H as <-. cbn in Hrunning.
  assert (status = Running) as -> by (destruct status; discriminate || reflexivity).
  destruct (Status_Running _ _ _ _ Hstat) as (Hstate & p & Hp & Hfirst).
  rewrite (Pid_again _ _ _ Hfirst Hp) in Hpid. injection Hpid as <- <-.
  cbn. split; [exact Hp|]. split; [exact Hstate|]. exists v. split; [reflexivity|].
  unfold Status in Hstat. rewrite bind_run in Hstat. unfold gets at 1 in Hstat.
  cbn [st] in Hstat. destruct (vm_started v); [reflexivity|discriminate].
Qed.

Lemma State_running_has_pid_witness :
  fst (TaskService_State {| State_ID := "vm1"; State_ExecID := "" |}
         (inr VIR_DOMAIN_RUNNING) (world_of running_service engine_files))
  = Ret (running_response, None) /\
  StateResponse_Status running_response = Status_RUNNING /\
  StateResponse_Pid running_response <> 0.
Proof.
  assert (H : fst (TaskService_State {| State_ID := "vm1"; State_ExecID := "" |}
                     (inr VIR_DOMAIN_RUNNING) (world_of running_service engine_files))
              = Ret (running_response, None)).
  { vm_compute. reflexivity. }
  split; [exact H|]. split; [reflexivity|].
  destruct (State_running_has_pid _ _ _ _ H eq_refl) as (Hpid & _).
  exact Hpid.
Defined.

Lemma Wait_result (events : list WaitEvent) (now : Time) (w : World VM)
    (x : ExitStatus * option error) :
  fst (Wait events now w) = Ret (Some x) -> x = (NewExitStatus 0 now None, None).
Proof.
  unfold Wait. rewrite bind_run.
  destruct (waitLoop events w) as [[[]|p] w']; cbn; congruence.
Qed.

(** X19.  [TaskService.Wait], when it returns for a known task, reports
    exit status 0, the clock at its return as exit time and no error,
    whatever happened to the VM and whatever the engine answered: the
    branch that reports status 1 is never taken, and neither the exit time
    that Kill recorded nor a failed Delete shows in the response. *)
Theorem Wait_reports_exit_zero
    (r : WaitRequest) (events : list WaitEvent) (now now' : Time)
    (w : World TaskService) (res : option WaitResponse * option error) :
  is_Some (ts_vm (st w) !! Wait_ID r) ->
  fst (TaskService_Wait r events now now' w) = Ret (Some res) ->
  res = (Some {| WaitResponse_ExitStatus := 0; WaitResponse_ExitedAt := now' |}, None).
Proof.
  intros [v Hv] H. unfold TaskService_Wait in H. rewrite Hv in H.
  rewrite (on_vm_run _ _ _ v Hv) in H.
  destruct (Wait events now _) as [[[[status err]|]|p] w'] eqn:Hwait;
    cbn [fst snd] in H; try discriminate.
  pose proof (Wait_result events now _ (status, err) (f_equal fst Hwait)) as Hx.
  injection Hx as -> ->. injection H as <-. reflexivity.
Qed.

Lemma Wait_reports_exit_zero_witness :
  (vm_exitedAt <$> ts_vm (st killed_world) !! "vm1") = Some 1700000001 /\
  fst (TaskService_Wait {| Wait_ID := "vm1"; Wait_ExecID := "" |}
         [VMDone (inr VIR_DOMAIN_SHUTOFF)] 1700000002 1700000003 killed_world)
  = Ret (Some (Some {| WaitResponse_ExitStatus := 0;
                       WaitResponse_ExitedAt := 1700000003 |}, None)).
Proof.
  split; [vm_compute; reflexivity|].
  assert (Hv : is_Some (ts_vm (st killed_world)
                          !! Wait_ID {| Wait_ID := "vm1"; Wait_ExecID := "" |})).
  { eexists. vm_compute. reflexivity. }
  destruct (fst (TaskService_Wait {| Wait_ID := "vm1"; Wait_ExecID := "" |}
                   [VMDone (inr VIR_DOMAIN_SHUTOFF)] 1700000002 1700000003 killed_world))
    as [[res|]|p] eqn:Hrun; [|vm_compute in Hrun; discriminate..].
  rewrite (Wait_reports_exit_zero _ _ _ _ _ res Hv Hrun).
  reflexivity.
Defined.

(** ** The forwarding loop *)

Lemma GetTopic_known (k : EventKind) : k <> KOther -> snd (GetTopic k) = false.
Proof. destruct k; intros H; [reflexivity..|contradiction]. Qed.

Lemma forwardLoop_spec {E} (kind : E -> EventKind)
    (publish : nat -> string -> E -> option error)
    (events : list E) (n : nat) (acc : Forwarded E) :
  fw_published (forwardLoop kind publish n events acc)
  = fw_published acc ++ map (fun e => (fst (GetTopic (kind e)), e)) events /\
  fw_closed (forwardLoop kind publish n events acc) = true /\
  (length (fw_log (forwardLoop kind publish n events acc))
   <= length (fw_log acc) + length events)%nat /\
  ((forall i t e, publish i t e = None) ->
   fw_log (forwardLoop kind publish n events acc) = fw_log acc) /\
  ((forall e, In e events -> kind e <> KOther) ->
   fw_warnings (forwardLoop kind publish n events acc) = fw_warnings acc).
Proof.
  revert n acc. induction events as [|e rest IH]; intros n acc.
  - cbn. rewrite app_nil_r. repeat split; auto. lia.
  - cbn [forwardLoop].
    destruct (GetTopic (kind e)) as [topic warned] eqn:Htopic.
    match goal with
    | |- context [forwardLoop kind publish (S n) rest ?a] =>
        destruct (IH (S n) a) as (Hpub & Hclosed & Hlen & Hlog & Hwarn)
    end.
    cbn [fw_published fw_log fw_warnings] in *.
    split; [|split; [|split; [|split]]].
    + rewrite Hpub, <- app_assoc. cbn [map]. rewrite Htopic. reflexivity.
    + exact Hclosed.
    + etransitivity; [exact Hlen|].
      destruct (publish n topic e); cbn [length]; lia.
    + intros Hnone. rewrite (Hlog Hnone), Hnone. reflexivity.
    + intros Hknown. rewrite Hwarn by (intros e' He'; apply Hknown; right; exact He').
      pose proof (GetTopic_known (kind e) (Hknown e (or_introl eq_refl))) as Hk.
      rewrite Htopic in Hk. cbn [snd] in Hk. subst warned. lia.
Qed.



(** ** [Shutdown] *)

Lemma Shutdown_run (cancel : M (World TaskService) unit) (w : World TaskService) :
  (forall w0, cancel w0 = (Ret tt, w0)) ->
  exists files,
    TaskService_Shutdown cancel w
    = (if ts_eventsClosed (st w)
       then (Panic (PanicString "close of closed channel"),
             logged InfoLevel None "Task Shutdown"
               {| st := st w; fs := files; log := log w |})
       else (Ret (Some tt, None),
             logged InfoLevel None "Task Shutdown"
               {| st := close_events (st w); fs := files; log := log w |})) /\
    (forall path, path <> Strings.drop 7 (ts_shimAddress (st w)) ->
                  files !! path = fs w !! path).
Proof.
  intros Hcancel.
  pose proof (os_Remove_frame (fs w) (Strings.drop 7 (ts_shimAddress (st w)))) as Hframe.
  unfold TaskService_Shutdown, defer, RemoveSocket, close_channel, logged,
    bind, gets, ret, panic, put_fs, with_st, logrus, modify.
  destruct (String.eqb (ts_shimAddress (st w)) ""); cbn [negb].
  - exists (fs w). split; [|reflexivity].
    cbv beta iota. rewrite Hcancel.
    destruct (ts_eventsClosed (st w)); destruct w; reflexivity.
  - destruct (Strings.HasPrefix (ts_shimAddress (st w)) "unix://").
    + cbv beta iota.
      destruct (os_Remove (fs w) _) as [err files'] eqn:Hrm. cbn [snd] in Hframe.
      exists files'. split; [|intros path Hne; apply Hframe; exact Hne].
      cbv beta iota. rewrite Hcancel. cbn [st fs log].
      destruct (ts_eventsClosed (st w)); reflexivity.
    + exists (fs w). split; [|reflexivity].
      cbv beta iota. rewrite Hcancel.
      destruct (ts_eventsClosed (st w)); destruct w; reflexivity.
Qed.

Lemma Delete_after_close
    (r : DeleteRequest) (undefine : option error) (w : World TaskService)
    (v : VM) (d : Domain) :
  ts_vm (st w) !! Delete_ID r = Some v ->
  vm_domain v = Some d ->
  ts_eventsClosed (st w) = true ->
  Delete_ExecID r = "" ->
  fst (TaskService_Delete r undefine w) = Panic (PanicString "send on closed channel").
Proof.
  intros Hv Hd Hclosed Hexec.
  unfold TaskService_Delete. rewrite defer_log_fst.
  unfold bind at 1. unfold gets at 1. rewrite Hv.
  unfold bind at 1. rewrite (on_vm_run _ _ _ v Hv).
  destruct (Delete_returns undefine {| st := v; fs := fs w; log := log w |})
    as (status & w1 & Hrun & Hst & Hstatus & _).
  rewrite Hrun. cbn [fst snd]. cbn in Hst. rewrite Hst.
  set (logB := match ExitError status with
               | Some e => {| log_level := ErrorLevel;
                              log_msg := "failed to release VM resources";
                              log_err := Some e |} :: log w1
               | None => log w1
               end).
  set (wB := {| st := set_vm (Delete_ID r) v (st w); fs := fs w1; log := logB |}).
  assert (HB : forall A (k : unit -> M (World TaskService) A),
             bind (match ExitError status with
                   | Some e => logrus ErrorLevel (Some e) "failed to release VM resources"
                   | None => ret tt
                   end) k
               {| st := set_vm (Delete_ID r) v (st w); fs := fs w1; log := log w1 |}
             = k tt wB).
  { intros A k. unfold wB, logB. destruct (ExitError status); reflexivity. }
  rewrite HB. clear HB.
  assert (HvB : ts_vm (st wB) !! Delete_ID r = Some v).
  { cbn. apply lookup_insert_eq. }
  unfold bind at 1. rewrite (on_vm_run _ _ _ v HvB).
  destruct (Pid_returns_named {| st := v; fs := fs wB; log := log wB |} d Hd)
    as (pid & Hpid & _).
  destruct (Pid {| st := v; fs := fs wB; log := log wB |}) as [o w2].
  cbn [fst snd] in *. subst o.
  rewrite Hexec. cbn [String.eqb].
  unfold bind, send, gets, with_st, modify, ret, panic. cbn. rewrite Hclosed. reflexivity.
Qed.

(** X21.  [Shutdown] can be served once.  On an open channel it returns
    an empty response and no error, closes the channel, keeps every task
    and every event sent, and changes nothing in the file system but the
    socket file of the shim's address.  A second Shutdown panics on the
    closed channel, and so does a Delete of an initialized task that has
    to send its TaskDelete event. *)
Theorem Shutdown_is_final
    (cancel cancel' : M (World TaskService) unit) (w : World TaskService) :
  (forall w0, cancel w0 = (Ret tt, w0)) ->
  (forall w0, cancel' w0 = (Ret tt, w0)) ->
  ts_eventsClosed (st w) = false ->
  fst (TaskService_Shutdown cancel w) = Ret (Some tt, None) /\
  ts_eventsClosed (st (snd (TaskService_Shutdown cancel w))) = true /\
  ts_vm (st (snd (TaskService_Shutdown cancel w))) = ts_vm (st w) /\
  ts_events (st (snd (TaskService_Shutdown cancel w))) = ts_events (st w) /\
  (forall path, path <> Strings.drop 7 (ts_shimAddress (st w)) ->
                fs (snd (TaskService_Shutdown cancel w)) !! path = fs w !! path) /\
  fst (TaskService_Shutdown cancel' (snd (TaskService_Shutdown cancel w)))
  = Panic (PanicString "close of closed channel") /\
  (forall r undefine v d,
      ts_vm (st w) !! Delete_ID r = Some v ->
      vm_domain v = Some d ->
      Delete_ExecID r = "" ->
      fst (TaskService_Delete r undefine (snd (TaskService_Shutdown cancel w)))
      = Panic (PanicString "send on closed channel")).
Proof.
  intros Hcancel Hcancel' Hopen.
  destruct (Shutdown_run cancel w Hcancel) as (files & Hrun & Hframe).
  rewrite Hopen in Hrun.
  assert (Hfst : fst (TaskService_Shutdown cancel w) = Ret (Some tt, None))
    by (rewrite Hrun; reflexivity).
  assert (Hw1 : snd (TaskService_Shutdown cancel w)
                = logged InfoLevel None "Task Shutdown"
                    {| st := close_events (st w); fs := files; log := log w |})
    by (rewrite Hrun; reflexivity).
  clear Hrun. revert Hfst Hw1.
  generalize (snd (TaskService_Shutdown cancel w)) as w1.
  intros w1 Hfst ->.
  split; [exact Hfst|]. split; [reflexivity|]. split; [reflexivity|].
  split; [reflexivity|]. split; [exact Hframe|]. split.
  - destruct (Shutdown_run cancel'
                (logged InfoLevel None "Task Shutdown"
                   {| st := close_events (st w); fs := files; log := log w |}) Hcancel')
      as (files' & Hrun' & _).
    rewrite Hrun'. reflexivity.
  - intros r undefine v d Hv Hd Hexec.
    apply (Delete_after_close r undefine _ v d); [exact Hv | exact Hd | reflexivity | exact Hexec].
Qed.

Lemma Shutdown_is_final_witness :
  ts_eventsClosed (st listening_world) = false /\
  fs listening_world !! "/run/containerd/s/0a1b2c" = Some (File "") /\
  fst (TaskService_Shutdown cancel_context listening_world) = Ret (Some tt, None) /\
  fs (snd (TaskService_Shutdown cancel_context listening_world)) !! "/run/containerd/s/0a1b2c"
  = None /\
  fst (TaskService_Shutdown cancel_context
         (snd (TaskService_Shutdown cancel_context listening_world)))
  = Panic (PanicString "close of closed channel").
Proof.
  split; [reflexivity|]. split; [vm_compute; reflexivity|].
  destruct (Shutdown_is_final cancel_context cancel_context listening_world
              ltac:(reflexivity) ltac:(reflexivity) eq_refl)
    as (Hret & _ & _ & _ & _ & Hagain & _).
  split; [exact Hret|]. split; [vm_compute; reflexivity|]. exact Hagain.
Defined.

(** ** Which tasks the service knows *)

Lemma adds_weaken {A} (id0 : option string) (m : M (World TaskService) A) :
  adds_at_most None m -> adds_at_most id0 m.
Proof. intros H w id Hid. destruct (H w id Hid) as [?|?]; [left; assumption|discriminate]. Qed.

Lemma adds_ret {A} (id0 : option string) (a : A) : adds_at_most id0 (ret a).
Proof. intros w id H. left. exact H. Qed.

Lemma adds_panic {A} (id0 : option string) (p : panic_value) :
  adds_at_most id0 (@panic _ A p).
Proof. intros w id H. left. exact H. Qed.

Lemma adds_gets {A} (id0 : option string) (f : World TaskService -> A) :
  adds_at_most id0 (gets f).
Proof. intros w id H. left. exact H. Qed.

Lemma adds_logrus (id0 : option string) (lvl : Level) (err : option error) (msg : string) :
  adds_at_most id0 (logrus lvl err msg).
Proof. intros w id H. left. exact H. Qed.

Lemma adds_bind {A B} (id0 : option string)
    (m : M (World TaskService) A) (k : A -> M (World TaskService) B) :
  adds_at_most id0 m -> (forall a, adds_at_most id0 (k a)) -> adds_at_most id0 (bind m k).
Proof.
  intros Hm Hk w id. unfold bind. specialize (Hm w id).
  destruct (m w) as [[a|p] w1]; cbn [snd] in Hm |- *; [|exact Hm].
  intros H. destruct (Hk a w1 id H) as [H1|H1]; [apply Hm, H1 | right; exact H1].
Qed.

Lemma adds_on_vm {A} (id0 : option string) (id : string) (m : M (World VM) A) :
  adds_at_most id0 (on_vm id m).
Proof.
  intros w id'. unfold on_vm.
  destruct (ts_vm (st w) !! id) as [v|] eqn:Hv; [|left; assumption].
  destruct (m _) as [o w1]. cbn. intros H. left.
  destruct (decide (id = id')) as [<-|Hne]; [eauto|].
  rewrite lookup_insert_ne in H by exact Hne. exact H.
Qed.

Lemma adds_send (id0 : option string) (evt : Event) : adds_at_most id0 (send evt).
Proof.
  intros w id. unfold send, bind, gets, with_st, modify, panic.
  destruct (ts_eventsClosed (st w)); cbn; auto.
Qed.

Lemma adds_set_vm (id : string) (v : VM) : adds_at_most (Some id) (with_st (set_vm id v)).
Proof.
  intros w id'. cbn. intros H.
  destruct (decide (id = id')) as [<-|Hne]; [right; reflexivity|].
  rewrite lookup_insert_ne in H by exact Hne. left. exact H.
Qed.

Lemma adds_set_f (id0 : option string) (path : string) :
  adds_at_most id0 (with_st (set_f path)).
Proof. intros w id H. left. exact H. Qed.

Lemma adds_defer_log {A} (id0 : option string)
    (body : M (World TaskService) (A * option error)) (msg : string) :
  adds_at_most id0 body -> adds_at_most id0 (defer_log body msg).
Proof.
  intros Hb w id. unfold defer_log. specialize (Hb w id).
  destruct (body w) as [o w1]. exact Hb.
Qed.

Lemma adds_defer_logrus {A} (id0 : option string) (body : M (World TaskService) A)
    (lvl : Level) (err : option error) (msg : string) :
  adds_at_most id0 body -> adds_at_most id0 (defer body (logrus lvl err msg)).
Proof.
  intros Hb w id. unfold defer. specialize (Hb w id).
  destruct (body w) as [o w1]. exact Hb.
Qed.

Ltac adding :=
  repeat first
    [ apply adds_ret | apply adds_panic | apply adds_gets
    | apply adds_logrus | apply adds_on_vm | apply adds_send
    | apply adds_set_vm | apply adds_set_f
    | apply adds_defer_log | apply adds_defer_logrus
    | apply adds_bind; [|intros]
    | match goal with
      | |- adds_at_most _ (match ?x with _ => _ end) => destruct x
      | |- adds_at_most _ (let '(_, _) := ?x in _) => destruct x
      | |- adds_at_most _ (if ?b then _ else _) => destruct b
      end ].

Lemma Create_adds (r : CreateTaskRequest) (e : CreateEnv) :
  adds_at_most (Some (Create_ID r)) (TaskService_Create r e).
Proof.
  unfold TaskService_Create. apply adds_defer_log.
  destruct (create_openLog e); [apply adds_ret|].
  apply adds_bind; [apply adds_set_f|intros _].
  destruct (create_readSpec e) as [err|spec]; [adding|].
  destruct (NewVM _ _ _ _ _ _) as [[[vm|] [err|]]|p] eqn:Hnew; try (adding; fail).
  destruct (NewVM_fields _ _ _ _ _ _ _ Hnew) as (Hid & _). rewrite Hid.
  adding.
Qed.

Lemma service_step_adds (w : World TaskService) (op : ServiceOp) (id : string) :
  is_Some (ts_vm (st (service_step w op)) !! id) ->
  is_Some (ts_vm (st w) !! id) \/ creates id op = true.
Proof.
  assert (Hnone : forall A (m : M (World TaskService) A),
             adds_at_most None m ->
             is_Some (ts_vm (st (snd (m w))) !! id) -> is_Some (ts_vm (st w) !! id)).
  { intros A m Hm H. destruct (Hm w id H) as [?|?]; [assumption|discriminate]. }
  destruct op; cbn [service_step creates]; intros H.
  - destruct (Create_adds r e w id H) as [H1|H1]; [left; exact H1|].
    right. injection H1 as ->. apply String.eqb_refl.
  - left. revert H. apply Hnone. unfold TaskService_Start. adding.
  - left. revert H. apply Hnone. unfold TaskService_Delete. adding.
  - left. revert H. apply Hnone. unfold TaskService_Kill. adding.
  - left. revert H. apply Hnone. unfold TaskService_State. adding.
  - left. revert H. unfold TaskService_Wait.
    destruct (ts_vm (st w) !! Wait_ID r); [|auto].
    pose proof (adds_on_vm None (Wait_ID r) (Wait events now) w id) as Hw.
    destruct (on_vm (Wait_ID r) (Wait events now) w) as [[[[exitStatus err]|]|p] w1];
      cbn [snd st] in *; intros H; destruct (Hw H) as [?|?]; (assumption || discriminate).
  - left. revert H. apply Hnone. unfold TaskService_Connect. adding.
  - left. destruct c; exact H.
  - left. exact H.
Qed.

(** X22.  Only [Create] registers a task: after every sequence of calls, a
    task the service knows was known before or is named by a Create among
    the calls; so a service that [Init] has just made, whose map is empty,
    knows none but the tasks of the Creates it served. *)
Theorem only_Create_registers
    (ops : list ServiceOp) (id : string) :
  (forall w,
      is_Some (ts_vm (st (service_run ops w)) !! id) ->
      is_Some (ts_vm (st w) !! id) \/ existsb (creates id) ops = true) /\
  (forall s readAddress files,
      is_Some (ts_vm (st (service_run ops (world_of (shim_Init s readAddress) files))) !! id) ->
      existsb (creates id) ops = true).
Proof.
  assert (Hgen : forall w,
             is_Some (ts_vm (st (service_run ops w)) !! id) ->
             is_Some (ts_vm (st w) !! id) \/ existsb (creates id) ops = true).
  { unfold service_run. induction ops as [|op ops IH]; intros w H; cbn in *; [auto|].
    destruct (IH _ H) as [H1|H1].
    - destruct (service_step_adds w op id H1) as [H2|H2]; [auto|].
      right. rewrite H2. reflexivity.
    - right. rewrite H1. apply orb_true_r. }
  split; [exact Hgen|].
  intros s readAddress files H.
  destruct (Hgen _ H) as [[v Hv]|H1]; [|exact H1].
  cbn in Hv. rewrite lookup_empty in Hv. discriminate.
Qed.

Lemma only_Create_registers_witness :
  is_Some (ts_vm (st (service_run [SCreate sample_create sample_create_env;
                                   SStart {| Start_ID := "vm1"; Start_ExecID := "" |} None]
                        fresh_world)) !! "vm1") /\
  existsb (creates "vm1") [SCreate sample_create sample_create_env;
                           SStart {| Start_ID := "vm1"; Start_ExecID := "" |} None] = true /\
  ts_vm (st (service_run [SStart {| Start_ID := "vm1"; Start_ExecID := "" |} None]
               fresh_world)) !! "vm1" = None.
Proof.
  assert (H : is_Some (ts_vm (st (service_run
                                    [SCreate sample_create sample_create_env;
                                     SStart {| Start_ID := "vm1"; Start_ExecID := "" |} None]
                                    fresh_world)) !! "vm1")).
  { eexists. vm_compute. reflexivity. }
  split; [exact H|].
  destruct (only_Create_registers
              [SCreate sample_create sample_create_env;
               SStart {| Start_ID := "vm1"; Start_ExecID := "" |} None] "vm1") as [_ Hinit].
  split; [exact (Hinit _ _ _ H)|].
  vm_compute. reflexivity.
Defined.
